(** * Zero-touch provisioning: console automation and workflow state machine

    A shallow embedding of the Python package [ztp] (modules
    [ssh_manager], [orchestrator] and [netbox_client]) and of the script
    [zero_touch_provision], together with the properties its
    specification states about it and further properties of the code.

    Conventions of the embedding.
    - A Python [str] is a Rocq [string]; every character is read as a code
      point below 256.  [Py] gives the string methods the code calls
      ([lower], [strip], [in], [replace], comparison).
    - The standard [re] module is embedded as a backtracking matcher
      ([Re]); the patterns are parsed from the very pattern texts of the
      source.
    - Exceptions are values of [exn] (a class and its message); code that
      raises returns [Raise e].  Only exceptions derived from [Exception]
      are modelled; an interrupt from the keyboard is not.
    - The loop of [execute_device_command] is a function of the sequence
      of reads of the channel; its clock counts the seconds slept, and a
      reading of the clock comes a little after the sleep before it.  The
      loop is run with fuel, since it need not end.  Sending on the
      channel is taken not to fail there.
    - For the orchestrator the outside world (NetBox, paramiko, the
      device behind the console) is an oracle that answers each external
      call, [execute_device_command] included, by a value or by an
      exception; the calls made are recorded in a trace. *)

From Stdlib Require Import String Ascii List ZArith Lia Bool Arith PeanoNat.
From Stdlib Require Import DecimalString.
Import ListNotations.
Open Scope string_scope.
Open Scope nat_scope.

(* ================================================================== *)
(** ** Python strings *)

Module Py.

Definition code (c : ascii) : nat := nat_of_ascii c.

Definition between (lo hi n : nat) : bool := (lo <=? n) && (n <=? hi).

(** [str.isspace] on one character; also the class [\s] of [re]. *)
Definition isspace (c : ascii) : bool :=
  let n := code c in
  between 9 13 n || between 28 32 n || (n =? 133) || (n =? 160).

Definition isdigit (c : ascii) : bool := between 48 57 (code c).

Definition is_upper (c : ascii) : bool :=
  let n := code c in
  between 65 90 n || (between 192 222 n && negb (n =? 215)).

Definition is_lower (c : ascii) : bool :=
  let n := code c in
  between 97 122 n || (between 224 254 n && negb (n =? 247)).

Definition lower_char (c : ascii) : ascii :=
  if is_upper c then ascii_of_nat (code c + 32) else c.

Definition upper_char (c : ascii) : ascii :=
  if is_lower c then ascii_of_nat (code c - 32) else c.

(** [s.lower()] *)
Fixpoint lower (s : string) : string :=
  match s with
  | EmptyString => EmptyString
  | String c s' => String (lower_char c) (lower s')
  end.

Fixpoint lstrip (s : string) : string :=
  match s with
  | EmptyString => EmptyString
  | String c s' => if isspace c then lstrip s' else s
  end.

Fixpoint rstrip (s : string) : string :=
  match s with
  | EmptyString => EmptyString
  | String c s' =>
      match rstrip s' with
      | EmptyString => if isspace c then EmptyString else String c EmptyString
      | r => String c r
      end
  end.

(** [s.strip()] *)
Definition strip (s : string) : string := rstrip (lstrip s).

(** [s.startswith(p)] *)
Fixpoint startswith (p s : string) : bool :=
  match p, s with
  | EmptyString, _ => true
  | String a p', String b s' => Ascii.eqb a b && startswith p' s'
  | String _ _, EmptyString => false
  end.

(** [needle in hay] *)
Fixpoint contains (needle hay : string) : bool :=
  startswith needle hay ||
  match hay with
  | EmptyString => false
  | String _ hay' => contains needle hay'
  end.

(** [s.replace(old, new)] for a non-empty [old]: leftmost occurrences,
    not overlapping.  [skip] counts the characters of an occurrence that
    are still to be dropped. *)
Fixpoint replace_from (old new : string) (skip : nat) (s : string) : string :=
  match s with
  | EmptyString => EmptyString
  | String c s' =>
      match skip with
      | S k => replace_from old new k s'
      | O =>
          if startswith old s
          then new ++ replace_from old new (String.length old - 1) s'
          else String c (replace_from old new 0 s')
      end
  end.

Definition replace (old new s : string) : string := replace_from old new 0 s.

(** [a < b], [a >= b] on strings: lexicographic on code points. *)
Fixpoint lt (a b : string) : bool :=
  match a, b with
  | _, EmptyString => false
  | EmptyString, String _ _ => true
  | String x a', String y b' =>
      (code x <? code y) || ((code x =? code y) && lt a' b')
  end.

Definition ge (a b : string) : bool := negb (lt a b).

(** Truth value of a string and of an [Optional[str]]. *)
Definition truthy (s : string) : bool :=
  match s with EmptyString => false | _ => true end.

Definition truthy_opt (o : option string) : bool :=
  match o with Some s => truthy s | None => false end.

Definition str_eqb (a b : string) : bool := String.eqb a b.

(** [x in xs] for a list of strings. *)
Definition in_list (x : string) (xs : list string) : bool :=
  existsb (String.eqb x) xs.

(** [os.path.join(a, b)] on POSIX paths. *)
Definition ends_with_slash (a : string) : bool :=
  match rev (list_ascii_of_string a) with
  | c :: _ => Ascii.eqb c "/"%char
  | [] => false
  end.

Definition path_join (a b : string) : string :=
  if startswith "/" b then b
  else if negb (truthy a) || ends_with_slash a then a ++ b
  else a ++ "/" ++ b.

Definition nl : string := String (ascii_of_nat 10) EmptyString.
Definition crlf : string := String (ascii_of_nat 13) nl.

End Py.

(* ================================================================== *)
(** ** Regular expressions: the part of [re] the code uses

    A backtracking matcher in continuation-passing style.  Alternatives
    are tried from the left, a greedy repetition tries one more round
    first, a lazy one tries the rest of the pattern first; this is the
    order in which [re] explores a pattern, so the first match found is
    the match [re] returns. *)

Module Re.

Record flags : Type := mkFlags
  { ignorecase : bool; multiline : bool; dotall : bool }.

Definition NOFLAGS := mkFlags false false false.
Definition IGNORECASE := mkFlags true false false.
Definition MULTILINE := mkFlags false true false.
Definition MULTILINE_DOTALL := mkFlags false true true.

Inductive regex : Type :=
| Eps
| Chr (p : ascii -> bool)
| Seq (a b : regex)
| Alt (a b : regex)
| Star (greedy : bool) (r : regex)
| Group (i : nat) (r : regex)
| Bol (ml : bool)
| EndZ
| Look (r : regex).

Definition Plus (greedy : bool) (r : regex) : regex := Seq r (Star greedy r).
Definition Opt (greedy : bool) (r : regex) : regex :=
  if greedy then Alt r Eps else Alt Eps r.
Definition Never : regex := Chr (fun _ => false).

(** Matcher state: the character before the cursor (none at the start of
    the subject), the text from the cursor on, the groups captured. *)
Record mstate : Type := mkM
  { prev : option ascii; rest : string; caps : list (nat * string) }.

Fixpoint take (n : nat) (s : string) : string :=
  match n, s with
  | S n', String c s' => String c (take n' s')
  | _, _ => EmptyString
  end.

Definition consumed (before after : mstate) : string :=
  take (String.length (rest before) - String.length (rest after)) (rest before).

Definition is_newline (c : ascii) : bool := Py.code c =? 10.

Fixpoint m (r : regex) (s : mstate) (k : mstate -> option mstate)
  {struct r} : option mstate :=
  match r with
  | Eps => k s
  | Chr p =>
      match rest s with
      | String c t => if p c then k (mkM (Some c) t (caps s)) else None
      | EmptyString => None
      end
  | Seq a b => m a s (fun s' => m b s' k)
  | Alt a b =>
      match m a s k with
      | Some x => Some x
      | None => m b s k
      end
  | Star greedy r' =>
      (fix rounds (n : nat) (s : mstate) {struct n} : option mstate :=
         match n with
         | O => k s
         | S n' =>
             let more (_ : unit) :=
               m r' s (fun s' =>
                 if String.length (rest s') <? String.length (rest s)
                 then rounds n' s' else None) in
             if greedy
             then match more tt with Some x => Some x | None => k s end
             else match k s with Some x => Some x | None => more tt end
         end) (S (String.length (rest s))) s
  | Group i r' =>
      m r' s (fun s' => k (mkM (prev s') (rest s') ((i, consumed s s') :: caps s')))
  | Bol ml =>
      match prev s with
      | None => k s
      | Some c => if ml && is_newline c then k s else None
      end
  | EndZ =>
      match rest s with
      | EmptyString => k s
      | String _ _ => None
      end
  | Look r' =>
      match m r' s (fun s' => Some s') with
      | Some s' => k (mkM (prev s) (rest s) (caps s'))
      | None => None
      end
  end.

(** *** Reading a pattern text *)

Section Parser.
Variable fl : flags.

Definition lit (c : ascii) : regex :=
  Chr (fun x =>
         if ignorecase fl
         then Ascii.eqb (Py.lower_char x) (Py.lower_char c)
         else Ascii.eqb x c).

Definition set (p : ascii -> bool) : regex :=
  Chr (fun x =>
         if ignorecase fl
         then p x || p (Py.lower_char x) || p (Py.upper_char x)
         else p x).

Definition dot : regex :=
  Chr (fun x => dotall fl || negb (is_newline x)).

Definition hexval (c : ascii) : option nat :=
  let n := Py.code c in
  if Py.between 48 57 n then Some (n - 48)
  else if Py.between 97 102 n then Some (n - 87)
  else if Py.between 65 70 n then Some (n - 55)
  else None.

(** [\s], [\S], [\d] and escaped punctuation; letters without a meaning
    here are refused. *)
Definition escape (e : ascii) : option (ascii -> bool) :=
  if Ascii.eqb e "s" then Some Py.isspace
  else if Ascii.eqb e "S" then Some (fun x => negb (Py.isspace x))
  else if Ascii.eqb e "d" then Some Py.isdigit
  else if Ascii.eqb e "n" then Some is_newline
  else if Py.between 48 57 (Py.code e) || Py.is_upper e || Py.is_lower e then None
  else Some (Ascii.eqb e).

Fixpoint p_class (s : string) (acc : ascii -> bool)
  : option ((ascii -> bool) * string) :=
  match s with
  | EmptyString => None
  | String "]" t => Some (acc, t)
  | String "\" (String e t) =>
      match escape e with
      | Some p => p_class t (fun x => acc x || p x)
      | None => None
      end
  | String a (String "-" (String b t)) =>
      if Ascii.eqb b "]"
      then Some (fun x => acc x || Ascii.eqb x a || Ascii.eqb x "-", t)
      else p_class t (fun x => acc x || Py.between (Py.code a) (Py.code b) (Py.code x))
  | String a t => p_class t (fun x => acc x || Ascii.eqb x a)
  end.

Definition quantifier (r : regex) (s : string) : regex * string :=
  match s with
  | String "*" (String "?" t) => (Star false r, t)
  | String "*" t => (Star true r, t)
  | String "+" (String "?" t) => (Plus false r, t)
  | String "+" t => (Plus true r, t)
  | String "?" (String "?" t) => (Opt false r, t)
  | String "?" t => (Opt true r, t)
  | _ => (r, s)
  end.

Definition close (x : option (regex * string * nat)) (wrap : regex -> regex)
  : option (regex * string * nat) :=
  match x with
  | Some (r, String ")" t, n) => Some (wrap r, t, n)
  | _ => None
  end.

(** [n] is the number of capturing groups opened so far. *)
Fixpoint p_alt (fuel : nat) (s : string) (n : nat) {struct fuel}
  : option (regex * string * nat) :=
  match fuel with
  | O => None
  | S f =>
      match p_seq f s n with
      | Some (r, String "|" t, n1) =>
          match p_alt f t n1 with
          | Some (r2, t2, n2) => Some (Alt r r2, t2, n2)
          | None => None
          end
      | other => other
      end
  end
with p_seq (fuel : nat) (s : string) (n : nat) {struct fuel}
  : option (regex * string * nat) :=
  match fuel with
  | O => None
  | S f =>
      match s with
      | EmptyString | String ")" _ | String "|" _ => Some (Eps, s, n)
      | _ =>
          match p_atom f s n with
          | Some (a, t, n1) =>
              let (q, t1) := quantifier a t in
              match p_seq f t1 n1 with
              | Some (r, t2, n2) => Some (Seq q r, t2, n2)
              | None => None
              end
          | None => None
          end
      end
  end
with p_atom (fuel : nat) (s : string) (n : nat) {struct fuel}
  : option (regex * string * nat) :=
  match fuel with
  | O => None
  | S f =>
      match s with
      | EmptyString => None
      | String "(" (String "?" (String ":" t)) => close (p_alt f t n) (fun r => r)
      | String "(" (String "?" (String "=" t)) => close (p_alt f t n) Look
      | String "(" t => close (p_alt f t (S n)) (Group (S n))
      | String "[" t =>
          match p_class t (fun _ => false) with
          | Some (p, t1) => Some (set p, t1, n)
          | None => None
          end
      | String "\" (String "x" (String h1 (String h2 t))) =>
          match hexval h1, hexval h2 with
          | Some a, Some b => Some (lit (ascii_of_nat (16 * a + b)), t, n)
          | _, _ => None
          end
      | String "\" (String "Z" t) => Some (EndZ, t, n)
      | String "\" (String e t) =>
          match escape e with
          | Some p => Some (Chr p, t, n)
          | None => None
          end
      | String "." t => Some (dot, t, n)
      | String "^" t => Some (Bol (multiline fl), t, n)
      | String c t => Some (lit c, t, n)
      end
  end.

(** [re.compile(pattern, flags)]; a text that is no pattern of the
    supported part gives the pattern that matches nothing. *)
Definition parse (pattern : string) : option regex :=
  match p_alt (4 * String.length pattern + 4) pattern 0 with
  | Some (r, EmptyString, _) => Some r
  | _ => None
  end.

Definition compile (pattern : string) : regex :=
  match parse pattern with Some r => r | None => Never end.

End Parser.

(** *** [search], [findall], [sub] *)

Definition match_at (r : regex) (pv : option ascii) (s : string) : option mstate :=
  m r (mkM pv s []) (fun st => Some st).

(** Leftmost match from the cursor on: the text skipped before the match
    and the state at its end. *)
Fixpoint scan (r : regex) (pv : option ascii) (s : string)
  : option (string * mstate) :=
  match match_at r pv s with
  | Some st => Some (EmptyString, st)
  | None =>
      match s with
      | EmptyString => None
      | String c s' =>
          match scan r (Some c) s' with
          | Some (pre, st) => Some (String c pre, st)
          | None => None
          end
      end
  end.

(** [re.search(pattern, s, flags)], as the match object's groups. *)
Definition search (fl : flags) (pattern s : string) : option mstate :=
  match scan (compile fl pattern) None s with
  | Some (_, st) => Some st
  | None => None
  end.

Fixpoint lookup (i : nat) (cs : list (nat * string)) : option string :=
  match cs with
  | [] => None
  | (j, v) :: cs' => if i =? j then Some v else lookup i cs'
  end.

(** [match.group(i)] of a group that took part in the match; [findall]
    gives the empty string for one that did not. *)
Definition group (st : mstate) (i : nat) : string :=
  match lookup i (caps st) with Some v => v | None => EmptyString end.

Definition advanced (s : string) (pre : string) (st : mstate) : nat :=
  String.length s - String.length pre - String.length (rest st).

(** The successive matches, each found from the end of the one before;
    after an empty match the cursor moves by one character. *)
Fixpoint finditer (fuel : nat) (r : regex) (pv : option ascii) (s : string)
  : list mstate :=
  match fuel with
  | O => []
  | S f =>
      match scan r pv s with
      | None => []
      | Some (pre, st) =>
          st ::
          (if advanced s pre st =? 0
           then match rest st with
                | EmptyString => []
                | String c t => finditer f r (Some c) t
                end
           else finditer f r (prev st) (rest st))
      end
  end.

Definition matches (fl : flags) (pattern s : string) : list mstate :=
  finditer (S (String.length s)) (compile fl pattern) None s.

(** [re.findall] for a pattern with one group and with two groups. *)
Definition findall1 (fl : flags) (pattern s : string) : list string :=
  map (fun st => group st 1) (matches fl pattern s).

Definition findall2 (fl : flags) (pattern s : string) : list (string * string) :=
  map (fun st => (group st 1, group st 2)) (matches fl pattern s).

(** [re.sub(pattern, repl, s)] for a literal replacement. *)
Fixpoint sub_from (fuel : nat) (r : regex) (repl : string)
  (pv : option ascii) (s : string) : string :=
  match fuel with
  | O => s
  | S f =>
      match scan r pv s with
      | None => s
      | Some (pre, st) =>
          if advanced s pre st =? 0
          then match rest st with
               | EmptyString => pre ++ repl
               | String c t => pre ++ repl ++ String c (sub_from f r repl (Some c) t)
               end
          else pre ++ repl ++ sub_from f r repl (prev st) (rest st)
      end
  end.

Definition sub (fl : flags) (pattern repl s : string) : string :=
  sub_from (S (String.length s)) (compile fl pattern) repl None s.

End Re.

(* ================================================================== *)
(** ** Exceptions *)

(** The exception classes of the package, the two of paramiko that
    [SSHManager.connect] tells apart, and a few built-in ones standing
    for whatever else a library call may raise. *)
Inductive exn_class : Type :=
| Exception
| OSError
| AttributeError
| ValueError
| SSHException
| AuthenticationException
| NoValidConnectionsError
| SSHError
| ConnectionError
| CommandExecutionError
| NetBoxClientError
| DeviceNotFoundError
| ConfigurationNotFoundError
| ProvisioningError
| DeviceVerificationError
| ConfigurationDeploymentError.

Definition exn_class_eqb (a b : exn_class) : bool :=
  match a, b with
  | Exception, Exception | OSError, OSError | AttributeError, AttributeError
  | ValueError, ValueError
  | SSHException, SSHException
  | AuthenticationException, AuthenticationException
  | NoValidConnectionsError, NoValidConnectionsError
  | SSHError, SSHError | ConnectionError, ConnectionError
  | CommandExecutionError, CommandExecutionError
  | NetBoxClientError, NetBoxClientError
  | DeviceNotFoundError, DeviceNotFoundError
  | ConfigurationNotFoundError, ConfigurationNotFoundError
  | ProvisioningError, ProvisioningError
  | DeviceVerificationError, DeviceVerificationError
  | ConfigurationDeploymentError, ConfigurationDeploymentError => true
  | _, _ => false
  end.

(** The class a class is declared from. *)
Definition base (c : exn_class) : option exn_class :=
  match c with
  | Exception => None
  | OSError | AttributeError | ValueError | SSHException
  | SSHError | NetBoxClientError | ProvisioningError => Some Exception
  | AuthenticationException => Some SSHException
  | NoValidConnectionsError => Some OSError
  | ConnectionError | CommandExecutionError => Some SSHError
  | DeviceNotFoundError | ConfigurationNotFoundError => Some NetBoxClientError
  | DeviceVerificationError | ConfigurationDeploymentError => Some ProvisioningError
  end.

Fixpoint issubclass_upto (depth : nat) (c d : exn_class) : bool :=
  exn_class_eqb c d ||
  match depth, base c with
  | S k, Some b => issubclass_upto k b d
  | _, _ => false
  end.

Definition issubclass : exn_class -> exn_class -> bool := issubclass_upto 3.

Record exn : Type := mkExn { cls : exn_class; message : string }.

(** [isinstance(e, c)]: what an [except c] clause tests. *)
Definition isinstance (e : exn) (c : exn_class) : bool := issubclass (cls e) c.

Inductive result (A : Type) : Type :=
| Return (a : A)
| Raise (e : exn).
Arguments Return {A} a.
Arguments Raise {A} e.

Definition str_of_int (z : Z) : string := NilZero.string_of_int (Z.to_int z).

(* ================================================================== *)
(** ** Module [ssh_manager] *)

(** What a connection manager does while connecting: calls of
    [paramiko.SSHClient.connect] and sleeps. *)
Inductive conn_event : Type :=
| TryConnect (attempt : nat)
| Sleep (secs : Z).

(** [time.sleep(secs)]: a sleep of negative length is refused. *)
Definition sleep (secs : Z) : result unit * list conn_event :=
  if (secs <? 0)%Z
  then (Raise (mkExn ValueError "sleep length must be non-negative"), [])
  else (Return tt, [Sleep secs]).

Module SSHManager.

(** One round of the [for attempt in range(1, retries + 1)] loop of
    [connect]; [outcome attempt] is what [self.client.connect] does at
    that attempt.  The result is [None] when the loop goes on.  The
    sleep stands in an [except] clause: what it raises leaves
    [connect] as it is. *)
Definition attempt_once (outcome : nat -> result unit) (retries retry_delay : Z)
  (attempt : nat) : option (result unit) * list conn_event :=
  match outcome attempt with
  | Return _ => (Some (Return tt), [TryConnect attempt])
  | Raise e =>
      if isinstance e AuthenticationException then
        (Some (Raise (mkExn ConnectionError ("Authentication failed: " ++ message e))),
         [TryConnect attempt])
      else if isinstance e NoValidConnectionsError then
        if (Z.of_nat attempt <? retries)%Z
        then match sleep retry_delay with
             | (Return _, slept) => (None, TryConnect attempt :: slept)
             | (Raise refused, slept) => (Some (Raise refused), TryConnect attempt :: slept)
             end
        else (Some (Raise (mkExn ConnectionError
                ("Failed to connect after " ++ str_of_int retries
                 ++ " attempts: " ++ message e))),
              [TryConnect attempt])
      else if isinstance e SSHException then
        (Some (Raise (mkExn ConnectionError ("SSH error: " ++ message e))),
         [TryConnect attempt])
      else
        (Some (Raise (mkExn ConnectionError ("Connection failed: " ++ message e))),
         [TryConnect attempt])
  end.

Fixpoint connect_loop (outcome : nat -> result unit) (retries retry_delay : Z)
  (attempts : list nat) : result unit * list conn_event :=
  match attempts with
  | [] => (Return tt, [])
  | attempt :: later =>
      match attempt_once outcome retries retry_delay attempt with
      | (Some r, evs) => (r, evs)
      | (None, evs) =>
          let (r, evs') := connect_loop outcome retries retry_delay later in
          (r, (evs ++ evs')%list)
      end
  end.

(** [SSHManager.connect(retries, retry_delay)] *)
Definition connect (outcome : nat -> result unit) (retries retry_delay : Z)
  : result unit * list conn_event :=
  connect_loop outcome retries retry_delay (seq 1 (Z.to_nat retries)).

End SSHManager.

Module ConsoleManager.

Definition attempt_once (outcome : nat -> result unit) (retries retry_delay : Z)
  (attempt : nat) : option (result unit) * list conn_event :=
  match outcome attempt with
  | Return _ => (Some (Return tt), [TryConnect attempt])
  | Raise e =>
      if (Z.of_nat attempt <? retries)%Z
      then match sleep retry_delay with
           | (Return _, slept) => (None, TryConnect attempt :: slept)
           | (Raise refused, slept) => (Some (Raise refused), TryConnect attempt :: slept)
           end
      else (Some (Raise (mkExn ConnectionError
              ("Failed to connect to terminal server after "
               ++ str_of_int retries ++ " attempts: " ++ message e))),
            [TryConnect attempt])
  end.

Fixpoint connect_loop (outcome : nat -> result unit) (retries retry_delay : Z)
  (attempts : list nat) : result unit * list conn_event :=
  match attempts with
  | [] => (Return tt, [])
  | attempt :: later =>
      match attempt_once outcome retries retry_delay attempt with
      | (Some r, evs) => (r, evs)
      | (None, evs) =>
          let (r, evs') := connect_loop outcome retries retry_delay later in
          (r, (evs ++ evs')%list)
      end
  end.

(** [ConsoleManager.connect(retries, retry_delay)] *)
Definition connect (outcome : nat -> result unit) (retries retry_delay : Z)
  : result unit * list conn_event :=
  connect_loop outcome retries retry_delay (seq 1 (Z.to_nat retries)).

(** *** [execute_device_command]

    The clock.  [time.sleep(1)] takes one second and a little, and what
    is done between two readings of the clock takes a little as well:
    more than nothing, and less than a second for all the rounds made
    since the clock was last set.  The model counts the seconds slept:
    [now] is the number of sleeps made, [start_time] its value when the
    clock was last set.  So [time.time() - start_time] lies a little
    above [now - start_time], and for a whole number [n] of seconds the
    test [time.time() - start_time > n] holds exactly when
    [n <= now - start_time] ([later_than]): after [n] sleeps the clock
    already reads more than [n] seconds.

    The channel is a sequence of reads: [reads 0] is what the call finds
    in the buffer and drops, [reads i] is what [_read_channel] returns
    at the [i]-th round of the loop. *)

Record cmd_args : Type := mkArgs
  { command : string;
    wait_time : Z;
    expect : option string;
    timeout : Z;
    handle_pagination : bool;
    auto_confirm : bool }.

(** The defaults of the signature. *)
Definition args (command : string) : cmd_args :=
  mkArgs command 5 None 120 true false.

Record loop_state : Type := mkLoop
  { now : Z;
    start_time : Z;
    output : string;
    pagination_count : nat;
    confirmation_sent : bool;
    sent : list string }.

Definition max_pagination : nat := 50.

Definition confirmation_patterns : list string :=
  [ "Destination filename \[.*?\]\?";
    "\[confirm\]";
    "\(y/n\)";
    "\[yes/no\]" ].

Definition with_send (s : string) (st : loop_state) : loop_state :=
  mkLoop (now st) (start_time st) (output st) (pagination_count st)
         (confirmation_sent st) (sent st ++ [s])%list.

Definition reset_clock (st : loop_state) : loop_state :=
  mkLoop (now st) (now st) (output st) (pagination_count st)
         (confirmation_sent st) (sent st).

(** The [for pattern in confirmation_patterns] loop with its [break]. *)
Fixpoint confirm (patterns : list string) (chunk : string) (st : loop_state)
  : loop_state :=
  match patterns with
  | [] => st
  | pattern :: later =>
      match Re.search Re.IGNORECASE pattern chunk with
      | Some _ =>
          let st1 := with_send Py.nl st in
          reset_clock (mkLoop (now st1) (start_time st1) (output st1)
                              (pagination_count st1) true (sent st1))
      | None => confirm later chunk st
      end
  end.

(** [time.time() - start_time > n] *)
Definition later_than (n : Z) (st : loop_state) : bool :=
  (n <=? now st - start_time st)%Z.

Definition has_pager (chunk : string) : bool :=
  Py.contains "--More--" chunk || Py.contains "-- More --" chunk.

(** The checks of a round that come after the pager check:
    confirmation, expected text, timeout, quiescence. *)
Definition later_checks (a : cmd_args) (st0 : loop_state) (chunk : string)
  : loop_state * bool :=
  let st1 :=
    if auto_confirm a && negb (confirmation_sent st0)
    then confirm confirmation_patterns chunk st0
    else st0 in
  if Py.truthy_opt (expect a)
     && match expect a with Some e => Py.contains e (output st1) | None => false end
  then (st1, false)
  else if later_than (timeout a) st1
  then (st1, false)
  else if negb (Py.truthy_opt (expect a)) && later_than (wait_time a) st1
  then if Py.truthy chunk then (reset_clock st1, true) else (st1, false)
  else (st1, true).

(** One round of [while True]; the flag says whether the loop goes on. *)
Definition round (a : cmd_args) (st : loop_state) (chunk : string)
  : loop_state * bool :=
  let st0 := mkLoop (now st + 1)%Z (start_time st) (output st ++ chunk)
                    (pagination_count st) (confirmation_sent st) (sent st) in
  if handle_pagination a && (pagination_count st0 <? max_pagination)
     && has_pager chunk
  then
    let st1 := with_send " " st0 in
    (reset_clock (mkLoop (now st1) (start_time st1) (output st1)
                         (S (pagination_count st1)) (confirmation_sent st1)
                         (sent st1)), true)
  else later_checks a st0 chunk.

(** The state after at most [n] rounds, from round [i] on, and whether
    the loop is still going. *)
Fixpoint rounds (a : cmd_args) (reads : nat -> string) (n i : nat)
  (st : loop_state) : loop_state * bool :=
  match n with
  | O => (st, true)
  | S k =>
      let (st', again) := round a st (reads i) in
      if again then rounds a reads k (S i) st' else (st', false)
  end.

Definition start (t0 : Z) : loop_state := mkLoop t0 t0 "" 0 false [].

(** The loop run for at most [fuel] rounds: the state at its [break], or
    [None] when it is still going. *)
Definition loop (a : cmd_args) (reads : nat -> string) (t0 : Z) (fuel : nat)
  : option loop_state :=
  match rounds a reads fuel 1 (start t0) with
  | (st, false) => Some st
  | (_, true) => None
  end.

(** [execute_device_command]: the value returned and everything sent on
    the channel, or [None] when the loop has not ended within [fuel]
    rounds.  [channel] says whether [self.channel] is set. *)
Definition execute_device_command (channel : bool) (a : cmd_args)
  (reads : nat -> string) (t0 : Z) (fuel : nat)
  : option (result string * list string) :=
  if negb channel
  then Some (Raise (mkExn CommandExecutionError "Console channel not established"), [])
  else
    match loop a reads t0 fuel with
    | Some st => Some (Return (output st), (command a ++ Py.nl) :: sent st)
    | None => None
    end.

(** *** [parse_show_version] *)

Definition patterns : list string :=
  [ "Model [Nn]umber\s*:?\s*\S+\s+[Ss]ystem [Ss]erial [Nn]umber\s*:?\s*(\S+)";
    "[Ss]ystem [Ss]erial [Nn]umber\s*:?\s*(\S+)";
    "[Ss]erial\s+[Nn]umber\s*:?\s+(\S+)";
    "[Pp]rocessor [Bb]oard ID\s+(\S+)";
    "Chassis Serial Number\s*:?\s+(\S+)";
    "Serial [Nn]um\s*:?\s*(\S+)";
    "SN\s*:?\s*(\S+)" ].

Definition placeholders : list string := ["none"; "n/a"; "unknown"; ""].

(** The [for pattern in patterns] loop. *)
Fixpoint first_serial (ps : list string) (cleaned_output : string)
  : option string :=
  match ps with
  | [] => None
  | pattern :: later =>
      match Re.search Re.IGNORECASE pattern cleaned_output with
      | Some mt =>
          let serial := Py.strip (Re.group mt 1) in
          if Py.truthy serial && negb (Py.in_list (Py.lower serial) placeholders)
          then Some serial
          else first_serial later cleaned_output
      | None => first_serial later cleaned_output
      end
  end.

Definition clean (output : string) : string :=
  let cleaned_output := Py.replace "-- More --" "" (Py.replace "--More--" "" output) in
  let cleaned_output := Re.sub Re.NOFLAGS "\x08+" "" cleaned_output in
  Re.sub Re.NOFLAGS "\x1b\[[0-9;]*[a-zA-Z]" "" cleaned_output.

Definition parse_show_version (output : string) : option string :=
  first_serial patterns (clean output).

End ConsoleManager.

(* ================================================================== *)
(** ** Module [orchestrator] *)

Module Orchestrator.

Inductive ProvisioningState : Type :=
| INITIALIZED
| NETBOX_CONNECTED
| CONFIG_RETRIEVED
| FTP_FILE_CREATED
| CONSOLE_CONNECTED
| DEVICE_VERIFIED
| CONFIG_COPIED_TO_FLASH
| CONFIG_APPLIED
| COMPLETED
| FAILED.

(** The [.value] of an enum member. *)
Definition value (s : ProvisioningState) : string :=
  match s with
  | INITIALIZED => "initialized"
  | NETBOX_CONNECTED => "netbox_connected"
  | CONFIG_RETRIEVED => "config_retrieved"
  | FTP_FILE_CREATED => "ftp_file_created"
  | CONSOLE_CONNECTED => "console_connected"
  | DEVICE_VERIFIED => "device_verified"
  | CONFIG_COPIED_TO_FLASH => "config_copied_to_flash"
  | CONFIG_APPLIED => "config_applied"
  | COMPLETED => "completed"
  | FAILED => "failed"
  end.

(** *** The outside world

    Every call that leaves the orchestrator is recorded in a trace and
    answered by the world; the answer may depend on the call and on how
    many calls came before it.  A call of [execute_device_command] is
    answered as a whole here (its loop is [ConsoleManager.round]). *)
Inductive call : Type :=
| NetBoxClient_new
| get_device_config (device_name : string)
| get_device_serial (device_name : string)
| SSHManager_connect
| create_remote_file (remote_path content : string)
| execute_command (command : string)
| SSHManager_close
| ConsoleManager_connect
| connect_to_console (console_port : Z)
| channel_send (data : string)
| read_channel
| execute_device_command (command : string) (wait_time timeout : Z) (auto_confirm : bool)
| ConsoleManager_close.

(** [_read_channel] swallows its exceptions, so it always answers. *)
Definition reply (c : call) : Type :=
  match c with
  | read_channel => string
  | get_device_config _ | get_device_serial _
  | execute_device_command _ _ _ _ => result string
  | execute_command _ => result (string * string * Z)
  | _ => result unit
  end.

Definition World : Type := nat -> forall c : call, reply c.

(** The attributes of [ProvisioningOrchestrator] the workflow uses; a
    client attribute is [true] once it is set. *)
Record orchestrator : Type := mkOrch
  { device_name : string;
    console_port : Z;
    ftp_server_ip : string;
    ftp_username : string;
    ftp_password : string;
    ftp_directory : string;
    state : ProvisioningState;
    netbox_client : bool;
    ssh_manager : bool;
    console_manager : bool;
    device_config : option string;
    expected_serial : option string;
    actual_serial : option string;
    config_filename : option string }.

(** [__init__] *)
Definition init (device_name : string) (console_port : Z)
  (ftp_server_ip ftp_username ftp_password ftp_directory : string)
  : orchestrator :=
  mkOrch device_name console_port ftp_server_ip ftp_username ftp_password
         ftp_directory INITIALIZED false false false None None None None.

Definition set_state (v : ProvisioningState) (o : orchestrator) :=
  mkOrch (device_name o) (console_port o) (ftp_server_ip o) (ftp_username o)
         (ftp_password o) (ftp_directory o) v (netbox_client o) (ssh_manager o)
         (console_manager o) (device_config o) (expected_serial o)
         (actual_serial o) (config_filename o).
Definition set_netbox_client (o : orchestrator) :=
  mkOrch (device_name o) (console_port o) (ftp_server_ip o) (ftp_username o)
         (ftp_password o) (ftp_directory o) (state o) true (ssh_manager o)
         (console_manager o) (device_config o) (expected_serial o)
         (actual_serial o) (config_filename o).
Definition set_ssh_manager (o : orchestrator) :=
  mkOrch (device_name o) (console_port o) (ftp_server_ip o) (ftp_username o)
         (ftp_password o) (ftp_directory o) (state o) (netbox_client o) true
         (console_manager o) (device_config o) (expected_serial o)
         (actual_serial o) (config_filename o).
Definition set_console_manager (o : orchestrator) :=
  mkOrch (device_name o) (console_port o) (ftp_server_ip o) (ftp_username o)
         (ftp_password o) (ftp_directory o) (state o) (netbox_client o)
         (ssh_manager o) true (device_config o) (expected_serial o)
         (actual_serial o) (config_filename o).
Definition set_device_config (v : string) (o : orchestrator) :=
  mkOrch (device_name o) (console_port o) (ftp_server_ip o) (ftp_username o)
         (ftp_password o) (ftp_directory o) (state o) (netbox_client o)
         (ssh_manager o) (console_manager o) (Some v) (expected_serial o)
         (actual_serial o) (config_filename o).
Definition set_expected_serial (v : string) (o : orchestrator) :=
  mkOrch (device_name o) (console_port o) (ftp_server_ip o) (ftp_username o)
         (ftp_password o) (ftp_directory o) (state o) (netbox_client o)
         (ssh_manager o) (console_manager o) (device_config o) (Some v)
         (actual_serial o) (config_filename o).
Definition set_actual_serial (v : option string) (o : orchestrator) :=
  mkOrch (device_name o) (console_port o) (ftp_server_ip o) (ftp_username o)
         (ftp_password o) (ftp_directory o) (state o) (netbox_client o)
         (ssh_manager o) (console_manager o) (device_config o) (expected_serial o)
         v (config_filename o).
Definition set_config_filename (v : string) (o : orchestrator) :=
  mkOrch (device_name o) (console_port o) (ftp_server_ip o) (ftp_username o)
         (ftp_password o) (ftp_directory o) (state o) (netbox_client o)
         (ssh_manager o) (console_manager o) (device_config o) (expected_serial o)
         (actual_serial o) (Some v).

Record machine : Type := mkMachine { self : orchestrator; trace : list call }.

(** *** A state and exception monad *)

Definition M (A : Type) : Type := machine -> result A * machine.

Definition ret {A} (a : A) : M A := fun mc => (Return a, mc).
Definition raise {A} (e : exn) : M A := fun mc => (Raise e, mc).
Definition bind {A B} (x : M A) (f : A -> M B) : M B :=
  fun mc =>
    match x mc with
    | (Return a, mc') => f a mc'
    | (Raise e, mc') => (Raise e, mc')
    end.

Notation "x <- c ;; k" := (bind c (fun x => k))
  (at level 61, c at next level, right associativity).
Notation "c ;; k" := (bind c (fun _ => k))
  (at level 61, right associativity).

(** [try: body / except ...: handler] *)
Definition try {A} (body : M A) (handler : exn -> M A) : M A :=
  fun mc =>
    match body mc with
    | (Return a, mc') => (Return a, mc')
    | (Raise e, mc') => handler e mc'
    end.

(** [try: body / finally: last], for a [last] that does not raise. *)
Definition finally {A} (body : M A) (last : M unit) : M A :=
  fun mc =>
    match body mc with
    | (r, mc') => (r, snd (last mc'))
    end.

Definition get : M orchestrator := fun mc => (Return (self mc), mc).
Definition modify (f : orchestrator -> orchestrator) : M unit :=
  fun mc => (Return tt, mkMachine (f (self mc)) (trace mc)).
Definition lift {A} (r : result A) : M A := fun mc => (r, mc).

Definition fmt (o : option string) : string :=
  match o with Some s => s | None => "None" end.

Definition new (cl : exn_class) (msg : string) : exn := mkExn cl msg.

Section Run.
Variable w : World.

(** Asking the world: the call goes to the trace, the answer comes
    from [w]. *)
Definition ask (c : call) : machine -> reply c * machine :=
  fun mc => (w (List.length (trace mc)) c, mkMachine (self mc) (trace mc ++ [c])%list).

Definition ask_unit (c : call) (r : reply c -> result unit) : M unit :=
  fun mc => let (a, mc') := ask c mc in (r a, mc').

Definition netbox_new : M unit := ask_unit NetBoxClient_new (fun a => a).
Definition ssh_connect : M unit := ask_unit SSHManager_connect (fun a => a).
Definition ssh_close : M unit := ask_unit SSHManager_close (fun a => a).
Definition console_connect : M unit := ask_unit ConsoleManager_connect (fun a => a).
Definition console_close : M unit := ask_unit ConsoleManager_close (fun a => a).
Definition console_open (port : Z) : M unit :=
  ask_unit (connect_to_console port) (fun a => a).
Definition send (data : string) : M unit := ask_unit (channel_send data) (fun a => a).
Definition ssh_create (remote_path content : string) : M unit :=
  ask_unit (create_remote_file remote_path content) (fun a => a).

Definition nb_config (name : string) : M string :=
  fun mc => ask (get_device_config name) mc.
Definition nb_serial (name : string) : M string :=
  fun mc => ask (get_device_serial name) mc.
Definition ssh_exec (command : string) : M (string * string * Z) :=
  fun mc => ask (execute_command command) mc.
Definition _read_channel : M string :=
  fun mc => let (a, mc') := ask read_channel mc in (Return a, mc').
Definition device_command (command : string) (wait_time timeout : Z)
  (auto_confirm : bool) : M string :=
  fun mc => ask (execute_device_command command wait_time timeout auto_confirm) mc.

(** **** Step 1 *)
Definition _step_retrieve_netbox_config : M unit :=
  try
    (netbox_new ;;
     modify set_netbox_client ;;
     modify (set_state NETBOX_CONNECTED) ;;
     o <- get ;;
     cfg <- nb_config (device_name o) ;;
     modify (set_device_config cfg) ;;
     serial <- nb_serial (device_name o) ;;
     modify (set_expected_serial serial) ;;
     modify (set_state CONFIG_RETRIEVED))
    (fun e =>
       if isinstance e DeviceNotFoundError || isinstance e ConfigurationNotFoundError
       then raise (new ProvisioningError
                     ("Failed to retrieve device information: " ++ message e))
       else if isinstance e NetBoxClientError
       then raise (new ProvisioningError ("NetBox connection failed: " ++ message e))
       else raise e).

(** **** Step 2 *)
Definition _step_create_ftp_file : M unit :=
  try
    (o <- get ;;
     let config_filename := device_name o ++ ".txt" in
     modify (set_config_filename config_filename) ;;
     let remote_path := Py.path_join (ftp_directory o) config_filename in
     modify set_ssh_manager ;;
     ssh_connect ;;
     ssh_create remote_path (fmt (device_config o)) ;;
     r <- ssh_exec ("ls -lh " ++ remote_path) ;;
     let '(stdout, stderr, exit_code) := r in
     if (exit_code =? 0)%Z
     then modify (set_state FTP_FILE_CREATED)
     else raise (new CommandExecutionError ("File verification failed: " ++ stderr)))
    (fun e =>
       if isinstance e SSHError
       then raise (new ProvisioningError ("Failed to create FTP file: " ++ message e))
       else raise e).

(** **** Step 3 *)
Definition _enter_enable_mode : M unit :=
  try
    (send Py.crlf ;;
     output <- _read_channel ;;
     if Py.contains "#" output then ret tt
     else
       send ("enable" ++ Py.crlf) ;;
       output <- _read_channel ;;
       (if Py.contains "password:" (Py.lower output) || Py.contains "Password:" output
        then send Py.crlf ;; _read_channel ;; ret tt
        else ret tt) ;;
       send Py.crlf ;;
       output <- _read_channel ;;
       if negb (Py.contains "#" output)
       then raise (new ProvisioningError
                     ("Unable to enter enable mode. Device may require enable password. "
                      ++ "Please configure device with no enable password or update tool to support it."))
       else ret tt)
    (fun e => raise (new ProvisioningError ("Failed to enter enable mode: " ++ message e))).

Definition _step_connect_to_console : M unit :=
  try
    (o <- get ;;
     modify set_console_manager ;;
     console_connect ;;
     console_open (console_port o) ;;
     modify (set_state CONSOLE_CONNECTED) ;;
     send Py.nl ;;
     _enter_enable_mode)
    (fun e =>
       if isinstance e ConnectionError || isinstance e CommandExecutionError
       then raise (new ProvisioningError ("Failed to connect to console: " ++ message e))
       else raise e).

(** **** Step 4 *)
Definition _step_verify_device : M unit :=
  try
    (device_command "terminal length 0" 2 120 false ;;
     output <- device_command "show version" 10 120 false ;;
     modify (set_actual_serial (ConsoleManager.parse_show_version output)) ;;
     o <- get ;;
     match actual_serial o with
     | None =>
         raise (new DeviceVerificationError
                  "Failed to extract serial number from 'show version' output")
     | Some actual =>
         if negb (Py.truthy actual)
         then raise (new DeviceVerificationError
                       "Failed to extract serial number from 'show version' output")
         else
           match expected_serial o with
           | None => raise (new AttributeError
                              "'NoneType' object has no attribute 'lower'")
           | Some expected =>
               if negb (String.eqb (Py.lower expected) (Py.lower actual))
               then raise (new DeviceVerificationError
                             ("Serial number mismatch! Expected '" ++ expected
                              ++ "', but device reports '" ++ actual
                              ++ "'. Aborting to prevent misconfiguration."))
               else modify (set_state DEVICE_VERIFIED)
           end
     end)
    (fun e =>
       if isinstance e DeviceVerificationError then raise e
       else raise (new ProvisioningError ("Failed to verify device: " ++ message e))).

(** **** Step 5 *)
Definition copy_command (o : orchestrator) : string :=
  "copy " ++ ("ftp://" ++ ftp_username o ++ ":" ++ ftp_password o
              ++ "@" ++ ftp_server_ip o ++ "//" ++ fmt (config_filename o))
  ++ " flash: vrf Mgmt-vrf".

Definition _step_copy_config_to_flash : M unit :=
  try
    (o <- get ;;
     output <- device_command (copy_command o) 30 300 true ;;
     if Py.contains "bytes copied" (Py.lower output) || Py.contains "ok" (Py.lower output)
     then modify (set_state CONFIG_COPIED_TO_FLASH)
     else if Py.contains "error" (Py.lower output) || Py.contains "fail" (Py.lower output)
     then raise (new ConfigurationDeploymentError
                   ("Failed to copy configuration to flash: " ++ output))
     else ret tt)
    (fun e =>
       if isinstance e ConfigurationDeploymentError then raise e
       else raise (new ProvisioningError ("Failed to copy config to flash: " ++ message e))).


(** **** Verification markers *)

Definition interface_pattern : string :=
  "^interface\s+(\S+).*?(?:description\s+(.+?))?(?=^interface|\Z)".

Definition hostname_markers (device_config : string) : list (string * string) :=
  match Re.search Re.MULTILINE "^hostname\s+(\S+)" device_config with
  | Some hostname_match => [("hostname", Re.group hostname_match 1)]
  | None => []
  end.

Fixpoint described (interface_matches : list (string * string))
  : list (string * string) :=
  match interface_matches with
  | [] => []
  | (intf, desc) :: later =>
      if Py.truthy desc && Py.truthy (Py.strip desc)
      then ("interface", intf) :: described later
      else described later
  end.

Definition interface_markers (device_config : string) : list (string * string) :=
  let interface_matches :=
    Re.findall2 Re.MULTILINE_DOTALL interface_pattern device_config in
  described (firstn 3 interface_matches).

Definition vlan_markers (device_config : string) : list (string * string) :=
  let vlan_matches := Re.findall1 Re.MULTILINE "^vlan\s+(\d+)" device_config in
  map (fun vlan => ("vlan", vlan)) (firstn 3 vlan_matches).

Definition ip_markers (device_config : string) : list (string * string) :=
  let ip_matches :=
    Re.findall2 Re.NOFLAGS
      "ip address\s+(\d+\.\d+\.\d+\.\d+)\s+(\d+\.\d+\.\d+\.\d+)" device_config in
  map (fun '(ip, mask) => ("ip_address", ip)) (firstn 2 ip_matches).

(** [_extract_verification_markers], on [self.device_config]. *)
Definition _extract_verification_markers (device_config : option string)
  : list (string * string) :=
  match device_config with
  | None => []
  | Some cfg =>
      if negb (Py.truthy cfg) then []
      else (hostname_markers cfg ++ interface_markers cfg
            ++ vlan_markers cfg ++ ip_markers cfg)%list
  end.

Definition verify_cmd (item_type item_value : string) : string :=
  if String.eqb item_type "hostname"
  then "show running-config | include hostname"
  else if String.eqb item_type "interface"
  then "show running-config interface " ++ item_value ++ " | include description"
  else if String.eqb item_type "vlan"
  then "show running-config | include vlan " ++ item_value
  else "show running-config | include " ++ item_value.

(** The [for item_type, item_value in verification_items] loop; a
    command that raises leaves the item unchecked. *)
Fixpoint check_items (items failed_items : list (string * string))
  : M (list (string * string)) :=
  match items with
  | [] => ret failed_items
  | (item_type, item_value) :: later =>
      failed <- try
        (output <- device_command (verify_cmd item_type item_value) 5 30 false ;;
         if negb (Py.contains (Py.lower item_value) (Py.lower output))
         then ret (failed_items ++ [(item_type, item_value)])%list
         else ret failed_items)
        (fun _ => ret failed_items) ;;
      check_items later failed
  end.

Fixpoint join (sep : string) (xs : list string) : string :=
  match xs with
  | [] => ""
  | [x] => x
  | x :: xs' => x ++ sep ++ join sep xs'
  end.

Definition _verify_configuration_applied : M unit :=
  o <- get ;;
  let verification_items := _extract_verification_markers (device_config o) in
  match verification_items with
  | [] => ret tt
  | _ =>
      failed_items <- check_items verification_items [] ;;
      match failed_items with
      | [] => ret tt
      | _ =>
          let failed_list :=
            join Py.nl (map (fun '(t, v) => "  - " ++ t ++ ": " ++ v) failed_items) in
          raise (new ConfigurationDeploymentError
                   ("Configuration verification failed. "
                    ++ str_of_int (Z.of_nat (List.length failed_items))
                    ++ " items not found in running-config. This indicates the configuration was not properly applied. Missing items:"
                    ++ Py.nl ++ failed_list))
      end
  end.

(** **** Step 6 *)
Definition _step_apply_configuration : M unit :=
  try
    (o <- get ;;
     output <- device_command ("copy " ++ fmt (config_filename o) ++ " running-config")
                              60 600 true ;;
     (if Py.contains "error" (Py.lower output)
         && negb (Py.contains "no error" (Py.lower output))
      then raise (new ConfigurationDeploymentError
                    ("Errors occurred while applying configuration: " ++ output))
      else ret tt) ;;
     (if Py.contains "bytes copied" (Py.lower output)
         || existsb (fun indicator => Py.contains indicator (Py.lower output))
                    ["ok"; "success"; "completed"]
      then modify (set_state CONFIG_APPLIED)
      else ret tt) ;;
     _verify_configuration_applied)
    (fun e =>
       if isinstance e ConfigurationDeploymentError then raise e
       else raise (new ProvisioningError ("Failed to apply configuration: " ++ message e))).

(** **** Cleanup and closing *)

(** A [try] whose [except Exception] only logs. *)
Definition quiet (body : M unit) : M unit := try body (fun _ => ret tt).

Definition _cleanup : M unit :=
  quiet
    (o <- get ;;
     if Py.ge (value (state o)) (value FTP_FILE_CREATED)
        && ssh_manager o && Py.truthy_opt (config_filename o)
     then
       let remote_path := Py.path_join (ftp_directory o) (fmt (config_filename o)) in
       quiet (ssh_exec ("rm -f " ++ remote_path) ;; ret tt)
     else ret tt).

Definition _close_connections : M unit :=
  o <- get ;;
  (if console_manager o then quiet console_close else ret tt) ;;
  (if ssh_manager o then quiet ssh_close else ret tt).

(** **** The workflow *)

(** The first three steps, up to the console in enable mode. *)
Definition preparation : M unit :=
  _step_retrieve_netbox_config ;;
  _step_create_ftp_file ;;
  _step_connect_to_console.

Definition steps : M bool :=
  _step_retrieve_netbox_config ;;
  _step_create_ftp_file ;;
  _step_connect_to_console ;;
  _step_verify_device ;;
  _step_copy_config_to_flash ;;
  _step_apply_configuration ;;
  modify (set_state COMPLETED) ;;
  ret true.

Definition provision_device : M bool :=
  finally
    (try steps
       (fun e =>
          modify (set_state FAILED) ;;
          _cleanup ;;
          raise (new ProvisioningError ("Provisioning failed: " ++ message e))))
    _close_connections.

End Run.

(** A run from a freshly built orchestrator. *)
Definition run (w : World) (o : orchestrator) : result bool * machine :=
  provision_device w (mkMachine o []).

End Orchestrator.

(* ================================================================== *)
(** ** Scenarios *)

Module Scenario.
Import Orchestrator.

(** The intended configuration of the end-to-end scenario. *)
Definition edge_config : string :=
  "hostname edge-1
interface Gi1
 description Uplink A
interface Gi2
 description Uplink B
vlan 10
".

(** A lab in which every collaborator works: the inventory knows serial
    [FOC2345ABCD], the device shows [serial] in [show version], answers
    the copy to flash with [copied] and echoes whatever it is asked to
    show. *)
Definition lab (serial copied : string) : World :=
  fun _ c =>
    match c return reply c with
    | NetBoxClient_new => Return tt
    | get_device_config _ => Return edge_config
    | get_device_serial _ => Return "FOC2345ABCD"
    | SSHManager_connect => Return tt
    | create_remote_file _ _ => Return tt
    | execute_command _ => Return ("-rw-r--r-- 1 ftp ftp 96 edge-1.txt", "", 0%Z)
    | SSHManager_close => Return tt
    | ConsoleManager_connect => Return tt
    | connect_to_console _ => Return tt
    | channel_send _ => Return tt
    | read_channel => "Switch#"
    | execute_device_command cmd _ _ _ =>
        if String.eqb cmd "show version"
        then Return ("System Serial Number: " ++ serial ++ Py.nl)
        else if Py.startswith "copy ftp" cmd then Return copied
        else if Py.startswith "copy " cmd then Return "[OK]"
        else Return (cmd ++ Py.nl ++ edge_config)
    | ConsoleManager_close => Return tt
    end.

Definition edge1 : orchestrator :=
  init "edge-1" 7 "10.0.0.5" "ztp" "secret" "/srv/ftp".

(** Four interface blocks; the first has no description. *)
Definition four_interfaces : string :=
  "interface Gi1
 no shutdown
interface Gi2
 description A
interface Gi3
 description B
interface Gi4
 description C
".

(** A transfer that broke off. *)
Definition broken_pipe : string :=
  "%Error reading ftp://10.0.0.5//edge-1.txt (Broken pipe)".

(** A device that answers every command with the same text, behind
    collaborators that work. *)
Definition device_says (output : string) : World :=
  fun n c =>
    match c return reply c with
    | execute_device_command _ _ _ _ => Return output
    | c' => lab "FOC2345ABCD" output n c'
    end.

(** A terminal server that refuses the password at every attempt. *)
Definition bad_password (attempt : nat) : result unit :=
  Raise (mkExn AuthenticationException "Authentication failed.").

(** A device that answers every round with one more page. *)
Definition pager_forever (i : nat) : string := "--More--".

(** A device that never reaches its prompt and shows one more page in
    the tenth round. *)
Definition page_at_ten (i : nat) : string :=
  if i =? 10 then "--More--" else "...".

(** A device that has something to say at every poll, and never shows
    a pager marker or a prompt. *)
Definition steady (i : nat) : string := "...".

(** A copy that asks for the destination twice. *)
Definition asks_twice (i : nat) : string :=
  if (i =? 1) || (i =? 3) then "Destination filename [edge-1.txt]?"
  else if i =? 2 then "!!!" else "".

(** The machine before step 5 in the lab: the file name is set. *)
Definition staged : machine :=
  mkMachine (set_config_filename "edge-1.txt" edge1) [].

End Scenario.

(* ================================================================== *)
(** ** Module [netbox_client]

    The record pynetbox returns for a device is read through four of
    its attributes.  A dictionary attribute is absent, [None] or a
    dictionary.  What is stored under a key of such a dictionary is any
    JSON value: [None], a string, or something else (a number, a
    boolean, a list, a dictionary), of which the code only uses the
    truth value and, in the error it runs into, the name of the type.
    The serial of a device is a text field: [None] or a string.  The
    attributes that are only logged are taken to exist.  The lookup of
    the device is answered from outside. *)

Module NetBoxClient.

(** The serial. *)
Inductive value : Type :=
| PyNone
| PyStr (s : string).

(** A value in a dictionary. *)
Inductive json : Type :=
| JNone
| JStr (s : string)
| JOther (truth : bool) (type_name : string).

(** [bool(v)] *)
Definition truthy (v : json) : bool :=
  match v with
  | JNone => false
  | JStr s => Py.truthy s
  | JOther truth _ => truth
  end.

Definition dict : Type := list (string * json).

(** [key in d] *)
Definition has_key (key : string) (d : dict) : bool :=
  existsb (fun kv => String.eqb key (fst kv)) d.

(** [d.get(key)], which is [d[key]] when the key is there. *)
Fixpoint get (key : string) (d : dict) : json :=
  match d with
  | [] => JNone
  | (k, v) :: d' => if String.eqb key k then v else get key d'
  end.

Inductive attribute : Type :=
| Missing
| IsNone
| Dict (d : dict).

Record device : Type := mkDevice
  { config_context : attribute;
    custom_fields : attribute;
    local_context_data : attribute;
    serial : value }.

(** What [self.nb.dcim.devices.get(name=device_name)] does: it returns
    a record or [None], or raises pynetbox's [RequestError] or
    something else. *)
Inductive lookup : Type :=
| Found (d : device)
| NotFound
| RequestError (msg : string)
| Failure (e : exn).

Section Client.
Variable devices_get : string -> lookup.

Definition get_device (device_name : string) : result device :=
  match devices_get device_name with
  | Found d => Return d
  | NotFound =>
      Raise (mkExn DeviceNotFoundError
               ("Device '" ++ device_name ++ "' not found in NetBox"))
  | RequestError msg => Raise (mkExn NetBoxClientError ("API request failed: " ++ msg))
  | Failure e =>
      if isinstance e DeviceNotFoundError then Raise e
      else Raise (mkExn NetBoxClientError ("Failed to retrieve device: " ++ message e))
  end.

(** Option 1: the config context. *)
Definition from_config_context (d : device) (config : json) : json :=
  match config_context d with
  | Dict cc =>
      match cc with
      | [] => config
      | _ =>
          if has_key "startup_config" cc then get "startup_config" cc
          else if has_key "configuration" cc then get "configuration" cc
          else config
      end
  | _ => config
  end.

(** Option 2: the custom fields; [None] has no [get]. *)
Definition from_custom_fields (d : device) (config : json) : result json :=
  if negb (truthy config)
  then match custom_fields d with
       | Missing => Return config
       | IsNone =>
           Raise (mkExn AttributeError "'NoneType' object has no attribute 'get'")
       | Dict cf =>
           if truthy (get "startup_config" cf) then Return (get "startup_config" cf)
           else if truthy (get "configuration" cf) then Return (get "configuration" cf)
           else Return config
       end
  else Return config.

(** Option 3: the local context; a missing attribute is passed over. *)
Definition from_local_context (d : device) (config : json) : json :=
  if negb (truthy config)
  then match local_context_data d with
       | Dict local_context =>
           match local_context with
           | [] => config
           | _ =>
               if has_key "configuration" local_context
               then get "configuration" local_context
               else config
           end
       | _ => config
       end
  else config.

(** [config.strip()] for a value that is no string. *)
Definition no_strip (type_name : string) : exn :=
  mkExn AttributeError ("'" ++ type_name ++ "' object has no attribute 'strip'").

Definition not_available (device_name : string) : exn :=
  mkExn ConfigurationNotFoundError
    ("No configuration available for device '" ++ device_name
     ++ "'. Configuration should be stored in config_context, custom_fields, or local_context_data with key 'startup_config' or 'configuration'").

Definition get_device_config (device_name : string) : result string :=
  match get_device device_name with
  | Raise e => Raise e
  | Return device =>
      let config := JNone in
      let config := from_config_context device config in
      match from_custom_fields device config with
      | Raise e => Raise e
      | Return config =>
          let config := from_local_context device config in
          if negb (truthy config)
          then Raise (not_available device_name)
          else
            match config with
            | JStr config =>
                if negb (Py.truthy (Py.strip config))
                then Raise (mkExn ConfigurationNotFoundError
                              ("Configuration for device '" ++ device_name ++ "' is empty"))
                else Return config
            | JOther _ type_name => Raise (no_strip type_name)
            | JNone => Raise (no_strip "NoneType")
            end
      end
  end.

Definition get_device_serial (device_name : string) : result string :=
  match get_device device_name with
  | Raise e => Raise e
  | Return device =>
      match serial device with
      | PyStr raw =>
          if negb (Py.truthy raw)
          then Raise (mkExn NetBoxClientError
                        ("Serial number not available for device '" ++ device_name
                         ++ "' in NetBox. This is required for device verification."))
          else Return (Py.strip raw)
      | PyNone =>
          Raise (mkExn NetBoxClientError
                   ("Serial number not available for device '" ++ device_name
                    ++ "' in NetBox. This is required for device verification."))
      end
  end.

End Client.

End NetBoxClient.

(* ================================================================== *)
(** ** Script [zero_touch_provision]

    The environment is read through [os.getenv] once the [.env] file
    has been loaded; whether that file exists is given.  What the
    script prints is kept where it tells what is wrong with the
    environment.  Leaving through [sys.exit] is an outcome of its own:
    it is not an [Exception], so no handler of the script catches it.
    The command line is parsed by [argparse], which returns the
    arguments or leaves through [sys.exit]: with status 0 after
    [--help] or [--version], with status 2 for a command line it
    refuses.  The set-up of logging returns or raises; printing is
    taken to succeed. *)

Module ZeroTouchProvision.

Module Colors.
Definition ESC : string := String (ascii_of_nat 27) EmptyString.
Definition WARNING : string := ESC ++ "[93m".
Definition FAIL : string := ESC ++ "[91m".
Definition ENDC : string := ESC ++ "[0m".
End Colors.

Definition required_vars : list string :=
  [ "NETBOX_URL";
    "NETBOX_TOKEN";
    "JUMPHOST_IP";
    "JUMPHOST_USERNAME";
    "JUMPHOST_PASSWORD";
    "TERMINAL_SERVER_IP";
    "TERMINAL_SERVER_USERNAME";
    "TERMINAL_SERVER_PASSWORD";
    "FTP_SERVER_IP";
    "FTP_USERNAME";
    "FTP_PASSWORD" ].

(** The dictionary [load_environment] returns. *)
Record config : Type := mkConfig
  { netbox_url : option string;
    netbox_token : option string;
    jumphost_ip : option string;
    jumphost_username : option string;
    jumphost_password : option string;
    terminal_server_ip : option string;
    terminal_server_username : option string;
    terminal_server_password : option string;
    ftp_server_ip : option string;
    ftp_username : option string;
    ftp_password : option string;
    ftp_directory : string;
    verify_ssl : bool;
    log_level : string;
    log_file : string }.

Inductive outcome (A : Type) : Type :=
| Returned (a : A)
| SystemExit (code : Z).
Arguments Returned {A} a.
Arguments SystemExit {A} code.

Section Environment.
Variable env_file_exists : bool.
Variable getenv : string -> option string.

(** [os.getenv(name, default)] *)
Definition getenv_or (name default : string) : string :=
  match getenv name with
  | Some v => v
  | None => default
  end.

(** The [for var in required_vars] loop. *)
Fixpoint validate (vars missing_vars : list string) : list string :=
  match vars with
  | [] => missing_vars
  | var :: later =>
      if negb (Py.truthy_opt (getenv var))
      then validate later (missing_vars ++ [var])%list
      else validate later missing_vars
  end.

(** [load_environment]: what it prints, and how it ends. *)
Definition load_environment : list string * outcome config :=
  if negb env_file_exists
  then ([ Colors.FAIL ++ "ERROR: .env file not found!" ++ Colors.ENDC;
          Py.nl ++ "Please create .env file from template:";
          "  cp .env.template .env";
          "  vim .env  # Edit with your configuration" ],
        SystemExit 1%Z)
  else
    let missing_vars := validate required_vars [] in
    match missing_vars with
    | _ :: _ =>
        let first := Colors.FAIL ++ "ERROR: Missing required environment variables:"
                     ++ Colors.ENDC in
        let line (var : string) := "  - " ++ var in
        let last := Py.nl ++ "Please update your .env file with these variables." in
        ((first :: map line missing_vars ++ [last])%list, SystemExit 1%Z)
    | [] =>
        ([],
         Returned
           (mkConfig
              (getenv "NETBOX_URL")
              (getenv "NETBOX_TOKEN")
              (getenv "JUMPHOST_IP")
              (getenv "JUMPHOST_USERNAME")
              (getenv "JUMPHOST_PASSWORD")
              (getenv "TERMINAL_SERVER_IP")
              (getenv "TERMINAL_SERVER_USERNAME")
              (getenv "TERMINAL_SERVER_PASSWORD")
              (getenv "FTP_SERVER_IP")
              (getenv "FTP_USERNAME")
              (getenv "FTP_PASSWORD")
              (getenv_or "FTP_DIRECTORY" "/srv/ftp")
              (String.eqb (Py.lower (getenv_or "VERIFY_SSL" "true")) "true")
              (getenv_or "LOG_LEVEL" "INFO")
              (getenv_or "LOG_FILE" "./logs/provisioning.log")))
    end.

(** The parsed command line. *)
Record args : Type := mkArgs
  { device_name : string;
    console_port : Z;
    arg_log_level : option string;
    dry_run : bool }.


End Environment.

End ZeroTouchProvision.

(* ================================================================== *)
(** ** Vocabulary of the statements *)

(** A text that does not begin with white space. *)
Definition tight (s : string) : Prop :=
  match s with
  | EmptyString => True
  | String c _ => Py.isspace c = false
  end.

(** The token a pattern captures in a text, trimmed. *)
Definition token (pattern text : string) : option string :=
  match Re.search Re.IGNORECASE pattern text with
  | Some mt => Some (Py.strip (Re.group mt 1))
  | None => None
  end.

(** A token the extractor turns down. *)
Definition placeholder (tok : string) : Prop :=
  In (Py.lower tok) ["none"; "n/a"; "unknown"; ""].

(** How many bare newlines the loop has sent. *)
Definition newlines (st : ConsoleManager.loop_state) : nat :=
  count_occ string_dec (ConsoleManager.sent st) Py.nl.

(** No newline before the confirmation, one after it. *)
Definition confirmed_once (st : ConsoleManager.loop_state) : Prop :=
  newlines st = (if ConsoleManager.confirmation_sent st then 1 else 0).

(** Seconds slept since the clock of the loop was last set. *)
Definition elapsed (st : ConsoleManager.loop_state) : Z :=
  (ConsoleManager.now st - ConsoleManager.start_time st)%Z.

(** The states of the loop while data keeps arriving: the seconds on
    the clock stay below the quiescence wait. *)
Definition renewing (a : ConsoleManager.cmd_args) (st : ConsoleManager.loop_state) : Prop :=
  (0 <= elapsed st <= Z.max 0 (ConsoleManager.wait_time a - 1))%Z.

(** The states of the loop on the endless pager: still paging with the
    clock just set, or at the ceiling within the quiescence wait. *)
Definition paging (st : ConsoleManager.loop_state) : Prop :=
  (ConsoleManager.pagination_count st < 50 /\
   ConsoleManager.start_time st = ConsoleManager.now st) \/
  (ConsoleManager.pagination_count st = 50 /\ (0 <= elapsed st <= 5)%Z).

(** An attempt to delete the staged file on the jump host. *)
Definition is_deletion (c : Orchestrator.call) : bool :=
  match c with
  | Orchestrator.execute_command command => Py.startswith "rm -f " command
  | _ => false
  end.

(** A device command of a configuration step: the copy to flash and the
    copy to the running configuration. *)
Definition is_configuration (c : Orchestrator.call) : bool :=
  match c with
  | Orchestrator.execute_device_command command _ _ _ => Py.startswith "copy " command
  | _ => false
  end.

Definition no_deletion (c : Orchestrator.call) : bool := negb (is_deletion c).
Definition no_configuration (c : Orchestrator.call) : bool := negb (is_configuration c).

(** A computation that only adds calls satisfying [P] to the trace. *)
Definition emits (P : Orchestrator.call -> bool) {A : Type} (m : Orchestrator.M A) : Prop :=
  forall mc, exists new,
    Orchestrator.trace (snd (m mc)) = (Orchestrator.trace mc ++ new)%list /\
    forallb P new = true.

(** A computation that leaves the attributes of the orchestrator as
    they are and does not raise. *)
Definition silent (m : Orchestrator.M unit) : Prop :=
  forall mc, exists tr,
    m mc = (Return tt, Orchestrator.mkMachine (Orchestrator.self mc) tr).





(** What the loop of [execute_device_command] has sent is accounted for
    by its counters: one space for each pager advance, one newline for
    the confirmation, nothing else. *)
Definition accounted (a : ConsoleManager.cmd_args) (st : ConsoleManager.loop_state) : Prop :=
  ConsoleManager.pagination_count st <= ConsoleManager.max_pagination /\
  Forall (fun s => s = " " \/ s = Py.nl) (ConsoleManager.sent st) /\
  count_occ string_dec (ConsoleManager.sent st) " " = ConsoleManager.pagination_count st /\
  List.length (ConsoleManager.sent st)
  = ConsoleManager.pagination_count st
    + (if ConsoleManager.confirmation_sent st then 1 else 0) /\
  (ConsoleManager.handle_pagination a = false -> ConsoleManager.pagination_count st = 0) /\
  (ConsoleManager.auto_confirm a = false -> ConsoleManager.confirmation_sent st = false).

(** Why the loop has left: the expected text has arrived, more than
    the timeout has passed since the clock was set, or more than the
    wait has passed and the last read was empty. *)
Definition left_because (a : ConsoleManager.cmd_args) (st : ConsoleManager.loop_state)
  (last_chunk : string) : Prop :=
  (exists e, ConsoleManager.expect a = Some e /\ Py.truthy e = true /\
             Py.contains e (ConsoleManager.output st) = true) \/
  ConsoleManager.later_than (ConsoleManager.timeout a) st = true \/
  (Py.truthy_opt (ConsoleManager.expect a) = false /\
   ConsoleManager.later_than (ConsoleManager.wait_time a) st = true /\
   last_chunk = EmptyString).


(** Every character of a text is in a class. *)
Fixpoint all_in (cls : ascii -> bool) (w : string) : bool :=
  match w with
  | EmptyString => true
  | String c w' => cls c && all_in cls w'
  end.

Definition nonspace (c : ascii) : bool := negb (Py.isspace c).

(** Whatever [p] accepts is in the class [cls], checked on the 256
    characters. *)
Definition within (cls p : ascii -> bool) : bool :=
  forallb (fun n => implb (p (ascii_of_nat n)) (cls (ascii_of_nat n))) (seq 0 256).

(** A pattern whose last item is the first group, the group holding a
    run [c+] of characters of the class [cls]: the shape of [(\S+)] and
    [(\d+)] at the end of a pattern. *)
Fixpoint ends_in_run (cls : ascii -> bool) (r : Re.regex) : bool :=
  match r with
  | Re.Seq (Re.Group 1 (Re.Seq (Re.Seq (Re.Chr p) (Re.Star true (Re.Chr q))) Re.Eps))
           Re.Eps => within cls p && within cls q
  | Re.Seq _ r' => ends_in_run cls r'
  | _ => false
  end.

(** A run of the class: not empty, every character in the class. *)
Definition run_of (cls : ascii -> bool) (w : string) : Prop :=
  w <> EmptyString /\ all_in cls w = true.

(** The rounds of a repetition inside [Re.m], named: [mr] matches the
    repeated pattern once. *)
Section StarRounds.
Variable mr : Re.mstate -> (Re.mstate -> option Re.mstate) -> option Re.mstate.
Variable greedy : bool.
Variable k : Re.mstate -> option Re.mstate.

Fixpoint star_rounds (n : nat) (s : Re.mstate) {struct n} : option Re.mstate :=
  match n with
  | O => k s
  | S n' =>
      let more (_ : unit) :=
        mr s (fun s' =>
                if String.length (Re.rest s') <? String.length (Re.rest s)
                then star_rounds n' s' else None) in
      if greedy
      then match more tt with Some x => Some x | None => k s end
      else match k s with Some x => Some x | None => more tt end
  end.

End StarRounds.

(** The device command that checks one verification marker. *)
Definition verification_call (item : string * string) : Orchestrator.call :=
  Orchestrator.execute_device_command
    (Orchestrator.verify_cmd (fst item) (snd item)) 5 30 false.

(** A computation that takes every machine to one related to it by [R]. *)
Definition keeps (R : Orchestrator.machine -> Orchestrator.machine -> Prop)
  {A : Type} (m : Orchestrator.M A) : Prop :=
  forall mc, R mc (snd (m mc)).

(** Asking the world [c] takes a machine to a related one. *)
Definition asked (R : Orchestrator.machine -> Orchestrator.machine -> Prop)
  (c : Orchestrator.call) : Prop :=
  forall mc,
    R mc (Orchestrator.mkMachine (Orchestrator.self mc) (Orchestrator.trace mc ++ [c])%list).

(** Nothing of the orchestrator has changed but its state attribute. *)
Definition only_state (mc mc' : Orchestrator.machine) : Prop :=
  exists s, Orchestrator.self mc' = Orchestrator.set_state s (Orchestrator.self mc).

Definition is_ssh_connect (c : Orchestrator.call) : bool :=
  match c with Orchestrator.SSHManager_connect => true | _ => false end.

Definition is_console_connect (c : Orchestrator.call) : bool :=
  match c with Orchestrator.ConsoleManager_connect => true | _ => false end.

Definition is_close (c : Orchestrator.call) : bool :=
  match c with
  | Orchestrator.SSHManager_close | Orchestrator.ConsoleManager_close => true
  | _ => false
  end.

Definition no_close (c : Orchestrator.call) : bool := negb (is_close c).

(** The calls added to the trace close nothing, and a manager attribute
    is set exactly when it was set before or its connection has been
    attempted since. *)
Definition opened (mc mc' : Orchestrator.machine) : Prop :=
  exists new,
    Orchestrator.trace mc' = (Orchestrator.trace mc ++ new)%list /\
    forallb no_close new = true /\
    Orchestrator.ssh_manager (Orchestrator.self mc')
    = Orchestrator.ssh_manager (Orchestrator.self mc) || existsb is_ssh_connect new /\
    Orchestrator.console_manager (Orchestrator.self mc')
    = Orchestrator.console_manager (Orchestrator.self mc)
      || existsb is_console_connect new.

(** What [_close_connections] calls: the console first, then the jump
    host, each only if its manager exists. *)
Definition closing (o : Orchestrator.orchestrator) : list Orchestrator.call :=
  ((if Orchestrator.console_manager o then [Orchestrator.ConsoleManager_close] else [])
   ++ (if Orchestrator.ssh_manager o then [Orchestrator.SSHManager_close] else []))%list.

(** The markers a verification finds missing when its first command is
    call number [n]: those whose command is answered, by an output in
    which the value does not occur. *)
Fixpoint missing (w : Orchestrator.World) (n : nat) (items : list (string * string))
  : list (string * string) :=
  match items with
  | [] => []
  | item :: later =>
      match w n (verification_call item) with
      | Return output =>
          if negb (Py.contains (Py.lower (snd item)) (Py.lower output))
          then item :: missing w (S n) later
          else missing w (S n) later
      | Raise _ => missing w (S n) later
      end
  end.

(** The states whose value is not below the value of
    [FTP_FILE_CREATED] in the order of strings. *)
Definition cleanup_state (s : Orchestrator.ProvisioningState) : bool :=
  match s with
  | Orchestrator.INITIALIZED | Orchestrator.NETBOX_CONNECTED
  | Orchestrator.FTP_FILE_CREATED => true
  | _ => false
  end.

(** The command with which [_cleanup] removes the staged file. *)
Definition removal (o : Orchestrator.orchestrator) : Orchestrator.call :=
  Orchestrator.execute_command
    ("rm -f " ++ Py.path_join (Orchestrator.ftp_directory o)
                              (Orchestrator.fmt (Orchestrator.config_filename o))).

(** The command of step 6. *)
Definition apply_call (o : Orchestrator.orchestrator) : Orchestrator.call :=
  Orchestrator.execute_device_command
    ("copy " ++ Orchestrator.fmt (Orchestrator.config_filename o) ++ " running-config")
    60 600 true.

(** What step 6 takes for an error, and what for a success, in the
    output of the copy to the running configuration. *)
Definition reports_error (output : string) : bool :=
  Py.contains "error" (Py.lower output) && negb (Py.contains "no error" (Py.lower output)).

Definition reports_success (output : string) : bool :=
  Py.contains "bytes copied" (Py.lower output)
  || Py.contains "ok" (Py.lower output)
  || Py.contains "success" (Py.lower output)
  || Py.contains "completed" (Py.lower output).

(** What [_enter_enable_mode] exchanges with the device: reads, empty
    lines and the [enable] command. *)
Definition enable_traffic (c : Orchestrator.call) : bool :=
  match c with
  | Orchestrator.read_channel => true
  | Orchestrator.channel_send data =>
      String.eqb data Py.crlf || String.eqb data ("enable" ++ Py.crlf)
  | _ => false
  end.

(** The device without its config context. *)
Definition without_context (d : NetBoxClient.device) : NetBoxClient.device :=
  NetBoxClient.mkDevice NetBoxClient.Missing (NetBoxClient.custom_fields d)
    (NetBoxClient.local_context_data d) (NetBoxClient.serial d).

(** A value stored for the device under one of the two keys, in one of
    its three dictionaries. *)
Definition stored (d : NetBoxClient.device) (v : NetBoxClient.json) : Prop :=
  exists dct key,
    (NetBoxClient.config_context d = NetBoxClient.Dict dct \/
     NetBoxClient.custom_fields d = NetBoxClient.Dict dct \/
     NetBoxClient.local_context_data d = NetBoxClient.Dict dct) /\
    (key = "startup_config" \/ key = "configuration") /\
    NetBoxClient.get key dct = v.

(** The message for a configuration of white space only. *)
Definition is_empty_error (device_name : string) : exn :=
  mkExn ConfigurationNotFoundError
    ("Configuration for device '" ++ device_name ++ "' is empty").

(** The expected serial is what it was. *)
Definition same_expected (mc mc' : Orchestrator.machine) : Prop :=
  Orchestrator.expected_serial (Orchestrator.self mc')
  = Orchestrator.expected_serial (Orchestrator.self mc).

(** A world in which the serial of the inventory comes from the NetBox
    client and everything else from [w]. *)
Definition with_inventory (devices_get : string -> NetBoxClient.lookup)
  (w : Orchestrator.World) : Orchestrator.World :=
  fun n c =>
    match c return Orchestrator.reply c with
    | Orchestrator.get_device_serial name =>
        NetBoxClient.get_device_serial devices_get name
    | c' => w n c'
    end.

(** An inventory that knows one device, with a serial of blanks. *)
Definition blank_serial (name : string) : NetBoxClient.lookup :=
  NetBoxClient.Found
    (NetBoxClient.mkDevice NetBoxClient.Missing NetBoxClient.Missing
       NetBoxClient.Missing (NetBoxClient.PyStr "  ")).

(** A variable the validation of the environment turns down: not set,
    or set to the empty string. *)
Definition unset (getenv : string -> option string) (var : string) : bool :=
  negb (Py.truthy_opt (getenv var)).




(** The file step 2 stages, and the orchestrator once its manager of
    the jump host is created. *)
Definition staged_path (o : Orchestrator.orchestrator) : string :=
  Py.path_join (Orchestrator.ftp_directory o) (Orchestrator.device_name o ++ ".txt").

Definition with_manager (o : Orchestrator.orchestrator) : Orchestrator.orchestrator :=
  Orchestrator.set_ssh_manager
    (Orchestrator.set_config_filename (Orchestrator.device_name o ++ ".txt") o).

Definition staging_calls (o : Orchestrator.orchestrator) : list Orchestrator.call :=
  [ Orchestrator.SSHManager_connect;
    Orchestrator.create_remote_file (staged_path o)
      (Orchestrator.fmt (Orchestrator.device_config o));
    Orchestrator.execute_command ("ls -lh " ++ staged_path o) ].

(* ================================================================== *)
(** ** Checks of the embedding *)

(** Every pattern text of the source is read as a pattern. *)
Example source_patterns_are_read :
  forallb (fun p => match Re.parse Re.IGNORECASE p with Some _ => true | None => false end)
    (ConsoleManager.patterns ++ ConsoleManager.confirmation_patterns
     ++ ["\x08+"; "\x1b\[[0-9;]*[a-zA-Z]"; "^hostname\s+(\S+)";
         Orchestrator.interface_pattern; "^vlan\s+(\d+)";
         "ip address\s+(\d+\.\d+\.\d+\.\d+)\s+(\d+\.\d+\.\d+\.\d+)"])%list
  = true.
Proof. vm_compute. reflexivity. Qed.

(** The four cases of [test_serial_extraction.py]. *)
Example test_system_serial_number :
  ConsoleManager.parse_show_version
    "
Model Number                    : C9300-48U
Model Revision Number           : A0
System Serial Number            : FOC2345ABCD
" = Some "FOC2345ABCD".
Proof. vm_compute. reflexivity. Qed.

Example test_processor_board_id :
  ConsoleManager.parse_show_version
    "
cisco WS-C3850-24P (MIPS) processor (revision A0) with 4194304K bytes of memory.
Processor board ID FCW1234A5BC
" = Some "FCW1234A5BC".
Proof. vm_compute. reflexivity. Qed.

Example test_generic_serial_number :
  ConsoleManager.parse_show_version
    "
Product Name: Switch
Serial Number: SN123456789
" = Some "SN123456789".
Proof. vm_compute. reflexivity. Qed.

Example test_output_with_more :
  ConsoleManager.parse_show_version
    "
Cisco IOS Software
 --More--
Model Number: C9300-48U
System Serial Number: FOC9876XYZA
" = Some "FOC9876XYZA".
Proof. vm_compute. reflexivity. Qed.

(** A placeholder after a strict pattern sends the search on to the
    later patterns; what a later pattern captures is returned, be it the
    rest of the word [Number]. *)
Example placeholder_is_skipped :
  ConsoleManager.parse_show_version
    "System Serial Number: N/A
Processor board ID FCW1234A5BC
" = Some "FCW1234A5BC"
  /\ ConsoleManager.parse_show_version "SN: none" = None
  /\ ConsoleManager.parse_show_version "System Serial Number: unknown" = Some "ber:".
Proof. repeat split; vm_compute; reflexivity. Qed.

(** The markers of the end-to-end scenario, and the scenario itself: the
    lab with the right serial reaches [COMPLETED]. *)
Example markers_of_the_scenario :
  Orchestrator._extract_verification_markers (Some Scenario.edge_config)
  = [("hostname", "edge-1"); ("interface", "Gi1"); ("interface", "Gi2"); ("vlan", "10")].
Proof. vm_compute. reflexivity. Qed.

Example scenario_completes :
  let end_ := Orchestrator.run (Scenario.lab "FOC2345ABCD" "96 bytes copied") Scenario.edge1 in
  fst end_ = Return true /\
  Orchestrator.state (Orchestrator.self (snd end_)) = Orchestrator.COMPLETED.
Proof. vm_compute. split; reflexivity. Qed.

(** The values of the states as strings, compared the way [_cleanup]
    compares them: only three states count as "at least"
    [FTP_FILE_CREATED], and neither [FAILED] nor any later milestone is
    among them. *)
Example values_at_least_ftp_file_created :
  filter (fun s => Py.ge (Orchestrator.value s) (Orchestrator.value Orchestrator.FTP_FILE_CREATED))
    [Orchestrator.INITIALIZED; Orchestrator.NETBOX_CONNECTED;
     Orchestrator.CONFIG_RETRIEVED; Orchestrator.FTP_FILE_CREATED;
     Orchestrator.CONSOLE_CONNECTED; Orchestrator.DEVICE_VERIFIED;
     Orchestrator.CONFIG_COPIED_TO_FLASH; Orchestrator.CONFIG_APPLIED;
     Orchestrator.COMPLETED; Orchestrator.FAILED]
  = [Orchestrator.INITIALIZED; Orchestrator.NETBOX_CONNECTED;
     Orchestrator.FTP_FILE_CREATED].
Proof. vm_compute. reflexivity. Qed.

(* ================================================================== *)
(** ** Properties of the string helpers *)

Lemma rstrip_idempotent (s : string) : Py.rstrip (Py.rstrip s) = Py.rstrip s.
Proof.
  induction s as [|c s IH]; simpl; [reflexivity|].
  destruct (Py.rstrip s) as [|d r] eqn:E.
  - destruct (Py.isspace c) eqn:Hc; simpl; [reflexivity|].
    now rewrite Hc.
  - change (Py.rstrip (String c (String d r)))
      with (match Py.rstrip (String d r) with
            | EmptyString => if Py.isspace c then EmptyString else String c EmptyString
            | x => String c x
            end).
    now rewrite IH.
Qed.

Lemma lstrip_tight (s : string) : tight (Py.lstrip s).
Proof.
  induction s as [|c s IH]; simpl; [exact I|].
  destruct (Py.isspace c) eqn:Hc; [exact IH|exact Hc].
Qed.

Lemma lstrip_of_tight (s : string) : tight s -> Py.lstrip s = s.
Proof.
  destruct s as [|c s]; simpl; [reflexivity|].
  now intros ->.
Qed.

Lemma rstrip_tight (s : string) : tight s -> tight (Py.rstrip s).
Proof.
  destruct s as [|c s]; simpl; [trivial|].
  intros Hc. destruct (Py.rstrip s); [rewrite Hc|]; exact Hc.
Qed.

Lemma strip_idempotent (s : string) : Py.strip (Py.strip s) = Py.strip s.
Proof.
  unfold Py.strip.
  rewrite (lstrip_of_tight (Py.rstrip (Py.lstrip s))).
  - apply rstrip_idempotent.
  - apply rstrip_tight, lstrip_tight.
Qed.


Lemma append_assoc (a b c : string) : (a ++ b) ++ c = a ++ (b ++ c).
Proof. induction a as [|x a IH]; simpl; [reflexivity|now rewrite IH]. Qed.


Lemma truthy_nonempty (s : string) : Py.truthy s = true -> s <> EmptyString.
Proof. destruct s; simpl; congruence. Qed.

Lemma in_list_In (x : string) (xs : list string) :
  Py.in_list x xs = false -> ~ In x xs.
Proof.
  unfold Py.in_list. intros H Hin.
  assert (existsb (String.eqb x) xs = true) as E.
  { apply existsb_exists. exists x. split; [exact Hin|apply String.eqb_refl]. }
  congruence.
Qed.

(* ================================================================== *)
(** ** The serial extractor *)

Lemma lower_empty (s : string) : Py.lower s = EmptyString -> s = EmptyString.
Proof. destruct s; simpl; congruence. Qed.

Lemma accepted_not_placeholder (tok : string) :
  Py.truthy tok && negb (Py.in_list (Py.lower tok) ConsoleManager.placeholders) = true ->
  tok <> EmptyString /\ ~ placeholder tok.
Proof.
  intros H. apply andb_prop in H as [Ht Hp].
  split; [now apply truthy_nonempty|].
  apply in_list_In. now apply negb_true_iff.
Qed.

Lemma rejected_placeholder (tok : string) :
  Py.truthy tok && negb (Py.in_list (Py.lower tok) ConsoleManager.placeholders) = false ->
  placeholder tok.
Proof.
  intros H. apply andb_false_iff in H as [Ht|Hp].
  - destruct tok; simpl in Ht; [|discriminate].
    unfold placeholder. simpl. tauto.
  - apply negb_false_iff in Hp. unfold Py.in_list in Hp.
    apply existsb_exists in Hp as (y & Hin & Heq).
    apply String.eqb_eq in Heq. subst y. exact Hin.
Qed.

(** What the loop over the patterns returns: the token of the first
    pattern whose token is no placeholder, after patterns that either do
    not match or capture a placeholder. *)
Lemma first_serial_spec (ps : list string) (text : string) :
  match ConsoleManager.first_serial ps text with
  | Some serial =>
      (serial <> EmptyString /\ ~ placeholder serial) /\
      exists before pattern after,
        ps = (before ++ pattern :: after)%list /\
        token pattern text = Some serial /\
        forall q t, In q before -> token q text = Some t -> placeholder t
  | None => forall q t, In q ps -> token q text = Some t -> placeholder t
  end.
Proof.
  induction ps as [|p ps IH]; cbn [ConsoleManager.first_serial].
  - intros q t [].
  - destruct (Re.search Re.IGNORECASE p text) as [mt|] eqn:Es.
    + destruct (Py.truthy (Py.strip (Re.group mt 1))
                && negb (Py.in_list (Py.lower (Py.strip (Re.group mt 1)))
                                    ConsoleManager.placeholders)) eqn:Ea.
      * split; [now apply accepted_not_placeholder|].
        exists [], p, ps. repeat split.
        -- unfold token. now rewrite Es.
        -- intros q t [].
      * apply rejected_placeholder in Ea.
        destruct (ConsoleManager.first_serial ps text) as [serial|].
        -- destruct IH as (Hok & before & pattern & after & -> & Htok & Hbefore).
           split; [exact Hok|].
           exists (p :: before), pattern, after. repeat split; [exact Htok|].
           intros q t [<-|Hin] Hq.
           ++ unfold token in Hq. rewrite Es in Hq. now inversion Hq; subst.
           ++ eauto.
        -- intros q t [<-|Hin] Hq.
           ++ unfold token in Hq. rewrite Es in Hq. now inversion Hq; subst.
           ++ eauto.
    + destruct (ConsoleManager.first_serial ps text) as [serial|].
      * destruct IH as (Hok & before & pattern & after & -> & Htok & Hbefore).
        split; [exact Hok|].
        exists (p :: before), pattern, after. repeat split; [exact Htok|].
        intros q t [<-|Hin] Hq.
        -- unfold token in Hq. rewrite Es in Hq. discriminate.
        -- eauto.
      * intros q t [<-|Hin] Hq.
        -- unfold token in Hq. rewrite Es in Hq. discriminate.
        -- eauto.
Qed.

Lemma token_trimmed (pattern text serial : string) :
  token pattern text = Some serial -> Py.strip serial = serial.
Proof.
  unfold token. destruct (Re.search _ _ _); [|discriminate].
  intros [= <-]. apply strip_idempotent.
Qed.

(** C8: the serial extractor never returns the empty string nor a token
    that, trimmed and compared without case, is [none], [n/a] or
    [unknown]; what it returns is the trimmed token of the first pattern,
    in the order of the list, whose token is no such placeholder, every
    pattern before it having no match or a placeholder as its token; and
    when every pattern has no match or a placeholder, the result is
    [None]. *)
Theorem C8_serial_is_never_a_placeholder (output : string) :
  match ConsoleManager.parse_show_version output with
  | Some serial =>
      serial <> EmptyString /\
      ~ In (Py.lower (Py.strip serial)) ["none"; "n/a"; "unknown"] /\
      exists before pattern after,
        ConsoleManager.patterns = (before ++ pattern :: after)%list /\
        token pattern (ConsoleManager.clean output) = Some serial /\
        forall q t, In q before ->
          token q (ConsoleManager.clean output) = Some t -> placeholder t
  | None =>
      forall q t, In q ConsoleManager.patterns ->
        token q (ConsoleManager.clean output) = Some t -> placeholder t
  end.
Proof.
  unfold ConsoleManager.parse_show_version.
  pose proof (first_serial_spec ConsoleManager.patterns (ConsoleManager.clean output)) as H.
  destruct (ConsoleManager.first_serial _ _) as [serial|]; [|exact H].
  destruct H as ((Hne & Hnp) & before & pattern & after & Hps & Htok & Hbefore).
  split; [exact Hne|]. split.
  - rewrite (token_trimmed _ _ _ Htok). intros Hin. apply Hnp.
    unfold placeholder. simpl in *. tauto.
  - exists before, pattern, after. auto.
Qed.

(* ================================================================== *)
(** ** The command loop: confirmations *)

Section Confirmation.
Import ConsoleManager.

Lemma confirm_cases (ps : list string) (chunk : string) (st : loop_state) :
  confirm ps chunk st = st \/
  confirm ps chunk st =
    mkLoop (now st) (now st) (output st) (pagination_count st) true
           (sent st ++ [Py.nl])%list.
Proof.
  induction ps as [|p ps IH]; simpl; [now left|].
  destruct (Re.search Re.IGNORECASE p chunk); [now right|exact IH].
Qed.

Lemma newlines_after_send (s : string) (st : loop_state) :
  count_occ string_dec (sent st ++ [s])%list Py.nl =
  newlines st + (if string_dec s Py.nl then 1 else 0).
Proof.
  unfold newlines. rewrite count_occ_app. simpl.
  destruct (string_dec s Py.nl); reflexivity.
Qed.

Lemma confirm_confirmed_once (a : cmd_args) (st0 : loop_state) (chunk : string) :
  confirmed_once st0 ->
  confirmed_once (if auto_confirm a && negb (confirmation_sent st0)
                  then confirm confirmation_patterns chunk st0 else st0).
Proof.
  unfold confirmed_once. intros H.
  destruct (auto_confirm a); cbn [andb]; [|exact H].
  destruct (confirmation_sent st0) eqn:Ec; cbn [negb]; [now rewrite Ec|].
  destruct (confirm_cases confirmation_patterns chunk st0) as [->| ->].
  - now rewrite Ec.
  - cbn. rewrite count_occ_app. cbn. unfold newlines in H. lia.
Qed.

Lemma later_checks_state (a : cmd_args) (st0 : loop_state) (chunk : string) :
  let st1 := if auto_confirm a && negb (confirmation_sent st0)
             then confirm confirmation_patterns chunk st0 else st0 in
  fst (later_checks a st0 chunk) = st1 \/
  fst (later_checks a st0 chunk) = reset_clock st1.
Proof.
  unfold later_checks.
  destruct (Py.truthy_opt (expect a) && _); [now left|].
  destruct (later_than (timeout a) _); [now left|].
  destruct (negb (Py.truthy_opt (expect a)) && _); [|now left].
  destruct (Py.truthy chunk); [now right|now left].
Qed.

Lemma round_confirmed_once (a : cmd_args) (st : loop_state) (chunk : string) :
  confirmed_once st -> confirmed_once (fst (round a st chunk)).
Proof.
  intros H. unfold round.
  destruct (handle_pagination a && _ && has_pager chunk).
  - unfold confirmed_once in *. cbn. rewrite count_occ_app. cbn.
    unfold newlines in H. lia.
  - pose proof (confirm_confirmed_once a
                  (mkLoop (now st + 1)%Z (start_time st) (output st ++ chunk)
                          (pagination_count st) (confirmation_sent st) (sent st))
                  chunk H) as H1.
    destruct (later_checks_state a
                (mkLoop (now st + 1)%Z (start_time st) (output st ++ chunk)
                        (pagination_count st) (confirmation_sent st) (sent st))
                chunk) as [-> | ->]; exact H1.
Qed.

Lemma rounds_confirmed_once (a : cmd_args) (reads : nat -> string) (n : nat) :
  forall i st, confirmed_once st -> confirmed_once (fst (rounds a reads n i st)).
Proof.
  induction n as [|n IH]; intros i st H; simpl; [exact H|].
  pose proof (round_confirmed_once a st (reads i) H) as H1.
  destruct (round a st (reads i)) as [st' again]. simpl in H1.
  destruct again; [now apply IH|exact H1].
Qed.

End Confirmation.

(** C9: during a call of [execute_device_command], however many rounds
    of the loop have run and whatever the channel delivers, the loop has
    sent at most one bare newline; so at most one confirmation response
    is sent in the whole call, also when a confirmation prompt comes
    again after the first. *)
Theorem C9_at_most_one_confirmation
  (a : ConsoleManager.cmd_args) (reads : nat -> string) (t0 : Z) (n : nat) :
  newlines (fst (ConsoleManager.rounds a reads n 1 (ConsoleManager.start t0))) <= 1.
Proof.
  pose proof (rounds_confirmed_once a reads n 1 (ConsoleManager.start t0) eq_refl) as H.
  unfold confirmed_once in H. rewrite H.
  destruct (ConsoleManager.confirmation_sent _); lia.
Qed.

(** The destination prompt shown in the first and in the third round is
    answered once. *)
Example confirmation_prompt_twice :
  ConsoleManager.execute_device_command true
    (ConsoleManager.mkArgs "copy x flash:" 5 None 10 true true)
    Scenario.asks_twice 0 100
  = Some (Return "Destination filename [edge-1.txt]?!!!Destination filename [edge-1.txt]?",
          ["copy x flash:" ++ Py.nl; Py.nl]).
Proof. vm_compute. reflexivity. Qed.

(* ================================================================== *)
(** ** Connecting: which failures are tried again *)

(** [SSHManager.connect] gives up at the attempt that fails to
    authenticate: nothing is tried and no sleep is made after it. *)
Lemma SSHManager_stops_at_authentication_failure
  (outcome : nat -> result unit) (retries retry_delay : Z)
  (attempt : nat) (later : list nat) (e : exn) :
  outcome attempt = Raise e ->
  isinstance e AuthenticationException = true ->
  SSHManager.connect_loop outcome retries retry_delay (attempt :: later)
  = (Raise (mkExn ConnectionError ("Authentication failed: " ++ message e)),
     [TryConnect attempt]).
Proof.
  intros Ho He. simpl. unfold SSHManager.attempt_once. now rewrite Ho, He.
Qed.

(** [ConsoleManager.connect] has one clause for every exception: while
    attempts remain, a failure of whatever class is followed by the
    sleep and the next attempt. *)
Lemma ConsoleManager_retries_every_failure
  (outcome : nat -> result unit) (retries retry_delay : Z)
  (attempt : nat) (e : exn) :
  outcome attempt = Raise e ->
  (Z.of_nat attempt < retries)%Z ->
  (0 <= retry_delay)%Z ->
  ConsoleManager.attempt_once outcome retries retry_delay attempt
  = (None, [TryConnect attempt; Sleep retry_delay]).
Proof.
  intros Ho Hlt Hd. unfold ConsoleManager.attempt_once, sleep. rewrite Ho.
  apply Z.ltb_lt in Hlt. apply Z.ltb_ge in Hd. now rewrite Hlt, Hd.
Qed.

(** C5, at a terminal server that refuses the password: with three
    attempts allowed and five seconds between them,
    [ConsoleManager.connect] tries three times and sleeps twice before
    it raises [ConnectionError], where the specification wants one attempt and
    no delay; [SSHManager.connect] on the same failure stops at the
    first attempt. *)
Theorem C5_console_manager_retries_authentication_failure :
  ConsoleManager.connect Scenario.bad_password 3 5
  = (Raise (mkExn ConnectionError
       "Failed to connect to terminal server after 3 attempts: Authentication failed."),
     [TryConnect 1; Sleep 5; TryConnect 2; Sleep 5; TryConnect 3])
  /\
  SSHManager.connect Scenario.bad_password 3 5
  = (Raise (mkExn ConnectionError "Authentication failed: Authentication failed."),
     [TryConnect 1]).
Proof. split; vm_compute; reflexivity. Qed.

(* ================================================================== *)
(** ** Verification markers *)

(** C6, at a configuration of four interface blocks of which the last
    three carry a description: the pattern finds the four blocks, three
    of them qualify, and the extractor emits two interface markers, not
    three, because it keeps the first three blocks and only then drops
    the one without a description. *)
Theorem C6_first_three_blocks_then_filter :
  let interface_matches :=
    Re.findall2 Re.MULTILINE_DOTALL Orchestrator.interface_pattern
                Scenario.four_interfaces in
  map fst interface_matches = ["Gi1"; "Gi2"; "Gi3"; "Gi4"] /\
  Orchestrator.described interface_matches
  = [("interface", "Gi2"); ("interface", "Gi3"); ("interface", "Gi4")] /\
  Orchestrator.interface_markers Scenario.four_interfaces
  = [("interface", "Gi2"); ("interface", "Gi3")] /\
  Orchestrator._extract_verification_markers (Some Scenario.four_interfaces)
  = [("interface", "Gi2"); ("interface", "Gi3")].
Proof. vm_compute. repeat split. Qed.

(** Whatever the configuration, at most three interface markers. *)
Lemma described_length (ms : list (string * string)) :
  List.length (Orchestrator.described ms) <= List.length ms.
Proof.
  induction ms as [|[intf desc] ms IH]; simpl; [lia|].
  destruct (Py.truthy desc && Py.truthy (Py.strip desc)); simpl; lia.
Qed.

Lemma interface_markers_at_most_three (device_config : string) :
  List.length (Orchestrator.interface_markers device_config) <= 3.
Proof.
  unfold Orchestrator.interface_markers.
  etransitivity; [apply described_length|]. apply firstn_le_length.
Qed.

(* ================================================================== *)
(** ** Step 5: what the output of the copy decides *)

Section CopyToFlash.
Import Orchestrator Scenario.

(** What step 5 makes of the output of the copy command: the success
    markers are looked for first, the error markers only when there is
    none. *)
Lemma copy_step_outcome (w : World) (mc : machine) (output : string) :
  w (List.length (trace mc))
    (execute_device_command (copy_command (self mc)) 30 300 true) = Return output ->
  let asked :=
    (trace mc ++ [execute_device_command (copy_command (self mc)) 30 300 true])%list in
  _step_copy_config_to_flash w mc =
    if Py.contains "bytes copied" (Py.lower output) || Py.contains "ok" (Py.lower output)
    then (Return tt, mkMachine (set_state CONFIG_COPIED_TO_FLASH (self mc)) asked)
    else if Py.contains "error" (Py.lower output) || Py.contains "fail" (Py.lower output)
    then (Raise (mkExn ConfigurationDeploymentError
                   ("Failed to copy configuration to flash: " ++ output)),
          mkMachine (self mc) asked)
    else (Return tt, mkMachine (self mc) asked).
Proof.
  intros H asked.
  unfold _step_copy_config_to_flash, try, bind, get, device_command, ask.
  cbn [self trace]. rewrite H.
  destruct (Py.contains "bytes copied" (Py.lower output)
            || Py.contains "ok" (Py.lower output)); [reflexivity|].
  destruct (Py.contains "error" (Py.lower output)
            || Py.contains "fail" (Py.lower output)); reflexivity.
Qed.

End CopyToFlash.

(** C7: a copy that reports an error is taken for a success.  Whenever
    the output of the copy to flash holds the letters [ok] anywhere,
    within a word as well, step 5 returns and advances the state to the
    copied milestone, whatever error marker the output holds besides.
    The text of a transfer that broke off,
    [%Error reading ftp://10.0.0.5//edge-1.txt (Broken pipe)], holds
    the marker [error], no byte count and no [ok] outside the word
    [Broken]; step 5 takes it for a success where the specification
    wants [ConfigurationDeploymentError], and step 6, which looks for
    the error first, raises that error on the same text. *)
Theorem C7_reported_error_is_taken_for_success :
  (forall (w : Orchestrator.World) (mc : Orchestrator.machine) (output : string),
     w (List.length (Orchestrator.trace mc))
       (Orchestrator.execute_device_command
          (Orchestrator.copy_command (Orchestrator.self mc)) 30 300 true)
     = Return output ->
     Py.contains "ok" (Py.lower output) = true ->
     Orchestrator._step_copy_config_to_flash w mc
     = (Return tt,
        Orchestrator.mkMachine
          (Orchestrator.set_state Orchestrator.CONFIG_COPIED_TO_FLASH
             (Orchestrator.self mc))
          (Orchestrator.trace mc
           ++ [Orchestrator.execute_device_command
                 (Orchestrator.copy_command (Orchestrator.self mc)) 30 300 true])%list))
  /\
  (Py.contains "error" (Py.lower Scenario.broken_pipe) = true /\
   Py.contains "bytes copied" (Py.lower Scenario.broken_pipe) = false /\
   Py.contains "ok" (Py.lower (Py.replace "Broken" "" Scenario.broken_pipe)) = false /\
   Orchestrator._step_copy_config_to_flash
     (Scenario.device_says Scenario.broken_pipe) Scenario.staged
   = (Return tt,
      Orchestrator.mkMachine
        (Orchestrator.set_state Orchestrator.CONFIG_COPIED_TO_FLASH
           (Orchestrator.self Scenario.staged))
        [Orchestrator.execute_device_command
           (Orchestrator.copy_command (Orchestrator.self Scenario.staged)) 30 300 true]) /\
   fst (Orchestrator._step_apply_configuration
          (Scenario.device_says Scenario.broken_pipe) Scenario.staged)
   = Raise (mkExn ConfigurationDeploymentError
              ("Errors occurred while applying configuration: " ++ Scenario.broken_pipe))).
Proof.
  split.
  - intros w mc output Hw Hok.
    rewrite (copy_step_outcome w mc output Hw). now rewrite Hok, orb_true_r.
  - repeat split; vm_compute; reflexivity.
Qed.

(* ================================================================== *)
(** ** The command loop: when it ends *)

Section Clock.
Import ConsoleManager.

Lemma confirm_clock (a : cmd_args) (st0 : loop_state) (chunk : string) :
  let st1 := if auto_confirm a && negb (confirmation_sent st0)
             then confirm confirmation_patterns chunk st0 else st0 in
  now st1 = now st0 /\ output st1 = output st0 /\
  pagination_count st1 = pagination_count st0 /\
  ((start_time st1 = start_time st0 /\ confirmation_sent st1 = confirmation_sent st0)
   \/ (auto_confirm a = true /\ confirmation_sent st0 = false /\
       start_time st1 = now st0 /\ confirmation_sent st1 = true)).
Proof.
  destruct (auto_confirm a) eqn:Ea; cbn [andb]; [|intuition].
  destruct (confirmation_sent st0) eqn:Ec; cbn [negb]; [intuition|].
  destruct (confirm_cases confirmation_patterns chunk st0) as [->| ->];
    cbn; intuition.
Qed.

Lemma later_checks_now (a : cmd_args) (st0 : loop_state) (chunk : string) :
  now (fst (later_checks a st0 chunk)) = now st0 /\
  output (fst (later_checks a st0 chunk)) = output st0.
Proof.
  destruct (confirm_clock a st0 chunk) as (Hn & Ho & _).
  destruct (later_checks_state a st0 chunk) as [-> | ->]; cbn; auto.
Qed.

(** Every round takes one second and appends what it read. *)
Lemma round_now (a : cmd_args) (st : loop_state) (chunk : string) :
  now (fst (round a st chunk)) = (now st + 1)%Z /\
  output (fst (round a st chunk)) = output st ++ chunk.
Proof.
  unfold round.
  destruct (handle_pagination a && _ && has_pager chunk); [cbn; auto|].
  apply later_checks_now.
Qed.



End Clock.

Section Deadline.
Import ConsoleManager.

(** On the device that shows a page in the tenth round, a call with a
    timeout of ten seconds does not return ten seconds after the
    command was sent: the advance of the pager sets the clock anew, and
    the call returns in the twentieth round. *)
Example pager_advance_moves_the_deadline :
  let a := mkArgs "show running-config" 5 (Some "#") 10 true false in
  execute_device_command true a Scenario.page_at_ten 0 19 = None /\
  option_map now (loop a Scenario.page_at_ten 0 20) = Some 20%Z.
Proof. split; vm_compute; reflexivity. Qed.

(** While data keeps arriving, a call without an expected text whose
    wait is shorter than its timeout goes on: before the timeout can
    pass, the wait has passed and the data has set the clock anew. *)
Lemma round_renewing (a : cmd_args) (st : loop_state) (chunk : string) :
  Py.truthy_opt (expect a) = false ->
  (wait_time a < timeout a)%Z -> (1 < timeout a)%Z ->
  chunk <> EmptyString ->
  renewing a st ->
  exists st', round a st chunk = (st', true) /\ renewing a st'.
Proof.
  intros He Hw Ht Hc Hr. unfold renewing, elapsed in *.
  unfold round. cbn [pagination_count].
  destruct (handle_pagination a && _ && has_pager chunk).
  { eexists. split; [reflexivity|].
    cbn [now start_time reset_clock with_send]. lia. }
  unfold later_checks.
  pose proof (confirm_clock a
                (mkLoop (now st + 1)%Z (start_time st) (output st ++ chunk)
                        (pagination_count st) (confirmation_sent st) (sent st))
                chunk) as Hcl.
  cbv zeta in Hcl. revert Hcl.
  generalize (if auto_confirm a
                 && negb (confirmation_sent
                            (mkLoop (now st + 1)%Z (start_time st) (output st ++ chunk)
                                    (pagination_count st) (confirmation_sent st) (sent st)))
              then confirm confirmation_patterns chunk
                     (mkLoop (now st + 1)%Z (start_time st) (output st ++ chunk)
                             (pagination_count st) (confirmation_sent st) (sent st))
              else mkLoop (now st + 1)%Z (start_time st) (output st ++ chunk)
                          (pagination_count st) (confirmation_sent st) (sent st)).
  intros st1 (Hn & _ & _ & Hs). cbn [now start_time] in Hn, Hs.
  assert (start_time st1 = start_time st \/ start_time st1 = (now st + 1)%Z) as Hst
    by (destruct Hs as [[? _]|(_ & _ & ? & _)]; auto).
  rewrite He. cbn [andb negb]. unfold later_than.
  destruct (Z.leb_spec (timeout a) (now st1 - start_time st1)); [lia|].
  destruct (Z.leb_spec (wait_time a) (now st1 - start_time st1)).
  - destruct chunk; [congruence|]. cbn [Py.truthy].
    eexists. split; [reflexivity|]. cbn [now start_time reset_clock]. lia.
  - eexists. split; [reflexivity|]. lia.
Qed.

Lemma rounds_renewing (a : cmd_args) (reads : nat -> string) (n : nat) :
  Py.truthy_opt (expect a) = false ->
  (wait_time a < timeout a)%Z -> (1 < timeout a)%Z ->
  (forall i, reads i <> EmptyString) ->
  forall i st, renewing a st -> snd (rounds a reads n i st) = true.
Proof.
  intros He Hw Ht Hd. induction n as [|n IH]; intros i st Hr; simpl; [reflexivity|].
  destruct (round_renewing a st (reads i) He Hw Ht (Hd i) Hr) as (st' & -> & Hr').
  now apply IH.
Qed.

(** Below the ceiling a chunk with a pager marker has one space sent,
    the counter raised and the clock set; nothing else of the round is
    done. *)
Lemma pager_round (a : cmd_args) (st : loop_state) (chunk : string) :
  handle_pagination a = true ->
  pagination_count st < max_pagination ->
  has_pager chunk = true ->
  round a st chunk
  = (mkLoop (now st + 1)%Z (now st + 1)%Z (output st ++ chunk)
            (S (pagination_count st)) (confirmation_sent st)
            (sent st ++ [" "])%list, true).
Proof.
  intros Hh Hc Hp. unfold round. cbn [pagination_count].
  apply Nat.ltb_lt in Hc. now rewrite Hh, Hc, Hp.
Qed.

Lemma round_paging (cmd : string) (st : loop_state) :
  paging st ->
  exists st', round (args cmd) st "--More--" = (st', true) /\ paging st'.
Proof.
  intros [[Hlt Hs] | [Heq He]].
  - rewrite pager_round by (reflexivity || (unfold max_pagination; lia)).
    eexists. split; [reflexivity|].
    unfold paging, elapsed. cbn [pagination_count start_time now].
    destruct (Nat.eq_dec (S (pagination_count st)) 50); [right|left]; lia.
  - unfold round, args.
    cbn [handle_pagination pagination_count andb].
    rewrite Heq. change (50 <? max_pagination) with false. cbn [andb].
    unfold later_checks.
    cbn [auto_confirm andb expect Py.truthy_opt negb timeout wait_time
         now start_time].
    unfold elapsed in He.
    unfold later_than. cbn [now start_time].
    destruct (Z.leb_spec 120 (now st + 1 - start_time st)); [lia|].
    destruct (Z.leb_spec 5 (now st + 1 - start_time st)).
    + change (Py.truthy "--More--") with true. cbv iota.
      eexists. split; [reflexivity|].
      right. unfold elapsed. cbn [pagination_count reset_clock now start_time].
      lia.
    + eexists. split; [reflexivity|].
      right. unfold elapsed. cbn [pagination_count now start_time]. lia.
Qed.

Lemma rounds_paging (cmd : string) (n : nat) :
  forall i st, paging st ->
    snd (rounds (args cmd) Scenario.pager_forever n i st) = true.
Proof.
  induction n as [|n IH]; intros i st Hp; simpl; [reflexivity|].
  unfold Scenario.pager_forever at 1.
  destruct (round_paging cmd st Hp) as (st' & -> & Hp').
  now apply IH.
Qed.

End Deadline.

(** C3: the timeout does not end a call while data keeps arriving.  A
    call without an expected text, with a wait shorter than its timeout
    (the default arguments, and every call the workflow makes), on a
    channel that has data at every poll, never returns, however many
    rounds it is given: each time the wait has passed, the data sets
    the clock anew, and the timeout is counted from there.  On the
    device that always has something to say, a call with the default
    arguments (timeout 120) is still in its loop after a thousand
    rounds, with less than the wait of five seconds on its clock,
    where the specification wants it back after the timeout. *)
Theorem C3_arriving_data_defeats_the_timeout :
  (forall (a : ConsoleManager.cmd_args) (reads : nat -> string) (t0 : Z) (fuel : nat),
     Py.truthy_opt (ConsoleManager.expect a) = false ->
     (ConsoleManager.wait_time a < ConsoleManager.timeout a)%Z ->
     (1 < ConsoleManager.timeout a)%Z ->
     (forall i, reads i <> EmptyString) ->
     ConsoleManager.execute_device_command true a reads t0 fuel = None)
  /\
  (forall fuel : nat,
     ConsoleManager.execute_device_command true
       (ConsoleManager.args "show running-config") Scenario.steady 0 fuel
     = None)
  /\
  (let st := fst (ConsoleManager.rounds (ConsoleManager.args "show running-config")
                    Scenario.steady 1000 1 (ConsoleManager.start 0)) in
   ConsoleManager.now st = 1000%Z /\
   (elapsed st < 5)%Z /\
   ConsoleManager.sent st = [] /\
   String.length (ConsoleManager.output st) = 3000).
Proof.
  assert (forall (a : ConsoleManager.cmd_args) (reads : nat -> string) (t0 : Z) (fuel : nat),
     Py.truthy_opt (ConsoleManager.expect a) = false ->
     (ConsoleManager.wait_time a < ConsoleManager.timeout a)%Z ->
     (1 < ConsoleManager.timeout a)%Z ->
     (forall i, reads i <> EmptyString) ->
     ConsoleManager.execute_device_command true a reads t0 fuel = None) as General.
  { intros a reads t0 fuel He Hw Ht Hd.
    unfold ConsoleManager.execute_device_command, ConsoleManager.loop. cbn [negb].
    pose proof (rounds_renewing a reads fuel He Hw Ht Hd 1 (ConsoleManager.start t0)) as H.
    destruct (ConsoleManager.rounds a reads fuel 1 _) as [st again].
    simpl in H. rewrite H; [reflexivity|].
    unfold renewing, elapsed. cbn. lia. }
  split; [exact General|]. split.
  - intros fuel. apply General; try reflexivity. discriminate.
  - vm_compute. repeat split.
Qed.

(** C4, on a device that answers every round with one more pager
    marker: a call with the default arguments never returns, however
    many rounds it is given; the counter stops at the ceiling of fifty
    with fifty spaces sent, and from then on every marker chunk, being
    data, sets the quiescence clock back. *)
Theorem C4_endless_pager_never_returns :
  (forall fuel : nat,
     ConsoleManager.execute_device_command true
       (ConsoleManager.args "show running-config") Scenario.pager_forever 0 fuel
     = None) /\
  (let st := fst (ConsoleManager.rounds (ConsoleManager.args "show running-config")
                    Scenario.pager_forever 200 1 (ConsoleManager.start 0)) in
   ConsoleManager.pagination_count st = 50 /\
   ConsoleManager.sent st = repeat " " 50 /\
   ConsoleManager.now st = 200%Z).
Proof.
  split.
  - intros fuel. unfold ConsoleManager.execute_device_command, ConsoleManager.loop.
    cbn [negb].
    pose proof (rounds_paging "show running-config" fuel 1 (ConsoleManager.start 0)) as H.
    destruct (ConsoleManager.rounds _ _ fuel 1 _) as [st again].
    simpl in H. rewrite H; [reflexivity|].
    left. cbn. split; [lia|reflexivity].
  - vm_compute. repeat split.
Qed.

(* ================================================================== *)
(** ** The workflow: what reaches the outside *)

Section Footprint.
Import Orchestrator.
Variable w : World.
Variable P : call -> bool.

Lemma emits_ret {A} (a : A) : emits P (ret a).
Proof. intros mc. exists []. simpl. now rewrite app_nil_r. Qed.

Lemma emits_raise {A} (e : exn) : emits P (@raise A e).
Proof. intros mc. exists []. simpl. now rewrite app_nil_r. Qed.

Lemma emits_get : emits P get.
Proof. intros mc. exists []. simpl. now rewrite app_nil_r. Qed.

Lemma emits_modify (f : orchestrator -> orchestrator) : emits P (modify f).
Proof. intros mc. exists []. simpl. now rewrite app_nil_r. Qed.

Lemma emits_bind {A B} (x : M A) (f : A -> M B) :
  emits P x -> (forall a, emits P (f a)) -> emits P (bind x f).
Proof.
  intros Hx Hf mc. unfold bind.
  destruct (Hx mc) as (n1 & E1 & F1).
  destruct (x mc) as [[a|e] mc1]; simpl in E1.
  - destruct (Hf a mc1) as (n2 & E2 & F2).
    exists (n1 ++ n2)%list. rewrite E2, E1, app_assoc, forallb_app, F1, F2. auto.
  - exists n1. simpl. auto.
Qed.

Lemma emits_try {A} (body : M A) (handler : exn -> M A) :
  emits P body -> (forall e, emits P (handler e)) -> emits P (try body handler).
Proof.
  intros Hx Hf mc. unfold try.
  destruct (Hx mc) as (n1 & E1 & F1).
  destruct (body mc) as [[a|e] mc1]; simpl in E1.
  - exists n1. simpl. auto.
  - destruct (Hf e mc1) as (n2 & E2 & F2).
    exists (n1 ++ n2)%list. rewrite E2, E1, app_assoc, forallb_app, F1, F2. auto.
Qed.

Lemma emits_finally {A} (body : M A) (last : M unit) :
  emits P body -> emits P last -> emits P (finally body last).
Proof.
  intros Hx Hl mc. unfold finally.
  destruct (Hx mc) as (n1 & E1 & F1).
  destruct (body mc) as [r mc1]; simpl in E1.
  destruct (Hl mc1) as (n2 & E2 & F2).
  exists (n1 ++ n2)%list. simpl. rewrite E2, E1, app_assoc, forallb_app, F1, F2. auto.
Qed.

Lemma emits_ask_unit (c : call) (r : reply c -> result unit) :
  P c = true -> emits P (ask_unit w c r).
Proof.
  intros Hc mc. exists [c]. unfold ask_unit, ask. simpl. now rewrite Hc.
Qed.

Lemma emits_nb_config (name : string) :
  P (get_device_config name) = true -> emits P (nb_config w name).
Proof. intros Hc mc. exists [get_device_config name]. simpl. now rewrite Hc. Qed.

Lemma emits_nb_serial (name : string) :
  P (get_device_serial name) = true -> emits P (nb_serial w name).
Proof. intros Hc mc. exists [get_device_serial name]. simpl. now rewrite Hc. Qed.

Lemma emits_ssh_exec (command : string) :
  P (execute_command command) = true -> emits P (ssh_exec w command).
Proof. intros Hc mc. exists [execute_command command]. simpl. now rewrite Hc. Qed.

Lemma emits_read_channel :
  P read_channel = true -> emits P (_read_channel w).
Proof. intros Hc mc. exists [read_channel]. simpl. now rewrite Hc. Qed.

Lemma emits_device_command (command : string) (wt tm : Z) (ac : bool) :
  P (execute_device_command command wt tm ac) = true ->
  emits P (device_command w command wt tm ac).
Proof.
  intros Hc mc. exists [execute_device_command command wt tm ac].
  simpl. now rewrite Hc.
Qed.

End Footprint.

(** One step of a proof that a computation emits only calls in [P]:
    follow the structure of the computation; the calls themselves are
    left as goals [P c = true]. *)
Ltac emits_step :=
  lazymatch goal with
  | |- emits _ (Orchestrator.bind _ _) => apply emits_bind; [|intro]
  | |- emits _ (Orchestrator.try _ _) => apply emits_try; [|intro]
  | |- emits _ (Orchestrator.quiet _) => apply emits_try; [|intro]
  | |- emits _ (Orchestrator.ret _) => apply emits_ret
  | |- emits _ (Orchestrator.raise _) => apply emits_raise
  | |- emits _ Orchestrator.get => apply emits_get
  | |- emits _ (Orchestrator.modify _) => apply emits_modify
  | |- emits _ (Orchestrator.ask_unit _ _ _) => apply emits_ask_unit
  | |- emits _ (Orchestrator.nb_config _ _) => apply emits_nb_config
  | |- emits _ (Orchestrator.nb_serial _ _) => apply emits_nb_serial
  | |- emits _ (Orchestrator.ssh_exec _ _) => apply emits_ssh_exec
  | |- emits _ (Orchestrator._read_channel _) => apply emits_read_channel
  | |- emits _ (Orchestrator.device_command _ _ _ _ _) => apply emits_device_command
  | |- emits _ (if ?b then _ else _) => destruct b
  | |- emits _ (match ?x with _ => _ end) => destruct x
  end.

Ltac emits_all :=
  unfold Orchestrator.netbox_new, Orchestrator.ssh_connect, Orchestrator.ssh_close,
    Orchestrator.console_connect, Orchestrator.console_close,
    Orchestrator.console_open, Orchestrator.send, Orchestrator.ssh_create;
  repeat emits_step.

Section Steps.
Import Orchestrator.
Variable w : World.

Lemma step1_emits (P : call -> bool) :
  P NetBoxClient_new = true ->
  (forall n, P (get_device_config n) = true) ->
  (forall n, P (get_device_serial n) = true) ->
  emits P (_step_retrieve_netbox_config w).
Proof. intros. unfold _step_retrieve_netbox_config. emits_all; auto. Qed.

Lemma step2_emits (P : call -> bool) :
  P SSHManager_connect = true ->
  (forall p c, P (create_remote_file p c) = true) ->
  (forall p, P (execute_command ("ls -lh " ++ p)) = true) ->
  emits P (_step_create_ftp_file w).
Proof. intros. unfold _step_create_ftp_file. emits_all; auto. Qed.

Lemma enable_emits (P : call -> bool) :
  (forall d, P (channel_send d) = true) -> P read_channel = true ->
  emits P (_enter_enable_mode w).
Proof. intros. unfold _enter_enable_mode. emits_all; auto. Qed.

Lemma step3_emits (P : call -> bool) :
  P ConsoleManager_connect = true ->
  (forall p, P (connect_to_console p) = true) ->
  (forall d, P (channel_send d) = true) -> P read_channel = true ->
  emits P (_step_connect_to_console w).
Proof.
  intros. unfold _step_connect_to_console. emits_all; auto.
  now apply enable_emits.
Qed.

End Steps.

Section DeviceSteps.
Import Orchestrator.
Variable w : World.
Variable P : call -> bool.
Hypothesis device_calls : forall c wt tm ac, P (execute_device_command c wt tm ac) = true.

Lemma step4_emits : emits P (_step_verify_device w).
Proof. unfold _step_verify_device. emits_all; auto. Qed.

Lemma step5_emits : emits P (_step_copy_config_to_flash w).
Proof. unfold _step_copy_config_to_flash. emits_all; auto. Qed.

Lemma check_items_emits (items : list (string * string)) :
  forall failed, emits P (check_items w items failed).
Proof.
  induction items as [|[t v] items IH]; intros failed; simpl.
  - apply emits_ret.
  - emits_all; auto.
Qed.

Lemma verify_applied_emits : emits P (_verify_configuration_applied w).
Proof.
  unfold _verify_configuration_applied.
  apply emits_bind; [apply emits_get|intros o].
  destruct (_extract_verification_markers (device_config o)); [apply emits_ret|].
  apply emits_bind; [apply check_items_emits|intros failed].
  destruct failed; [apply emits_ret|apply emits_raise].
Qed.

Lemma step6_emits : emits P (_step_apply_configuration w).
Proof.
  unfold _step_apply_configuration. emits_all; auto.
  apply verify_applied_emits.
Qed.

End DeviceSteps.

Section Closing.
Import Orchestrator.
Variable w : World.

(** Once the state is [FAILED], the cleanup does nothing at all: the
    comparison ["failed" >= "ftp_file_created"] of the two values is
    false. *)
Lemma cleanup_after_failure (o : orchestrator) (tr : list call) :
  _cleanup w (mkMachine (set_state FAILED o) tr)
  = (Return tt, mkMachine (set_state FAILED o) tr).
Proof. reflexivity. Qed.

Lemma close_silent : silent (_close_connections w).
Proof.
  intros [o tr0]. set (mc := mkMachine o tr0).
  unfold _close_connections, bind, get, quiet, try, console_close,
    ssh_close, ask_unit, ask, ret.
  cbn [self trace].
  destruct (console_manager (self mc)).
  - destruct (w (List.length (trace mc)) ConsoleManager_close) as [[]|e];
      cbn [self trace];
      (destruct (ssh_manager (self mc));
       [match goal with
        | |- context [w ?n SSHManager_close] =>
            destruct (w n SSHManager_close) as [[]|e']
        end|]; eexists; reflexivity).
  - destruct (ssh_manager (self mc));
      [destruct (w (List.length (trace mc)) SSHManager_close) as [[]|e']|];
      eexists; reflexivity.
Qed.

Lemma close_emits (P : call -> bool) :
  P ConsoleManager_close = true -> P SSHManager_close = true ->
  emits P (_close_connections w).
Proof. intros. unfold _close_connections. emits_all; auto. Qed.

(** The six steps return only through their last line. *)
Lemma steps_return (mc mc' : machine) (b : bool) :
  steps w mc = (Return b, mc') -> b = true /\ state (self mc') = COMPLETED.
Proof.
  unfold steps, bind.
  destruct (_step_retrieve_netbox_config w mc) as [[[]|?] m1]; [|discriminate].
  destruct (_step_create_ftp_file w m1) as [[[]|?] m2]; [|discriminate].
  destruct (_step_connect_to_console w m2) as [[[]|?] m3]; [|discriminate].
  destruct (_step_verify_device w m3) as [[[]|?] m4]; [|discriminate].
  destruct (_step_copy_config_to_flash w m4) as [[[]|?] m5]; [|discriminate].
  destruct (_step_apply_configuration w m5) as [[[]|?] m6]; [|discriminate].
  cbn. intros [= <- <-]. auto.
Qed.

(** What [provision_device] makes of the outcome of the six steps. *)
Lemma provision_device_outcome (mc : machine) :
  match steps w mc with
  | (Return b, mc1) =>
      exists tr, provision_device w mc = (Return b, mkMachine (self mc1) tr)
  | (Raise cause, mc1) =>
      exists tr,
        provision_device w mc
        = (Raise (mkExn ProvisioningError ("Provisioning failed: " ++ message cause)),
           mkMachine (set_state FAILED (self mc1)) tr)
  end.
Proof.
  unfold provision_device, finally, try.
  destruct (steps w mc) as [[b|cause] mc1].
  - destruct (close_silent mc1) as (tr & ->). now exists tr.
  - unfold bind at 1. cbn [modify]. unfold bind at 1.
    rewrite cleanup_after_failure. cbn [raise].
    destruct (close_silent (mkMachine (set_state FAILED (self mc1)) (trace mc1)))
      as (tr & ->).
    now exists tr.
Qed.

End Closing.

(** C10: a run of [provision_device] either returns [True] with the
    state [COMPLETED], or raises [ProvisioningError] whose message
    carries the message of the exception a step raised, with the state
    [FAILED]; it never returns [False]. *)
Theorem C10_true_or_provisioning_error
  (w : Orchestrator.World) (o : Orchestrator.orchestrator) :
  (fst (Orchestrator.run w o) = Return true /\
   Orchestrator.state (Orchestrator.self (snd (Orchestrator.run w o)))
   = Orchestrator.COMPLETED)
  \/
  (exists cause : exn,
     fst (Orchestrator.steps w (Orchestrator.mkMachine o [])) = Raise cause /\
     fst (Orchestrator.run w o)
     = Raise (mkExn ProvisioningError ("Provisioning failed: " ++ message cause)) /\
     Orchestrator.state (Orchestrator.self (snd (Orchestrator.run w o)))
     = Orchestrator.FAILED).
Proof.
  unfold Orchestrator.run.
  pose proof (provision_device_outcome w (Orchestrator.mkMachine o [])) as H.
  destruct (Orchestrator.steps w (Orchestrator.mkMachine o [])) as [[b|cause] mc1] eqn:Es.
  - left. destruct H as (tr & ->).
    apply steps_return in Es as [-> Hs]. split; [reflexivity|exact Hs].
  - right. destruct H as (tr & ->). exists cause. repeat split.
Qed.

Section WholeRun.
Import Orchestrator.
Variable w : World.

Lemma preparation_emits (P : call -> bool) :
  P NetBoxClient_new = true ->
  (forall n, P (get_device_config n) = true) ->
  (forall n, P (get_device_serial n) = true) ->
  P SSHManager_connect = true ->
  (forall p c, P (create_remote_file p c) = true) ->
  (forall p, P (execute_command ("ls -lh " ++ p)) = true) ->
  P ConsoleManager_connect = true ->
  (forall p, P (connect_to_console p) = true) ->
  (forall d, P (channel_send d) = true) -> P read_channel = true ->
  emits P (preparation w).
Proof.
  intros. unfold preparation.
  apply emits_bind; [now apply step1_emits|intros _].
  apply emits_bind; [now apply step2_emits|intros _].
  now apply step3_emits.
Qed.

Lemma steps_emit_no_deletion : emits no_deletion (steps w).
Proof.
  unfold steps.
  apply emits_bind; [now apply step1_emits|intros _].
  apply emits_bind; [now apply step2_emits|intros _].
  apply emits_bind; [now apply step3_emits|intros _].
  apply emits_bind; [now apply step4_emits|intros _].
  apply emits_bind; [now apply step5_emits|intros _].
  apply emits_bind; [now apply step6_emits|intros _].
  apply emits_bind; [apply emits_modify|intros _]. apply emits_ret.
Qed.

(** After the six steps, whatever their outcome, [provision_device]
    only closes the connections. *)
Lemma provision_device_trace (P : call -> bool) (mc : machine) :
  P ConsoleManager_close = true -> P SSHManager_close = true ->
  exists closing,
    trace (snd (provision_device w mc))
    = (trace (snd (steps w mc)) ++ closing)%list /\
    forallb P closing = true.
Proof.
  intros Hc Hs. unfold provision_device, finally, try.
  destruct (steps w mc) as [[b|cause] mc1]; cbn [snd].
  - apply (close_emits w P Hc Hs).
  - unfold bind at 1. cbn [modify]. unfold bind at 1.
    rewrite cleanup_after_failure. cbn [raise snd].
    apply (close_emits w P Hc Hs
             (mkMachine (set_state FAILED (self mc1)) (trace mc1))).
Qed.

Lemma parsed_serial_truthy (output actual : string) :
  ConsoleManager.parse_show_version output = Some actual -> Py.truthy actual = true.
Proof.
  unfold ConsoleManager.parse_show_version. intros H.
  pose proof (first_serial_spec ConsoleManager.patterns (ConsoleManager.clean output)) as S.
  rewrite H in S. destruct S as ((Hne & _) & _).
  destruct actual; [congruence|reflexivity].
Qed.

(** Step 4 on a device whose serial is not the expected one. *)
Lemma verify_mismatch (mc : machine) (expected actual output banner : string) :
  expected_serial (self mc) = Some expected ->
  w (List.length (trace mc)) (execute_device_command "terminal length 0" 2 120 false)
  = Return banner ->
  w (S (List.length (trace mc))) (execute_device_command "show version" 10 120 false)
  = Return output ->
  ConsoleManager.parse_show_version output = Some actual ->
  Py.lower expected <> Py.lower actual ->
  _step_verify_device w mc
  = (Raise (mkExn DeviceVerificationError
              ("Serial number mismatch! Expected '" ++ expected
               ++ "', but device reports '" ++ actual
               ++ "'. Aborting to prevent misconfiguration.")),
     mkMachine (set_actual_serial (Some actual) (self mc))
               (trace mc ++ [execute_device_command "terminal length 0" 2 120 false;
                             execute_device_command "show version" 10 120 false])%list).
Proof.
  intros He H1 H2 Hp Hne.
  unfold _step_verify_device, try, bind, device_command, ask, modify, get.
  cbn [self trace]. rewrite H1. cbn [self trace].
  rewrite length_app. cbn [List.length]. rewrite Nat.add_1_r, H2, Hp.
  cbn [self trace actual_serial set_actual_serial expected_serial].
  rewrite (parsed_serial_truthy _ _ Hp), He. cbn [negb].
  apply String.eqb_neq in Hne. rewrite Hne. cbn [negb raise].
  change (isinstance _ DeviceVerificationError) with true. cbv iota.
  unfold raise. now rewrite <- app_assoc.
Qed.

End WholeRun.

(** C1: in a run whose first three steps have succeeded and in which the
    serial extracted from the output of [show version] differs, without
    regard to case, from the expected serial, the verification step
    raises [DeviceVerificationError], the run raises, its final state is
    [FAILED], and no command of the copy-to-flash or apply-configuration
    step is ever sent to the device. *)
Theorem C1_serial_mismatch_aborts
  (w : Orchestrator.World) (o : Orchestrator.orchestrator)
  (mc : Orchestrator.machine) (expected actual output banner : string) :
  Orchestrator.preparation w (Orchestrator.mkMachine o []) = (Return tt, mc) ->
  Orchestrator.expected_serial (Orchestrator.self mc) = Some expected ->
  w (List.length (Orchestrator.trace mc))
    (Orchestrator.execute_device_command "terminal length 0" 2 120 false)
  = Return banner ->
  w (S (List.length (Orchestrator.trace mc)))
    (Orchestrator.execute_device_command "show version" 10 120 false)
  = Return output ->
  ConsoleManager.parse_show_version output = Some actual ->
  Py.lower expected <> Py.lower actual ->
  (exists msg,
     fst (Orchestrator._step_verify_device w mc)
     = Raise (mkExn DeviceVerificationError msg)) /\
  (exists msg,
     fst (Orchestrator.run w o) = Raise (mkExn ProvisioningError msg)) /\
  Orchestrator.state (Orchestrator.self (snd (Orchestrator.run w o)))
  = Orchestrator.FAILED /\
  forallb no_configuration (Orchestrator.trace (snd (Orchestrator.run w o))) = true.
Proof.
  intros Hprep He H1 H2 Hp Hne.
  pose proof (verify_mismatch w mc expected actual output banner He H1 H2 Hp Hne) as Hv.
  assert (exists msg,
            Orchestrator.steps w (Orchestrator.mkMachine o [])
            = (Raise (mkExn DeviceVerificationError msg),
               Orchestrator.mkMachine
                 (Orchestrator.set_actual_serial (Some actual) (Orchestrator.self mc))
                 (Orchestrator.trace mc
                  ++ [Orchestrator.execute_device_command "terminal length 0" 2 120 false;
                      Orchestrator.execute_device_command "show version" 10 120 false])%list))
    as (msg & Hsteps).
  { revert Hprep. unfold Orchestrator.steps, Orchestrator.preparation, Orchestrator.bind.
    destruct (Orchestrator._step_retrieve_netbox_config w _) as [[[]|?] m1];
      [|discriminate].
    destruct (Orchestrator._step_create_ftp_file w m1) as [[[]|?] m2];
      [|discriminate].
    intros ->. rewrite Hv. eauto. }
  split; [rewrite Hv; eexists; reflexivity|].
  unfold Orchestrator.run.
  pose proof (provision_device_outcome w (Orchestrator.mkMachine o [])) as Hout.
  destruct (provision_device_trace w no_configuration
              (Orchestrator.mkMachine o []) eq_refl eq_refl)
    as (closing & Htr & Hcl).
  rewrite Hsteps in Hout, Htr. cbn [snd Orchestrator.trace] in Htr.
  destruct Hout as (tr & Hrun).
  split; [rewrite Hrun; eexists; reflexivity|].
  split; [now rewrite Hrun|].
  rewrite Htr, !forallb_app, Hcl.
  assert (emits no_configuration (Orchestrator.preparation w)) as Hem
    by (apply preparation_emits; reflexivity).
  destruct (Hem (Orchestrator.mkMachine o [])) as (new & Hnew & Hall).
  rewrite Hprep in Hnew. cbn in Hnew. rewrite Hnew, Hall. reflexivity.
Qed.

Lemma C1_serial_mismatch_aborts_witness :
  let w := Scenario.lab "FOC9999ZZZZ" "96 bytes copied" in
  let mc := snd (Orchestrator.preparation w (Orchestrator.mkMachine Scenario.edge1 [])) in
  (Orchestrator.preparation w (Orchestrator.mkMachine Scenario.edge1 []) = (Return tt, mc) /\
   ConsoleManager.parse_show_version ("System Serial Number: FOC9999ZZZZ" ++ Py.nl)
   = Some "FOC9999ZZZZ" /\
   Py.lower "FOC2345ABCD" <> Py.lower "FOC9999ZZZZ") /\
  (exists msg,
     fst (Orchestrator._step_verify_device w mc)
     = Raise (mkExn DeviceVerificationError msg)) /\
  (exists msg,
     fst (Orchestrator.run w Scenario.edge1) = Raise (mkExn ProvisioningError msg)) /\
  Orchestrator.state (Orchestrator.self (snd (Orchestrator.run w Scenario.edge1)))
  = Orchestrator.FAILED /\
  forallb no_configuration
    (Orchestrator.trace (snd (Orchestrator.run w Scenario.edge1))) = true.
Proof.
  intros w mc.
  assert (Orchestrator.preparation w (Orchestrator.mkMachine Scenario.edge1 [])
          = (Return tt, mc)) as Hprep by (vm_compute; reflexivity).
  assert (ConsoleManager.parse_show_version ("System Serial Number: FOC9999ZZZZ" ++ Py.nl)
          = Some "FOC9999ZZZZ") as Hp by (vm_compute; reflexivity).
  assert (Py.lower "FOC2345ABCD" <> Py.lower "FOC9999ZZZZ") as Hne
    by (vm_compute; discriminate).
  assert (Orchestrator.expected_serial (Orchestrator.self mc) = Some "FOC2345ABCD")
    as He by (vm_compute; reflexivity).
  assert (w (List.length (Orchestrator.trace mc))
            (Orchestrator.execute_device_command "terminal length 0" 2 120 false)
          = Return ("terminal length 0" ++ Py.nl ++ Scenario.edge_config))
    as H1 by (vm_compute; reflexivity).
  assert (w (S (List.length (Orchestrator.trace mc)))
            (Orchestrator.execute_device_command "show version" 10 120 false)
          = Return ("System Serial Number: FOC9999ZZZZ" ++ Py.nl))
    as H2 by (vm_compute; reflexivity).
  split; [auto|].
  exact (C1_serial_mismatch_aborts w Scenario.edge1 mc
           "FOC2345ABCD" "FOC9999ZZZZ"
           ("System Serial Number: FOC9999ZZZZ" ++ Py.nl)
           ("terminal length 0" ++ Py.nl ++ Scenario.edge_config)
           Hprep He H1 H2 Hp Hne).
Defined.

(** C2: no run ever attempts to delete the staged file, because the
    cleanup runs after the state has become [FAILED] and compares the
    values of the states as strings.  In the lab with a wrong serial the
    run fails after the file was staged (the state had reached
    [CONSOLE_CONNECTED], the file had been written) and ends without a
    single deletion attempt, where the specification wants exactly one. *)
Theorem C2_no_run_deletes_the_staged_file :
  (forall (w : Orchestrator.World) (o : Orchestrator.orchestrator),
     forallb no_deletion (Orchestrator.trace (snd (Orchestrator.run w o))) = true)
  /\
  (let w := Scenario.lab "FOC9999ZZZZ" "96 bytes copied" in
   Orchestrator.state
     (Orchestrator.self
        (snd (Orchestrator.preparation w (Orchestrator.mkMachine Scenario.edge1 []))))
   = Orchestrator.CONSOLE_CONNECTED /\
   In (Orchestrator.create_remote_file "/srv/ftp/edge-1.txt" Scenario.edge_config)
      (Orchestrator.trace (snd (Orchestrator.run w Scenario.edge1))) /\
   fst (Orchestrator.run w Scenario.edge1)
   = Raise (mkExn ProvisioningError
       "Provisioning failed: Serial number mismatch! Expected 'FOC2345ABCD', but device reports 'FOC9999ZZZZ'. Aborting to prevent misconfiguration.") /\
   List.length (filter is_deletion
                  (Orchestrator.trace (snd (Orchestrator.run w Scenario.edge1)))) = 0).
Proof.
  split.
  - intros w o. unfold Orchestrator.run.
    destruct (provision_device_trace w no_deletion (Orchestrator.mkMachine o [])
                eq_refl eq_refl) as (closing & -> & Hcl).
    destruct (steps_emit_no_deletion w (Orchestrator.mkMachine o []))
      as (new & -> & Hnew).
    cbn [Orchestrator.trace app]. now rewrite forallb_app, Hnew, Hcl.
  - vm_compute. repeat split. auto 20.
Qed.

(* ================================================================== *)
(** ** Connecting: the retry loops in closed form *)

Section Retry.
Variable outcome : nat -> result unit.
Variables retries retry_delay : Z.









End Retry.










(* ================================================================== *)
(** ** The command loop: what it sends and why it leaves *)

Section Sends.
Import ConsoleManager.

Lemma newline_is_no_space : Py.nl <> " ".
Proof. discriminate. Qed.

Lemma later_accounted (a : cmd_args) (st0 : loop_state) (chunk : string) :
  accounted a st0 -> accounted a (fst (later_checks a st0 chunk)).
Proof.
  intros H.
  assert (accounted a (if auto_confirm a && negb (confirmation_sent st0)
                       then confirm confirmation_patterns chunk st0 else st0)) as H1.
  { destruct (auto_confirm a) eqn:Ea; cbn [andb]; [|exact H].
    destruct (confirmation_sent st0) eqn:Ec; cbn [negb]; [exact H|].
    destruct (confirm_cases confirmation_patterns chunk st0) as [->| ->]; [exact H|].
    destruct H as (Hp & Hall & Hsp & Hlen & Hoff & Hnc).
    unfold accounted. cbn [pagination_count sent confirmation_sent].
    rewrite Ec in Hlen.
    repeat split.
    - exact Hp.
    - apply Forall_app. split; [exact Hall|]. constructor; [now right|constructor].
    - rewrite count_occ_app. cbn [count_occ].
      destruct (string_dec Py.nl " ") as [E|_]; [now apply newline_is_no_space in E|].
      lia.
    - rewrite length_app. cbn [List.length]. lia.
    - exact Hoff.
    - congruence. }
  destruct (later_checks_state a st0 chunk) as [-> | ->]; exact H1.
Qed.

Lemma round_accounted (a : cmd_args) (st : loop_state) (chunk : string) :
  accounted a st -> accounted a (fst (round a st chunk)).
Proof.
  intros H. unfold round. cbn [pagination_count].
  destruct (handle_pagination a && (pagination_count st <? max_pagination)
            && has_pager chunk) eqn:Ec.
  - apply andb_prop in Ec as [Ec _]. apply andb_prop in Ec as [Eh El].
    apply Nat.ltb_lt in El.
    destruct H as (Hp & Hall & Hsp & Hlen & Hoff & Hnc).
    unfold accounted.
    cbn [fst pagination_count sent confirmation_sent reset_clock with_send
         now start_time output].
    repeat split.
    + lia.
    + apply Forall_app. split; [exact Hall|]. constructor; [now left|constructor].
    + rewrite count_occ_app. cbn [count_occ].
      destruct (string_dec " " " ") as [_|N]; [lia|congruence].
    + rewrite length_app. cbn [List.length]. lia.
    + congruence.
    + exact Hnc.
  - apply later_accounted. exact H.
Qed.

Lemma rounds_accounted (a : cmd_args) (reads : nat -> string) (n : nat) :
  forall i st, accounted a st -> accounted a (fst (rounds a reads n i st)).
Proof.
  induction n as [|n IH]; intros i st H; simpl; [exact H|].
  pose proof (round_accounted a st (reads i) H) as H1.
  destruct (round a st (reads i)) as [st' again]. simpl in H1.
  destruct again; [now apply IH|exact H1].
Qed.

Lemma start_accounted (a : cmd_args) (t0 : Z) : accounted a (start t0).
Proof.
  unfold accounted, start, max_pagination. cbn. repeat split; auto; lia.
Qed.

(** Why a round that ends the loop has ended it. *)
Lemma round_left_because (a : cmd_args) (st st' : loop_state) (chunk : string) :
  round a st chunk = (st', false) -> left_because a st' chunk.
Proof.
  unfold round.
  destruct (handle_pagination a && _ && has_pager chunk); [discriminate|].
  unfold later_checks.
  generalize (if auto_confirm a
                 && negb (confirmation_sent
                            (mkLoop (now st + 1)%Z (start_time st) (output st ++ chunk)
                                    (pagination_count st) (confirmation_sent st) (sent st)))
              then confirm confirmation_patterns chunk
                     (mkLoop (now st + 1)%Z (start_time st) (output st ++ chunk)
                             (pagination_count st) (confirmation_sent st) (sent st))
              else mkLoop (now st + 1)%Z (start_time st) (output st ++ chunk)
                          (pagination_count st) (confirmation_sent st) (sent st)).
  intros st1. unfold left_because.
  destruct (expect a) as [e|] eqn:Ee; cbn [Py.truthy_opt].
  - destruct (Py.truthy e) eqn:Et; cbn [andb negb].
    + destruct (Py.contains e (output st1)) eqn:Ec.
      * intros [= <-]. left. exists e. auto.
      * destruct (later_than (timeout a) st1) eqn:ET; [|discriminate].
        intros [= <-]. right. now left.
    + destruct (later_than (timeout a) st1) eqn:ET.
      * intros [= <-]. right. now left.
      * destruct (later_than (wait_time a) st1) eqn:EW; [|discriminate].
        destruct chunk; cbn [Py.truthy]; [|discriminate].
        intros [= <-]. right. right. auto.
  - cbn [andb negb].
    destruct (later_than (timeout a) st1) eqn:ET.
    + intros [= <-]. right. now left.
    + destruct (later_than (wait_time a) st1) eqn:EW; [|discriminate].
      destruct chunk; cbn [Py.truthy]; [|discriminate].
      intros [= <-]. right. right. auto.
Qed.

(** The round in which the loop ends, if it has ended within [n]
    rounds: the rounds before it go on, and it is the last one made. *)
Lemma rounds_left_because (a : cmd_args) (reads : nat -> string) (n : nat) :
  forall i st st',
    rounds a reads n i st = (st', false) ->
    exists k, k < n /\
      snd (rounds a reads k i st) = true /\
      rounds a reads (S k) i st = (st', false) /\
      left_because a st' (reads (i + k)).
Proof.
  induction n as [|n IH]; intros i st st'; [discriminate|].
  cbn [rounds].
  destruct (round a st (reads i)) as [st1 again] eqn:Er.
  destruct again.
  - intros H. apply IH in H as (k & Hk & Hgo & Hend & Hl).
    exists (S k). split; [lia|].
    change (rounds a reads (S k) i st)
      with (let (s, again) := round a st (reads i) in
            if again then rounds a reads k (S i) s else (s, false)).
    change (rounds a reads (S (S k)) i st)
      with (let (s, again) := round a st (reads i) in
            if again then rounds a reads (S k) (S i) s else (s, false)).
    rewrite Er. replace (i + S k) with (S i + k) by lia. auto.
  - intros [= <-]. exists 0. split; [lia|].
    change (rounds a reads 0 i st) with (st, true).
    change (rounds a reads 1 i st)
      with (let (s, again) := round a st (reads i) in
            if again then rounds a reads 0 (S i) s else (s, false)).
    rewrite ?Er, Nat.add_0_r. repeat split. now apply (round_left_because a st).
Qed.

Lemma rounds_snoc (a : cmd_args) (reads : nat -> string) (n : nat) :
  forall i st,
    rounds a reads (S n) i st
    = (let (s, going) := rounds a reads n i st in
       if going then round a s (reads (i + n)) else (s, false)).
Proof.
  induction n as [|n IH]; intros i st.
  - cbn [rounds]. rewrite Nat.add_0_r.
    destruct (round a st (reads i)) as [s b]. now destruct b.
  - change (rounds a reads (S (S n)) i st)
      with (let (st', again) := round a st (reads i) in
            if again then rounds a reads (S n) (S i) st' else (st', false)).
    change (rounds a reads (S n) i st)
      with (let (st', again) := round a st (reads i) in
            if again then rounds a reads n (S i) st' else (st', false)).
    destruct (round a st (reads i)) as [s1 b1]. destruct b1; [|reflexivity].
    rewrite IH. now replace (S i + n) with (i + S n) by lia.
Qed.

(** While the loop goes on, every round has been made. *)
Lemma rounds_going (a : cmd_args) (reads : nat -> string) (n : nat) :
  forall i st,
    snd (rounds a reads n i st) = true ->
    now (fst (rounds a reads n i st)) = (now st + Z.of_nat n)%Z.
Proof.
  induction n as [|n IH]; intros i st; cbn [rounds]; [cbn; lia|].
  destruct (round_now a st (reads i)) as [Hn _].
  destruct (round a st (reads i)) as [s b]. cbn [fst] in Hn.
  destruct b; [|discriminate].
  intros H. rewrite (IH _ _ H). lia.
Qed.

End Sends.

(** X6: whatever the channel delivers and however long the loop of
    [execute_device_command] runs, it sends nothing but single spaces
    and bare newlines: one space for each pager advance, never more than
    fifty, and with the one confirmation at most fifty-one sends in
    all. *)
Theorem X6_loop_sends_only_spaces_and_one_newline
  (a : ConsoleManager.cmd_args) (reads : nat -> string) (t0 : Z) (n : nat) :
  let st := fst (ConsoleManager.rounds a reads n 1 (ConsoleManager.start t0)) in
  Forall (fun s => s = " " \/ s = Py.nl) (ConsoleManager.sent st) /\
  count_occ string_dec (ConsoleManager.sent st) " " = ConsoleManager.pagination_count st /\
  ConsoleManager.pagination_count st <= 50 /\
  List.length (ConsoleManager.sent st) <= 51.
Proof.
  intros st.
  destruct (rounds_accounted a reads n 1 _ (start_accounted a t0))
    as (Hp & Hall & Hsp & Hlen & _ & _).
  fold st in Hp, Hall, Hsp, Hlen. unfold ConsoleManager.max_pagination in Hp.
  repeat split; trivial.
  destruct (ConsoleManager.confirmation_sent st); lia.
Qed.

(** X7: a call with pagination handling switched off never sends a
    space, and a call without [auto_confirm] never sends a newline; with
    both off the loop sends nothing at all, whatever arrives. *)
Theorem X7_switched_off_handlers_send_nothing
  (a : ConsoleManager.cmd_args) (reads : nat -> string) (t0 : Z) (n : nat) :
  let st := fst (ConsoleManager.rounds a reads n 1 (ConsoleManager.start t0)) in
  (ConsoleManager.handle_pagination a = false ->
   count_occ string_dec (ConsoleManager.sent st) " " = 0) /\
  (ConsoleManager.auto_confirm a = false ->
   count_occ string_dec (ConsoleManager.sent st) Py.nl = 0) /\
  (ConsoleManager.handle_pagination a = false ->
   ConsoleManager.auto_confirm a = false ->
   ConsoleManager.sent st = []).
Proof.
  intros st.
  destruct (rounds_accounted a reads n 1 _ (start_accounted a t0))
    as (Hp & Hall & Hsp & Hlen & Hoff & Hnc).
  pose proof (rounds_confirmed_once a reads n 1 (ConsoleManager.start t0) eq_refl) as Hnl.
  fold st in Hp, Hall, Hsp, Hlen, Hoff, Hnc, Hnl.
  unfold confirmed_once, newlines in Hnl.
  repeat split.
  - intros Hh. rewrite Hsp. auto.
  - intros Ha. rewrite Hnl, (Hnc Ha). reflexivity.
  - intros Hh Ha. rewrite (Hoff Hh), (Hnc Ha) in Hlen.
    destruct (ConsoleManager.sent st); [reflexivity|discriminate].
Qed.

(** X9: when [execute_device_command] returns, the loop has left for
    one of three reasons, judged at its last round [j] (no fewer rounds
    end the loop, [j] rounds do, and they read [reads 1] to [reads j]):
    the expected text is in the accumulated output; or more than
    [timeout] seconds have passed since the clock was last set; or no
    expected text was asked for, more than [wait_time] seconds have
    passed and the last read, [reads j], was empty.  In particular a
    call with an expected text never returns on quiescence. *)
Theorem X9_loop_leaves_for_a_reason
  (a : ConsoleManager.cmd_args) (reads : nat -> string) (t0 : Z) (fuel : nat)
  (st : ConsoleManager.loop_state) :
  ConsoleManager.loop a reads t0 fuel = Some st ->
  exists j, 1 <= j <= fuel /\
    ConsoleManager.loop a reads t0 (j - 1) = None /\
    ConsoleManager.loop a reads t0 j = Some st /\
    ConsoleManager.now st = (t0 + Z.of_nat j)%Z /\
    left_because a st (reads j).
Proof.
  unfold ConsoleManager.loop.
  destruct (ConsoleManager.rounds a reads fuel 1 (ConsoleManager.start t0))
    as [st' again] eqn:Er.
  destruct again; [discriminate|]. intros [= <-].
  apply rounds_left_because in Er as (k & Hk & Hgo & Hend & Hl).
  exists (S k). split; [lia|].
  replace (S k - 1) with k by lia.
  split.
  { destruct (ConsoleManager.rounds a reads k 1 (ConsoleManager.start t0)) as [s b].
    cbn [snd] in Hgo. now rewrite Hgo. }
  split; [now rewrite Hend|].
  split; [|exact Hl].
  rewrite rounds_snoc in Hend.
  pose proof (rounds_going a reads k 1 (ConsoleManager.start t0) Hgo) as Hn.
  destruct (ConsoleManager.rounds a reads k 1 (ConsoleManager.start t0)) as [s b].
  cbn [fst snd] in *. subst b.
  destruct (round_now a s (reads (1 + k))) as [Hr _].
  rewrite Hend in Hr. cbn [fst ConsoleManager.now ConsoleManager.start] in *. lia.
Qed.

Lemma X9_loop_leaves_for_a_reason_witness :
  exists st,
    ConsoleManager.loop (ConsoleManager.mkArgs "show clock" 5 (Some "#") 120 true false)
      (fun i => if i =? 2 then "Switch#" else "12:00:00 ") 0 5 = Some st /\
    exists j, 1 <= j <= 5 /\
      ConsoleManager.loop (ConsoleManager.mkArgs "show clock" 5 (Some "#") 120 true false)
        (fun i => if i =? 2 then "Switch#" else "12:00:00 ") 0 (j - 1) = None /\
      ConsoleManager.loop (ConsoleManager.mkArgs "show clock" 5 (Some "#") 120 true false)
        (fun i => if i =? 2 then "Switch#" else "12:00:00 ") 0 j = Some st /\
      ConsoleManager.now st = (0 + Z.of_nat j)%Z /\
      left_because (ConsoleManager.mkArgs "show clock" 5 (Some "#") 120 true false) st
        ((fun i => if i =? 2 then "Switch#" else "12:00:00 ") j).
Proof.
  eexists. split; [vm_compute; reflexivity|].
  apply (X9_loop_leaves_for_a_reason
           (ConsoleManager.mkArgs "show clock" 5 (Some "#") 120 true false)
           (fun i => if i =? 2 then "Switch#" else "12:00:00 ") 0 5).
  vm_compute. reflexivity.
Defined.

Section Quiet.
Import ConsoleManager.


Variable a : cmd_args.
Variable t0 : Z.
Hypothesis no_expect : Py.truthy_opt (expect a) = false.


Variable reads : nat -> string.
Hypothesis silence : forall i, 1 <= i -> reads i = EmptyString.




End Quiet.



Section Accumulated.
Import ConsoleManager.


End Accumulated.



(* ================================================================== *)
(** ** The matcher: what a group at the end of a pattern captures *)

Section Matcher.
Import Re.

Lemma within_sound (cls p : ascii -> bool) :
  within cls p = true -> forall c, p c = true -> cls c = true.
Proof.
  unfold within. intros H c Hc.
  rewrite forallb_forall in H.
  specialize (H (nat_of_ascii c)).
  rewrite ascii_nat_embedding, Hc in H. apply H.
  apply in_seq. pose proof (nat_ascii_bounded c). lia.
Qed.

Lemma length_append (a b : string) :
  String.length (a ++ b) = String.length a + String.length b.
Proof. induction a as [|c a IH]; simpl; [reflexivity|now rewrite IH]. Qed.

Lemma take_append (w r : string) : take (String.length w) (w ++ r) = w.
Proof. induction w as [|c w IH]; simpl; [now destruct r|now rewrite IH]. Qed.

Lemma consumed_between (s s' : mstate) (w : string) :
  rest s = w ++ rest s' -> consumed s s' = w.
Proof.
  intros E. unfold consumed. rewrite E, length_append.
  replace (String.length w + String.length (rest s') - String.length (rest s'))
    with (String.length w) by lia.
  apply take_append.
Qed.

Lemma m_star (greedy : bool) (r : regex) (s : mstate) (k : mstate -> option mstate) :
  m (Star greedy r) s k
  = star_rounds (m r) greedy k (S (String.length (rest s))) s.
Proof. reflexivity. Qed.

(** Whatever the matcher returns was returned by its continuation, at
    a cursor further on in the same text. *)
Lemma m_result (r : regex) :
  forall (s : mstate) (k : mstate -> option mstate) (st : mstate),
    m r s k = Some st ->
    exists s', k s' = Some st /\ exists w, rest s = w ++ rest s'.
Proof.
  induction r as [|p|a IHa b IHb|a IHa b IHb|greedy r IH|i r IH|ml| |r IH];
    intros s k st H; rewrite ?m_star in H; cbn [m] in H.
  - exists s. split; [exact H|now exists EmptyString].
  - destruct (rest s) as [|c t] eqn:E; [discriminate|].
    destruct (p c); [|discriminate].
    eexists. split; [exact H|]. exists (String c EmptyString). reflexivity.
  - apply IHa in H as (s1 & H1 & w1 & E1).
    apply IHb in H1 as (s2 & H2 & w2 & E2).
    exists s2. split; [exact H2|]. exists (w1 ++ w2).
    now rewrite E1, E2, append_assoc.
  - destruct (m a s k) eqn:Ea.
    + injection H as <-. now apply IHa in Ea.
    + now apply IHb in H.
  - revert H. generalize (S (String.length (rest s))) as n. intros n. revert s st.
    induction n as [|n IHn]; intros s st H; cbn [star_rounds] in H.
    + exists s. split; [exact H|now exists EmptyString].
    + assert (forall x,
                m r s (fun s' => if String.length (rest s') <? String.length (rest s)
                                 then star_rounds (m r) greedy k n s' else None) = Some x ->
                exists s', k s' = Some x /\ exists w, rest s = w ++ rest s') as Hmore.
      { intros x Hx. apply IH in Hx as (s1 & H1 & w1 & E1).
        destruct (String.length (rest s1) <? String.length (rest s)); [|discriminate].
        apply IHn in H1 as (s2 & H2 & w2 & E2).
        exists s2. split; [exact H2|]. exists (w1 ++ w2).
        now rewrite E1, E2, append_assoc. }
      destruct greedy.
      * destruct (m r s _) eqn:Em.
        -- injection H as <-. now apply Hmore.
        -- exists s. split; [exact H|now exists EmptyString].
      * destruct (k s) eqn:Ek.
        -- injection H as <-. exists s. split; [exact Ek|now exists EmptyString].
        -- now apply Hmore.
  - apply IH in H as (s1 & H1 & w1 & E1).
    eexists. split; [exact H1|]. exists w1. exact E1.
  - destruct (prev s) as [c|].
    + destruct (ml && is_newline c); [|discriminate].
      exists s. split; [exact H|now exists EmptyString].
    + exists s. split; [exact H|now exists EmptyString].
  - destruct (rest s) eqn:E; [|discriminate].
    exists s. split; [exact H|]. exists EmptyString. now rewrite E.
  - destruct (m r s (fun s' => Some s')); [|discriminate].
    eexists. split; [exact H|]. now exists EmptyString.
Qed.

End Matcher.

Section Runs.
Import Re.
Variable cls : ascii -> bool.

Lemma m_chr (p : ascii -> bool) (s : mstate) (k : mstate -> option mstate) :
  m (Chr p) s k
  = match rest s with
    | String c t => if p c then k (mkM (Some c) t (caps s)) else None
    | EmptyString => None
    end.
Proof. reflexivity. Qed.

Lemma m_seq (a b : regex) (s : mstate) (k : mstate -> option mstate) :
  m (Seq a b) s k = m a s (fun s' => m b s' k).
Proof. reflexivity. Qed.

Lemma star_chr_run (q : ascii -> bool) (k : mstate -> option mstate) :
  within cls q = true ->
  forall (n : nat) (s st : mstate),
    star_rounds (m (Chr q)) true k n s = Some st ->
    exists s' w, k s' = Some st /\ rest s = w ++ rest s' /\ all_in cls w = true.
Proof.
  intros Hq. induction n as [|n IH]; intros s st H; cbn [star_rounds] in H.
  - exists s, EmptyString. auto.
  - rewrite m_chr in H.
    destruct (rest s) as [|c t] eqn:E.
    + exists s, EmptyString. rewrite E. auto.
    + destruct (q c) eqn:Ec.
      * cbn [rest] in H.
        destruct (String.length t <? String.length (String c t)).
        -- destruct (star_rounds (m (Chr q)) true k n (mkM (Some c) t (caps s)))
             as [x|] eqn:Ex.
           ++ injection H as <-. apply IH in Ex as (s' & w & Hk & Hr & Hw).
              exists s', (String c w). cbn [rest] in Hr. rewrite Hr.
              repeat split; trivial. cbn [all_in].
              now rewrite (within_sound cls q Hq c Ec), Hw.
           ++ exists s, EmptyString. rewrite E. auto.
        -- exists s, EmptyString. rewrite E. auto.
      * exists s, EmptyString. rewrite E. auto.
Qed.

(** What a group [(c+)] hands to the rest of the pattern: a run of the
    class. *)
Lemma m_run (p q : ascii -> bool) (s st : mstate) (k : mstate -> option mstate) :
  within cls p = true -> within cls q = true ->
  m (Seq (Seq (Chr p) (Star true (Chr q))) Eps) s k = Some st ->
  exists s' w, k s' = Some st /\ rest s = w ++ rest s' /\ run_of cls w.
Proof.
  intros Hp Hq H. rewrite !m_seq, m_chr in H.
  destruct (rest s) as [|c t] eqn:E; [discriminate|].
  destruct (p c) eqn:Ec; [|discriminate].
  rewrite m_star in H.
  apply (star_chr_run q _ Hq) in H as (s' & w & Hk & Hr & Hw).
  exists s', (String c w). cbn [rest] in Hr. rewrite Hr.
  repeat split; trivial; [discriminate|].
  cbn [all_in]. now rewrite (within_sound cls p Hp c Ec), Hw.
Qed.

End Runs.

Section Tokens.
Import Re.
Variable cls : ascii -> bool.

Lemma ends_in_run_cases (a r : regex) :
  ends_in_run cls (Seq a r) = true ->
  (exists p q,
     a = Group 1 (Seq (Seq (Chr p) (Star true (Chr q))) Eps) /\ r = Eps /\
     within cls p = true /\ within cls q = true)
  \/ ends_in_run cls r = true.
Proof.
  intros H.
  destruct a as [|?|? ?|? ?|? ?|i g|?| |?]; try (right; exact H).
  destruct i as [|[|i]]; try (right; exact H).
  destruct g as [|?|g1 g2|? ?|? ?|? ?|?| |?]; try (right; exact H).
  destruct g1 as [|?|h1 h2|? ?|? ?|? ?|?| |?]; try (right; exact H).
  destruct h1 as [|p|? ?|? ?|? ?|? ?|?| |?]; try (right; exact H).
  destruct h2 as [|?|? ?|? ?|gr h|? ?|?| |?]; try (right; exact H).
  destruct gr; try (right; exact H).
  destruct h as [|q|? ?|? ?|? ?|? ?|?| |?]; try (right; exact H).
  destruct g2; try (right; exact H).
  destruct r; try (right; exact H).
  left. exists p, q. cbn in H. apply andb_prop in H as [Hp Hq]. auto.
Qed.

(** A match of a pattern that ends in a group [(c+)]: the group holds a
    run of the class, and the run is a part of the text matched on. *)
Lemma ends_in_run_sound (r : regex) :
  forall (s st : mstate),
    ends_in_run cls r = true ->
    m r s (fun x => Some x) = Some st ->
    exists x w y, group st 1 = w /\ run_of cls w /\ rest s = x ++ w ++ y.
Proof.
  induction r as [|p|a IHa b IHb|a IHa b IHb|greedy r IH|i r IH|ml| |r IH];
    intros s st He H; try discriminate.
  destruct (ends_in_run_cases a b He) as [(p & q & -> & -> & Hp & Hq)|Hb].
  - rewrite m_seq in H. cbn [m] in H.
    change (m (Seq (Chr p) (Star true (Chr q))) s
              (fun s' => Some (mkM (prev s') (rest s') ((1, consumed s s') :: caps s')))
            = Some st) in H.
    assert (m (Seq (Seq (Chr p) (Star true (Chr q))) Eps) s
              (fun s' => Some (mkM (prev s') (rest s') ((1, consumed s s') :: caps s')))
            = Some st) as H' by exact H.
    apply (m_run cls p q _ _ _ Hp Hq) in H' as (s' & w & Hk & Hr & Hw).
    injection Hk as <-.
    exists EmptyString, w, (rest s'). repeat split.
    + unfold group. cbn. now apply consumed_between.
    + apply Hw.
    + apply Hw.
    + exact Hr.
  - rewrite m_seq in H. apply m_result in H as (s1 & H1 & w1 & E1).
    apply IHb in H1 as (x & w & y & Hg & Hw & Hr); [|exact Hb].
    exists (w1 ++ x), w, y. repeat split; trivial; try apply Hw.
    now rewrite E1, Hr, append_assoc.
Qed.

Lemma scan_found (r : regex) (s : string) :
  forall (pv : option ascii) (pre : string) (st : mstate),
    scan r pv s = Some (pre, st) ->
    exists pv' s', s = pre ++ s' /\ match_at r pv' s' = Some st.
Proof.
  induction s as [|c s IH]; intros pv pre st H; cbn [scan] in H.
  - destruct (match_at r pv EmptyString) eqn:E; [|discriminate].
    injection H as <- <-. exists pv, EmptyString. auto.
  - destruct (match_at r pv (String c s)) eqn:E.
    + injection H as <- <-. exists pv, (String c s). auto.
    + destruct (scan r (Some c) s) as [[pre' st']|] eqn:Es; [|discriminate].
      injection H as <- <-.
      apply IH in Es as (pv' & s' & -> & Hm).
      exists pv', s'. auto.
Qed.

Lemma contains_inside (w x y : string) : Py.contains w (x ++ w ++ y) = true.
Proof.
  assert (forall v, Py.startswith w (w ++ v) = true) as Hs.
  { induction w as [|c w IH]; intros v; [now destruct v|].
    simpl. now rewrite Ascii.eqb_refl, IH. }
  induction x as [|c x IH].
  - cbn [append]. destruct (w ++ y) eqn:E; cbn [Py.contains].
    + rewrite <- E, Hs. reflexivity.
    + rewrite <- E, Hs. reflexivity.
  - cbn [append Py.contains]. rewrite IH. apply orb_true_r.
Qed.

(** [re.search] with a pattern that ends in a group [(c+)]: group 1 of
    the match is a run of the class that occurs in the subject. *)
Lemma search_run (fl : flags) (pattern s : string) (st : mstate) :
  ends_in_run cls (compile fl pattern) = true ->
  search fl pattern s = Some st ->
  run_of cls (group st 1) /\ Py.contains (group st 1) s = true.
Proof.
  intros He H. unfold search in H.
  destruct (scan (compile fl pattern) None s) as [[pre st']|] eqn:Es; [|discriminate].
  injection H as <-.
  apply scan_found in Es as (pv' & s' & -> & Hm).
  unfold match_at in Hm.
  apply ends_in_run_sound in Hm as (x & w & y & Hg & Hw & Hr); [|exact He].
  cbn [rest] in Hr. rewrite Hg, Hr.
  split; [exact Hw|].
  rewrite <- append_assoc. apply contains_inside.
Qed.

End Tokens.

Lemma strip_of_token (w : string) : all_in nonspace w = true -> Py.strip w = w.
Proof.
  intros H. unfold Py.strip.
  assert (Py.lstrip w = w) as ->.
  { destruct w as [|c w]; [reflexivity|]. cbn in *.
    apply andb_prop in H as [Hc _]. unfold nonspace in Hc.
    apply negb_true_iff in Hc. now rewrite Hc. }
  induction w as [|c w IH]; [reflexivity|].
  cbn [all_in] in H. apply andb_prop in H as [Hc Hw].
  unfold nonspace in Hc. apply negb_true_iff in Hc.
  cbn [Py.rstrip]. rewrite (IH Hw).
  destruct w; [now rewrite Hc|reflexivity].
Qed.

Lemma serial_patterns_end_in_a_token :
  forallb (fun p => ends_in_run nonspace (Re.compile Re.IGNORECASE p))
          ConsoleManager.patterns = true.
Proof. vm_compute. reflexivity. Qed.

(** X11: a serial returned by [parse_show_version] is a single token of
    the cleaned output: it is not empty, holds no white space anywhere,
    and occurs as such in the text that is left when the pager banners,
    backspaces and escape sequences are removed. *)
Theorem X11_serial_is_a_token_of_the_cleaned_output (output serial : string) :
  ConsoleManager.parse_show_version output = Some serial ->
  run_of nonspace serial /\
  Py.contains serial (ConsoleManager.clean output) = true.
Proof.
  unfold ConsoleManager.parse_show_version. intros H.
  pose proof (first_serial_spec ConsoleManager.patterns (ConsoleManager.clean output)) as S.
  rewrite H in S. destruct S as (_ & before & pattern & after & Hps & Htok & _).
  assert (In pattern ConsoleManager.patterns) as Hin
    by (rewrite Hps; apply in_elt).
  pose proof serial_patterns_end_in_a_token as Hall.
  rewrite forallb_forall in Hall. specialize (Hall pattern Hin).
  unfold token in Htok.
  destruct (Re.search Re.IGNORECASE pattern (ConsoleManager.clean output)) as [mt|] eqn:Es;
    [|discriminate].
  destruct (search_run nonspace _ _ _ _ Hall Es) as [Hrun Hc].
  rewrite (strip_of_token _ (proj2 Hrun)) in Htok. injection Htok as <-.
  auto.
Qed.

Lemma X11_serial_is_a_token_of_the_cleaned_output_witness :
  run_of nonspace "FOC2345ABCD" /\
  Py.contains "FOC2345ABCD"
    (ConsoleManager.clean ("System Serial Number : FOC2345ABCD" ++ Py.nl)) = true.
Proof.
  apply (X11_serial_is_a_token_of_the_cleaned_output
           ("System Serial Number : FOC2345ABCD" ++ Py.nl) "FOC2345ABCD").
  vm_compute. reflexivity.
Defined.

(* ================================================================== *)
(** ** The workflow: what a step leaves behind *)

Section Keeps.
Import Orchestrator.
Variable w : World.
Variable R : machine -> machine -> Prop.
Hypothesis R_refl : forall mc, R mc mc.
Hypothesis R_trans : forall a b c, R a b -> R b c -> R a c.

Lemma keeps_ret {A} (a : A) : keeps R (ret a).
Proof. intros mc. apply R_refl. Qed.

Lemma keeps_raise {A} (e : exn) : keeps R (@raise A e).
Proof. intros mc. apply R_refl. Qed.

Lemma keeps_get : keeps R get.
Proof. intros mc. apply R_refl. Qed.

Lemma keeps_bind {A B} (x : M A) (f : A -> M B) :
  keeps R x -> (forall a, keeps R (f a)) -> keeps R (bind x f).
Proof.
  intros Hx Hf mc. unfold bind. specialize (Hx mc).
  destruct (x mc) as [[a|e] mc1]; cbn [snd] in *; [|exact Hx].
  exact (R_trans _ _ _ Hx (Hf a mc1)).
Qed.

Lemma keeps_try {A} (body : M A) (handler : exn -> M A) :
  keeps R body -> (forall e, keeps R (handler e)) -> keeps R (try body handler).
Proof.
  intros Hx Hf mc. unfold try. specialize (Hx mc).
  destruct (body mc) as [[a|e] mc1]; cbn [snd] in *; [exact Hx|].
  exact (R_trans _ _ _ Hx (Hf e mc1)).
Qed.

Lemma keeps_modify (f : orchestrator -> orchestrator) :
  (forall mc, R mc (mkMachine (f (self mc)) (trace mc))) -> keeps R (modify f).
Proof. intros H mc. apply H. Qed.

Lemma keeps_ask_unit (c : call) (r : reply c -> result unit) :
  asked R c -> keeps R (ask_unit w c r).
Proof. intros H mc. apply H. Qed.

Lemma keeps_nb_config (name : string) :
  asked R (get_device_config name) -> keeps R (nb_config w name).
Proof. intros H mc. apply H. Qed.

Lemma keeps_nb_serial (name : string) :
  asked R (get_device_serial name) -> keeps R (nb_serial w name).
Proof. intros H mc. apply H. Qed.

Lemma keeps_ssh_exec (command : string) :
  asked R (execute_command command) -> keeps R (ssh_exec w command).
Proof. intros H mc. apply H. Qed.

Lemma keeps_read_channel : asked R read_channel -> keeps R (_read_channel w).
Proof. intros H mc. apply H. Qed.

Lemma keeps_device_command (command : string) (wt tm : Z) (ac : bool) :
  asked R (execute_device_command command wt tm ac) ->
  keeps R (device_command w command wt tm ac).
Proof. intros H mc. apply H. Qed.

End Keeps.

(** One step of a proof that a computation keeps a relation, given that
    the relation is reflexive ([r]) and transitive ([t]): follow the
    structure of the computation; the calls and the assignments are
    left as goals. *)
Ltac keeps_step r t :=
  lazymatch goal with
  | |- keeps _ (Orchestrator.bind _ _) => apply (keeps_bind _ t); [|intro]
  | |- keeps _ (Orchestrator.try _ _) => apply (keeps_try _ t); [|intro]
  | |- keeps _ (Orchestrator.quiet _) => apply (keeps_try _ t); [|intro]
  | |- keeps _ (Orchestrator.ret _) => apply (keeps_ret _ r)
  | |- keeps _ (Orchestrator.raise _) => apply (keeps_raise _ r)
  | |- keeps _ Orchestrator.get => apply (keeps_get _ r)
  | |- keeps _ (Orchestrator.modify _) => apply keeps_modify
  | |- keeps _ (Orchestrator.ask_unit _ _ _) => apply keeps_ask_unit
  | |- keeps _ (Orchestrator.nb_config _ _) => apply keeps_nb_config
  | |- keeps _ (Orchestrator.nb_serial _ _) => apply keeps_nb_serial
  | |- keeps _ (Orchestrator.ssh_exec _ _) => apply keeps_ssh_exec
  | |- keeps _ (Orchestrator._read_channel _) => apply keeps_read_channel
  | |- keeps _ (Orchestrator.device_command _ _ _ _ _) => apply keeps_device_command
  | |- keeps _ (if ?b then _ else _) => destruct b
  | |- keeps _ (match ?x with _ => _ end) => destruct x
  end.

Ltac keeps_all r t :=
  unfold Orchestrator.netbox_new, Orchestrator.ssh_connect, Orchestrator.ssh_close,
    Orchestrator.console_connect, Orchestrator.console_close,
    Orchestrator.console_open, Orchestrator.send, Orchestrator.ssh_create;
  repeat keeps_step r t.

Section OnlyState.
Import Orchestrator.
Variable w : World.

Lemma only_state_refl (mc : machine) : only_state mc mc.
Proof. exists (state (self mc)). now destruct mc as [[]]. Qed.

Lemma only_state_trans (a b c : machine) :
  only_state a b -> only_state b c -> only_state a c.
Proof. intros (s & E) (s' & E'). exists s'. now rewrite E', E. Qed.

Lemma only_state_asked (c : call) : asked only_state c.
Proof. intros mc. exists (state (self mc)). now destruct mc as [[]]. Qed.

Lemma only_state_set (s : ProvisioningState) (mc : machine) :
  only_state mc (mkMachine (set_state s (self mc)) (trace mc)).
Proof. now exists s. Qed.

Lemma step5_only_state : keeps only_state (_step_copy_config_to_flash w).
Proof.
  unfold _step_copy_config_to_flash.
  keeps_all only_state_refl only_state_trans;
    auto using only_state_asked, only_state_set.
Qed.

Lemma check_items_only_state (items : list (string * string)) :
  forall failed, keeps only_state (check_items w items failed).
Proof.
  induction items as [|[t v] items IH]; intros failed; simpl.
  - apply keeps_ret, only_state_refl.
  - keeps_all only_state_refl only_state_trans; auto using only_state_asked.
Qed.

Lemma verify_applied_only_state : keeps only_state (_verify_configuration_applied w).
Proof.
  unfold _verify_configuration_applied.
  apply (keeps_bind _ only_state_trans); [apply keeps_get, only_state_refl|intros o].
  destruct (_extract_verification_markers (device_config o));
    [apply keeps_ret, only_state_refl|].
  apply (keeps_bind _ only_state_trans); [apply check_items_only_state|intros failed].
  destruct failed; [apply keeps_ret|apply keeps_raise]; apply only_state_refl.
Qed.

Lemma step6_only_state : keeps only_state (_step_apply_configuration w).
Proof.
  unfold _step_apply_configuration.
  keeps_all only_state_refl only_state_trans;
    auto using only_state_asked, only_state_set, verify_applied_only_state.
Qed.

End OnlyState.

Section Verified.
Import Orchestrator.
Variable w : World.

(** Step 4 returns only with the serial of the device read and found
    equal, without regard to case, to the one of the inventory. *)
Lemma verify_returns (mc mc' : machine) :
  _step_verify_device w mc = (Return tt, mc') ->
  exists expected actual output,
    w (S (List.length (trace mc))) (execute_device_command "show version" 10 120 false)
    = Return output /\
    ConsoleManager.parse_show_version output = Some actual /\
    expected_serial (self mc') = Some expected /\
    actual_serial (self mc') = Some actual /\
    Py.lower expected = Py.lower actual /\
    state (self mc') = DEVICE_VERIFIED.
Proof.
  unfold _step_verify_device, try, bind, device_command, ask, modify, get.
  cbn [self trace].
  destruct (w (List.length (trace mc)) (execute_device_command "terminal length 0" 2 120 false))
    as [banner|e].
  2: { destruct (isinstance e DeviceVerificationError); discriminate. }
  cbn [self trace]. rewrite length_app. cbn [List.length]. rewrite Nat.add_1_r.
  destruct (w (S (List.length (trace mc))) (execute_device_command "show version" 10 120 false))
    as [output|e].
  2: { destruct (isinstance e DeviceVerificationError); discriminate. }
  cbn [self trace actual_serial set_actual_serial expected_serial].
  destruct (ConsoleManager.parse_show_version output) as [actual|] eqn:Ep; [|discriminate].
  destruct (Py.truthy actual); [|discriminate]. cbn [negb].
  destruct (expected_serial (self mc)) as [expected|] eqn:Ee; [|discriminate].
  destruct (String.eqb (Py.lower expected) (Py.lower actual)) eqn:El; [|discriminate].
  cbn [negb self trace]. intros [= <-].
  exists expected, actual, output.
  cbn [self actual_serial expected_serial state set_state set_actual_serial].
  apply String.eqb_eq in El. repeat split; trivial.
Qed.

Lemma step4_emits_no_configuration : emits no_configuration (_step_verify_device w).
Proof. unfold _step_verify_device. emits_all; reflexivity. Qed.

(** The six steps either end at or before the device verification,
    without a single configuration command, or pass it and change only
    the state attribute afterwards. *)
Lemma steps_verified (mc : machine) :
  (exists new, trace (snd (steps w mc)) = (trace mc ++ new)%list /\
               forallb no_configuration new = true)
  \/
  (exists expected actual,
     expected_serial (self (snd (steps w mc))) = Some expected /\
     actual_serial (self (snd (steps w mc))) = Some actual /\
     Py.lower expected = Py.lower actual).
Proof.
  assert (emits no_configuration (preparation w)) as Hprep
    by (apply preparation_emits; reflexivity).
  pose proof (Hprep mc) as (n1 & E1 & F1).
  unfold steps. revert E1. unfold preparation, bind.
  destruct (_step_retrieve_netbox_config w mc) as [[[]|?] m1]; [|left; eauto].
  destruct (_step_create_ftp_file w m1) as [[[]|?] m2]; [|left; eauto].
  destruct (_step_connect_to_console w m2) as [[[]|?] m3]; [|left; eauto].
  cbn [snd]. intros E3.
  destruct (step4_emits_no_configuration m3) as (n4 & E4 & F4).
  destruct (_step_verify_device w m3) as [[[]|?] m4] eqn:Ev.
  2: { left. exists (n1 ++ n4)%list. cbn [snd] in *.
       now rewrite E4, E3, app_assoc, forallb_app, F1, F4. }
  right. apply verify_returns in Ev as (expected & actual & output & _ & _ & He & Ha & Hl & _).
  exists expected, actual.
  assert (only_state m4
            (snd ((_step_copy_config_to_flash w ;; _step_apply_configuration w ;;
                   modify (set_state COMPLETED) ;; ret true) m4))) as (s & Es).
  { apply (keeps_bind _ only_state_trans); [apply step5_only_state|intros _].
    apply (keeps_bind _ only_state_trans); [apply step6_only_state|intros _].
    apply (keeps_bind _ only_state_trans);
      [apply keeps_modify, only_state_set|intros _].
    apply keeps_ret, only_state_refl. }
  unfold bind in Es. rewrite Es. auto.
Qed.

End Verified.

(** X12: no configuration reaches a device that has not been
    identified.  In every run in which a configuration command (the
    copy to flash or the copy to the running configuration) is sent,
    the serial read from the device and the serial of the inventory are
    both recorded and equal without regard to case. *)
Theorem X12_configuration_only_after_matching_serial
  (w : Orchestrator.World) (o : Orchestrator.orchestrator) :
  existsb is_configuration (Orchestrator.trace (snd (Orchestrator.run w o))) = true ->
  exists expected actual,
    Orchestrator.expected_serial (Orchestrator.self (snd (Orchestrator.run w o)))
    = Some expected /\
    Orchestrator.actual_serial (Orchestrator.self (snd (Orchestrator.run w o)))
    = Some actual /\
    Py.lower expected = Py.lower actual.
Proof.
  unfold Orchestrator.run. intros Hc.
  set (mc := Orchestrator.mkMachine o []) in *.
  destruct (provision_device_trace w no_configuration mc eq_refl eq_refl)
    as (closing & Etr & Hcl).
  pose proof (provision_device_outcome w mc) as Hout.
  destruct (steps_verified w mc) as [(new & En & Hn)|(expected & actual & He & Ha & Hl)].
  - exfalso. rewrite Etr, En in Hc. cbn [Orchestrator.trace mc app] in Hc.
    rewrite existsb_app in Hc.
    assert (forall l, forallb no_configuration l = true -> existsb is_configuration l = false)
      as Hno.
    { induction l as [|c l IH]; [reflexivity|]. cbn. unfold no_configuration at 1.
      intros [Hc1 Hl]%andb_prop. apply negb_true_iff in Hc1. now rewrite Hc1, IH. }
    rewrite (Hno _ Hn), (Hno _ Hcl) in Hc. discriminate.
  - exists expected, actual.
    destruct (Orchestrator.steps w mc) as [[b|cause] mc1]; destruct Hout as (tr & ->);
      cbn in *; auto.
Qed.

Lemma X12_configuration_only_after_matching_serial_witness :
  let w := Scenario.lab "foc2345abcd" "96 bytes copied" in
  existsb is_configuration (Orchestrator.trace (snd (Orchestrator.run w Scenario.edge1)))
  = true /\
  exists expected actual,
    Orchestrator.expected_serial (Orchestrator.self (snd (Orchestrator.run w Scenario.edge1)))
    = Some expected /\
    Orchestrator.actual_serial (Orchestrator.self (snd (Orchestrator.run w Scenario.edge1)))
    = Some actual /\
    Py.lower expected = Py.lower actual.
Proof.
  intros w.
  assert (existsb is_configuration
            (Orchestrator.trace (snd (Orchestrator.run w Scenario.edge1))) = true) as H
    by (vm_compute; reflexivity).
  split; [exact H|].
  exact (X12_configuration_only_after_matching_serial w Scenario.edge1 H).
Defined.

Section Opened.
Import Orchestrator.
Variable w : World.

Lemma opened_refl (mc : machine) : opened mc mc.
Proof.
  exists []. cbn. now rewrite app_nil_r, !orb_false_r.
Qed.

Lemma opened_trans (a b c : machine) : opened a b -> opened b c -> opened a c.
Proof.
  intros (n1 & T1 & F1 & S1 & C1) (n2 & T2 & F2 & S2 & C2).
  exists (n1 ++ n2)%list.
  rewrite T2, T1, S2, S1, C2, C1, forallb_app, F1, F2, !existsb_app, !orb_assoc, app_assoc.
  auto.
Qed.

(** A call that neither connects nor closes. *)
Lemma opened_asked (c : call) :
  no_close c = true -> is_ssh_connect c = false -> is_console_connect c = false ->
  asked opened c.
Proof.
  intros Hc Hs Hk mc. exists [c]. cbn. now rewrite Hc, Hs, Hk, !orb_false_r.
Qed.

(** An assignment to another attribute than the two managers. *)
Lemma opened_set (f : orchestrator -> orchestrator) (mc : machine) :
  (forall o, ssh_manager (f o) = ssh_manager o /\
             console_manager (f o) = console_manager o) ->
  opened mc (mkMachine (f (self mc)) (trace mc)).
Proof.
  intros H. exists []. cbn. destruct (H (self mc)) as [-> ->].
  now rewrite app_nil_r, !orb_false_r.
Qed.

(** The manager of the jump host is created and connected at once. *)
Lemma opened_ssh {A} (k : unit -> M A) :
  (forall a, keeps opened (k a)) ->
  keeps opened (modify set_ssh_manager ;; ssh_connect w ;; k tt).
Proof.
  intros Hk mc. unfold bind, modify, ssh_connect, ask_unit, ask. cbn [self trace].
  assert (opened mc (mkMachine (set_ssh_manager (self mc))
                               (trace mc ++ [SSHManager_connect])%list)) as Ho.
  { exists [SSHManager_connect]. cbn. now rewrite !orb_true_r, !orb_false_r. }
  destruct (w (List.length (trace mc)) SSHManager_connect) as [[]|e]; cbn [snd].
  - exact (opened_trans _ _ _ Ho (Hk tt _)).
  - exact Ho.
Qed.

Lemma opened_console {A} (k : unit -> M A) :
  (forall a, keeps opened (k a)) ->
  keeps opened (modify set_console_manager ;; console_connect w ;; k tt).
Proof.
  intros Hk mc. unfold bind, modify, console_connect, ask_unit, ask. cbn [self trace].
  assert (opened mc (mkMachine (set_console_manager (self mc))
                               (trace mc ++ [ConsoleManager_connect])%list)) as Ho.
  { exists [ConsoleManager_connect]. cbn. now rewrite !orb_true_r, !orb_false_r. }
  destruct (w (List.length (trace mc)) ConsoleManager_connect) as [[]|e]; cbn [snd].
  - exact (opened_trans _ _ _ Ho (Hk tt _)).
  - exact Ho.
Qed.

Ltac opened_all :=
  keeps_all opened_refl opened_trans;
  try (intro; apply opened_set; intros []; split; reflexivity);
  try (apply opened_asked; reflexivity).

Lemma step1_opened : keeps opened (_step_retrieve_netbox_config w).
Proof. unfold _step_retrieve_netbox_config. opened_all. Qed.

Lemma step2_opened : keeps opened (_step_create_ftp_file w).
Proof.
  unfold _step_create_ftp_file.
  apply (keeps_try _ opened_trans); [|intro; opened_all].
  apply (keeps_bind _ opened_trans); [apply keeps_get, opened_refl|intros o].
  apply (keeps_bind _ opened_trans); [opened_all|intros _].
  apply (opened_ssh (fun _ => _)). intros _. opened_all.
Qed.

Lemma enable_opened : keeps opened (_enter_enable_mode w).
Proof. unfold _enter_enable_mode. opened_all. Qed.

Lemma step3_opened : keeps opened (_step_connect_to_console w).
Proof.
  unfold _step_connect_to_console.
  apply (keeps_try _ opened_trans); [|intro; opened_all].
  apply (keeps_bind _ opened_trans); [apply keeps_get, opened_refl|intros o].
  apply (opened_console (fun _ => _)). intros _. opened_all.
  apply enable_opened.
Qed.

Lemma step4_opened : keeps opened (_step_verify_device w).
Proof. unfold _step_verify_device. opened_all. Qed.

Lemma step5_opened : keeps opened (_step_copy_config_to_flash w).
Proof. unfold _step_copy_config_to_flash. opened_all. Qed.

Lemma check_items_opened (items : list (string * string)) :
  forall failed, keeps opened (check_items w items failed).
Proof.
  induction items as [|[t v] items IH]; intros failed; simpl.
  - apply keeps_ret, opened_refl.
  - opened_all. apply IH.
Qed.

Lemma verify_applied_opened : keeps opened (_verify_configuration_applied w).
Proof.
  unfold _verify_configuration_applied.
  apply (keeps_bind _ opened_trans); [apply keeps_get, opened_refl|intros o].
  destruct (_extract_verification_markers (device_config o));
    [apply keeps_ret, opened_refl|].
  apply (keeps_bind _ opened_trans); [apply check_items_opened|intros failed].
  destruct failed; [apply keeps_ret|apply keeps_raise]; apply opened_refl.
Qed.

Lemma step6_opened : keeps opened (_step_apply_configuration w).
Proof.
  unfold _step_apply_configuration. opened_all. apply verify_applied_opened.
Qed.

Lemma steps_opened : keeps opened (steps w).
Proof.
  unfold steps.
  apply (keeps_bind _ opened_trans); [apply step1_opened|intros _].
  apply (keeps_bind _ opened_trans); [apply step2_opened|intros _].
  apply (keeps_bind _ opened_trans); [apply step3_opened|intros _].
  apply (keeps_bind _ opened_trans); [apply step4_opened|intros _].
  apply (keeps_bind _ opened_trans); [apply step5_opened|intros _].
  apply (keeps_bind _ opened_trans); [apply step6_opened|intros _].
  opened_all.
Qed.

(** [_close_connections] closes what exists, whatever closing answers. *)
Lemma close_trace (mc : machine) :
  trace (snd (_close_connections w mc)) = (trace mc ++ closing (self mc))%list.
Proof.
  revert mc. intros [o tr0]. set (mc := mkMachine o tr0). unfold closing.
  unfold _close_connections, bind, get, quiet, try, console_close,
    ssh_close, ask_unit, ask, ret.
  cbn [self trace].
  destruct (console_manager (self mc)).
  - destruct (w (List.length (trace mc)) ConsoleManager_close) as [[]|e];
      cbn [self trace];
      (destruct (ssh_manager (self mc));
       [match goal with
        | |- context [w ?n SSHManager_close] =>
            destruct (w n SSHManager_close) as [[]|e']
        end|]; cbn; now rewrite <- ?app_assoc, ?app_nil_r).
  - destruct (ssh_manager (self mc));
      [destruct (w (List.length (trace mc)) SSHManager_close) as [[]|e']|];
      cbn; now rewrite ?app_nil_r.
Qed.

Lemma provision_device_closing (mc : machine) :
  trace (snd (provision_device w mc))
  = (trace (snd (steps w mc)) ++ closing (self (snd (steps w mc))))%list /\
  closing (self (snd (provision_device w mc))) = closing (self (snd (steps w mc))).
Proof.
  pose proof (provision_device_outcome w mc) as Hout.
  unfold provision_device, finally, try in *.
  destruct (steps w mc) as [[b|cause] mc1]; cbn [snd] in *.
  - destruct Hout as (tr & Hout). rewrite close_trace. split; [reflexivity|].
    apply (f_equal snd) in Hout. cbn [snd] in Hout. now rewrite Hout.
  - destruct Hout as (tr & Hout). apply (f_equal snd) in Hout. cbn [snd] in Hout.
    rewrite Hout. cbn [self]. split; [|reflexivity].
    rewrite <- Hout. unfold bind at 1. cbn [modify]. unfold bind at 1.
    rewrite cleanup_after_failure. cbn [raise snd].
    now rewrite close_trace.
Qed.

End Opened.

(** X13: connections are released.  In every run of a freshly built
    orchestrator the trace is the calls of the steps, none of which
    closes anything, followed by the closing calls: the console manager
    is closed exactly when its connection was attempted, then the
    manager of the jump host exactly when its connection was attempted,
    each once and after every other call, whether the run succeeds or
    fails and whatever closing answers. *)
Theorem X13_attempted_connections_are_closed_once_at_the_end
  (w : Orchestrator.World) (device_name : string) (console_port : Z)
  (ftp_server_ip ftp_username ftp_password ftp_directory : string) :
  let o := Orchestrator.init device_name console_port ftp_server_ip ftp_username
             ftp_password ftp_directory in
  exists body,
    Orchestrator.trace (snd (Orchestrator.run w o))
    = (body
       ++ (if existsb is_console_connect body
           then [Orchestrator.ConsoleManager_close] else [])
       ++ (if existsb is_ssh_connect body
           then [Orchestrator.SSHManager_close] else []))%list /\
    forallb no_close body = true.
Proof.
  intros o. unfold Orchestrator.run.
  set (mc := Orchestrator.mkMachine o []).
  destruct (provision_device_closing w mc) as [-> _].
  destruct (steps_opened w mc) as (body & Et & Hb & Hs & Hc).
  exists body. rewrite Et. cbn [Orchestrator.trace mc app].
  split; [|exact Hb].
  unfold closing. rewrite Hs, Hc. reflexivity.
Qed.

Section Verification.
Import Orchestrator.
Variable w : World.

Lemma check_items_run (items : list (string * string)) :
  forall (failed : list (string * string)) (mc : machine),
    check_items w items failed mc
    = (Return (failed ++ missing w (List.length (trace mc)) items)%list,
       mkMachine (self mc) (trace mc ++ map verification_call items)%list).
Proof.
  induction items as [|[t v] items IH]; intros failed mc.
  - cbn. rewrite !app_nil_r. now destruct mc.
  - cbn [check_items missing map]. unfold bind at 1. unfold try, bind, device_command, ask.
    change (verification_call (t, v))
      with (execute_device_command (verify_cmd t v) 5 30 false).
    cbn [snd].
    destruct (w (List.length (trace mc)) (execute_device_command (verify_cmd t v) 5 30 false))
      as [output|e].
    + destruct (negb (Py.contains (Py.lower v) (Py.lower output)));
        cbn [ret]; rewrite IH; cbn [self trace];
        rewrite length_app, Nat.add_1_r, <- !app_assoc; reflexivity.
    + cbn [ret]. rewrite IH. cbn [self trace].
      rewrite length_app, Nat.add_1_r, <- !app_assoc. reflexivity.
Qed.

Lemma missing_cases (items : list (string * string)) :
  forall n,
    (missing w n items = [] /\
     forall i item output,
       nth_error items i = Some item ->
       w (n + i) (verification_call item) = Return output ->
       Py.contains (Py.lower (snd item)) (Py.lower output) = true)
    \/
    (missing w n items <> [] /\
     exists i item output,
       nth_error items i = Some item /\
       w (n + i) (verification_call item) = Return output /\
       Py.contains (Py.lower (snd item)) (Py.lower output) = false).
Proof.
  induction items as [|it items IH]; intros n.
  - left. split; [reflexivity|]. intros [|i]; discriminate.
  - cbn [missing].
    destruct (w n (verification_call it)) as [output|e] eqn:E.
    + destruct (Py.contains (Py.lower (snd it)) (Py.lower output)) eqn:Ec; cbn [negb].
      * destruct (IH (S n)) as [[Hm Hall]|[Hm (i & item & out & Hn & Hw & Hc)]].
        -- left. split; [exact Hm|]. intros [|i] item out Hn Hw.
           ++ injection Hn as <-. rewrite Nat.add_0_r, E in Hw. now injection Hw as <-.
           ++ apply (Hall i item out Hn). rewrite Nat.add_succ_r in Hw. exact Hw.
        -- right. split; [exact Hm|]. exists (S i), item, out.
           rewrite Nat.add_succ_r. repeat split; assumption.
      * right. split; [discriminate|]. exists 0, it, output.
        rewrite Nat.add_0_r. auto.
    + destruct (IH (S n)) as [[Hm Hall]|[Hm (i & item & out & Hn & Hw & Hc)]].
      * left. split; [exact Hm|]. intros [|i] item out Hn Hw.
        -- injection Hn as <-. rewrite Nat.add_0_r, E in Hw. discriminate.
        -- apply (Hall i item out Hn). rewrite Nat.add_succ_r in Hw. exact Hw.
      * right. split; [exact Hm|]. exists (S i), item, out.
        rewrite Nat.add_succ_r. repeat split; assumption.
Qed.

Lemma verify_applied_run (mc : machine) :
  let items := _extract_verification_markers (device_config (self mc)) in
  snd (_verify_configuration_applied w mc)
  = mkMachine (self mc) (trace mc ++ map verification_call items)%list /\
  match missing w (List.length (trace mc)) items with
  | [] => fst (_verify_configuration_applied w mc) = Return tt
  | _ :: _ => exists msg,
      fst (_verify_configuration_applied w mc)
      = Raise (mkExn ConfigurationDeploymentError msg)
  end.
Proof.
  intros items. subst items.
  destruct (_verify_configuration_applied w mc) as [r mc'] eqn:E. cbn [fst snd].
  revert E. unfold _verify_configuration_applied, bind at 1, get. cbv beta iota zeta.
  destruct (_extract_verification_markers (device_config (self mc))) as [|it later].
  - cbn. rewrite app_nil_r. intros [= <- <-]. now destruct mc.
  - unfold bind. rewrite check_items_run. cbn [app].
    destruct (missing w (List.length (trace mc)) (it :: later));
      cbn [raise ret]; intros [= <- <-].
    + auto.
    + split; [reflexivity|]. eexists. reflexivity.
Qed.

Lemma hostname_markers_length (cfg : string) : List.length (hostname_markers cfg) <= 1.
Proof. unfold hostname_markers. destruct (Re.search _ _ _); cbn; lia. Qed.

Lemma vlan_markers_length (cfg : string) : List.length (vlan_markers cfg) <= 3.
Proof.
  unfold vlan_markers. rewrite length_map, length_firstn. lia.
Qed.

Lemma ip_markers_length (cfg : string) : List.length (ip_markers cfg) <= 2.
Proof.
  unfold ip_markers. rewrite length_map, length_firstn. lia.
Qed.

Lemma markers_length (device_config : option string) :
  List.length (_extract_verification_markers device_config) <= 9.
Proof.
  destruct device_config as [cfg|]; cbn [_extract_verification_markers]; [|cbn; lia].
  destruct (negb (Py.truthy cfg)); [cbn; lia|].
  rewrite !length_app.
  pose proof (hostname_markers_length cfg). pose proof (vlan_markers_length cfg).
  pose proof (ip_markers_length cfg). pose proof (interface_markers_at_most_three cfg).
  lia.
Qed.

End Verification.

(** X14: the verification of the applied configuration asks the device
    exactly once for each marker extracted from the intended
    configuration, in their order and with a wait of 5 and a timeout of
    30 seconds, whatever the device answers and whether or not a command
    raises; these are at most nine commands, none when no configuration
    is stored or it is empty, and no attribute of the orchestrator
    changes. *)
Theorem X14_verification_asks_once_per_marker
  (w : Orchestrator.World) (mc : Orchestrator.machine) :
  let items :=
    Orchestrator._extract_verification_markers
      (Orchestrator.device_config (Orchestrator.self mc)) in
  let after := snd (Orchestrator._verify_configuration_applied w mc) in
  Orchestrator.trace after
  = (Orchestrator.trace mc ++ map verification_call items)%list /\
  Orchestrator.self after = Orchestrator.self mc /\
  List.length items <= 9 /\
  Orchestrator._extract_verification_markers None = [] /\
  Orchestrator._extract_verification_markers (Some "") = [].
Proof.
  intros items after. unfold after.
  destruct (verify_applied_run w mc) as [-> _].
  repeat split. apply markers_length.
Qed.

(** X15: the verification fails exactly when a marker is seen to be
    missing.  It returns when every command that is answered shows its
    marker's value (compared in lower case) in the output, so also when
    commands raise instead of answering; otherwise some answered
    command lacks its value and [ConfigurationDeploymentError] is
    raised.  No other exception leaves it. *)
Theorem X15_verification_fails_iff_a_marker_is_missing
  (w : Orchestrator.World) (mc : Orchestrator.machine) :
  let items :=
    Orchestrator._extract_verification_markers
      (Orchestrator.device_config (Orchestrator.self mc)) in
  let n := List.length (Orchestrator.trace mc) in
  (fst (Orchestrator._verify_configuration_applied w mc) = Return tt /\
   forall i item output,
     nth_error items i = Some item ->
     w (n + i) (verification_call item) = Return output ->
     Py.contains (Py.lower (snd item)) (Py.lower output) = true)
  \/
  (exists msg i item output,
     fst (Orchestrator._verify_configuration_applied w mc)
     = Raise (mkExn ConfigurationDeploymentError msg) /\
     nth_error items i = Some item /\
     w (n + i) (verification_call item) = Return output /\
     Py.contains (Py.lower (snd item)) (Py.lower output) = false).
Proof.
  intros items n.
  destruct (verify_applied_run w mc) as [_ H]. fold items n in H.
  destruct (missing_cases w items n) as [[Hm Hall]|[Hm (i & item & out & Hn & Hw & Hc)]].
  - left. rewrite Hm in H. auto.
  - right. destruct (missing w n items); [congruence|].
    destruct H as (msg & H). exists msg, i, item, out. auto.
Qed.

Section Cleanup.
Import Orchestrator.

Lemma cleanup_state_spec (s : ProvisioningState) :
  Py.ge (value s) (value FTP_FILE_CREATED) = cleanup_state s.
Proof. destruct s; vm_compute; reflexivity. Qed.

End Cleanup.

(** X16: [_cleanup] never raises and changes no attribute; it makes at
    most one call, the removal of the staged file from the jump host,
    and makes it exactly when the manager of the jump host exists, a
    file name is set and not empty, and the state is [INITIALIZED],
    [NETBOX_CONNECTED] or [FTP_FILE_CREATED]: the states whose value is
    not below ["ftp_file_created"] as a string.  In every later state
    of the workflow, and in [FAILED], it does nothing. *)
Theorem X16_cleanup_removes_only_in_three_states
  (w : Orchestrator.World) (mc : Orchestrator.machine) :
  let o := Orchestrator.self mc in
  let removes :=
    cleanup_state (Orchestrator.state o) && Orchestrator.ssh_manager o
    && Py.truthy_opt (Orchestrator.config_filename o) in
  Orchestrator._cleanup w mc
  = (Return tt,
     Orchestrator.mkMachine o
       (Orchestrator.trace mc ++ (if removes then [removal o] else []))%list).
Proof.
  intros o removes. subst o removes. destruct mc as [o tr].
  unfold Orchestrator._cleanup, Orchestrator.quiet, Orchestrator.try at 1,
    Orchestrator.bind at 1, Orchestrator.get.
  cbn [Orchestrator.self Orchestrator.trace].
  rewrite cleanup_state_spec.
  destruct (cleanup_state (Orchestrator.state o) && Orchestrator.ssh_manager o
            && Py.truthy_opt (Orchestrator.config_filename o)).
  - unfold Orchestrator.try, Orchestrator.bind, Orchestrator.ssh_exec, Orchestrator.ask.
    cbn [Orchestrator.self Orchestrator.trace]. unfold removal.
    destruct (w (List.length tr) _) as [[[? ?] ?]|e]; reflexivity.
  - cbn. now rewrite app_nil_r.
Qed.

Section Apply.
Import Orchestrator.
Variable w : World.

Lemma existsb_indicators (output : string) :
  (Py.contains "bytes copied" (Py.lower output)
   || existsb (fun indicator => Py.contains indicator (Py.lower output))
              ["ok"; "success"; "completed"])
  = reports_success output.
Proof.
  unfold reports_success. cbn [existsb]. now rewrite orb_false_r, !orb_assoc.
Qed.

End Apply.

(** X17: step 6 once the copy to the running configuration has been
    answered.  If the output contains [error] and nowhere [no error]
    (in lower case), the step raises [ConfigurationDeploymentError]
    with the output in its message, sends no verification command and
    leaves the state as it was.  Otherwise the state becomes
    [CONFIG_APPLIED] only if the output contains one of [bytes copied],
    [ok], [success], [completed], and the step ends as the
    verification ends, with or without that state. *)
Theorem X17_apply_step_outcome
  (w : Orchestrator.World) (mc : Orchestrator.machine) (output : string) :
  let o := Orchestrator.self mc in
  let sent := (Orchestrator.trace mc ++ [apply_call o])%list in
  w (List.length (Orchestrator.trace mc)) (apply_call o) = Return output ->
  Orchestrator._step_apply_configuration w mc
  = if reports_error output
    then (Raise (mkExn ConfigurationDeploymentError
                   ("Errors occurred while applying configuration: " ++ output)),
          Orchestrator.mkMachine o sent)
    else Orchestrator._verify_configuration_applied w
           (Orchestrator.mkMachine
              (if reports_success output
               then Orchestrator.set_state Orchestrator.CONFIG_APPLIED o else o)
              sent).
Proof.
  intros o sent Hw. subst o sent. destruct mc as [o tr].
  cbn [Orchestrator.self Orchestrator.trace] in *.
  unfold Orchestrator._step_apply_configuration, Orchestrator.try.
  unfold Orchestrator.bind at 1, Orchestrator.get.
  cbn [Orchestrator.self Orchestrator.trace].
  unfold Orchestrator.bind at 1, Orchestrator.device_command, Orchestrator.ask.
  cbn [Orchestrator.self Orchestrator.trace].
  unfold apply_call in Hw. rewrite Hw.
  unfold Orchestrator.bind at 1.
  fold (reports_error output). rewrite existsb_indicators.
  destruct (reports_error output); [reflexivity|].
  cbn [Orchestrator.ret]. unfold Orchestrator.bind at 1.
  assert (forall m,
            match Orchestrator._verify_configuration_applied w m with
            | (Return a, m') => (Return a, m')
            | (Raise e, m') =>
                (if isinstance e ConfigurationDeploymentError
                 then Orchestrator.raise e
                 else Orchestrator.raise
                        (Orchestrator.new ProvisioningError
                           ("Failed to apply configuration: " ++ message e))) m'
            end = Orchestrator._verify_configuration_applied w m) as Hv.
  { intros m. destruct (verify_applied_run w m) as [_ Hr].
    destruct (Orchestrator._verify_configuration_applied w m) as [[[]|e] m'];
      [reflexivity|].
    cbn [fst] in Hr. destruct (missing w _ _); [discriminate|].
    destruct Hr as (msg & [= ->]). reflexivity. }
  destruct (reports_success output); cbn [Orchestrator.modify Orchestrator.ret];
    cbn [Orchestrator.self Orchestrator.trace]; apply Hv.
Qed.

Lemma X17_apply_step_outcome_witness :
  let w := Scenario.lab "FOC2345ABCD" "96 bytes copied" in
  let mc := Scenario.staged in
  let o := Orchestrator.self mc in
  let sent := (Orchestrator.trace mc ++ [apply_call o])%list in
  w (List.length (Orchestrator.trace mc)) (apply_call o) = Return "[OK]" /\
  Orchestrator._step_apply_configuration w mc
  = if reports_error "[OK]"
    then (Raise (mkExn ConfigurationDeploymentError
                   ("Errors occurred while applying configuration: " ++ "[OK]")),
          Orchestrator.mkMachine o sent)
    else Orchestrator._verify_configuration_applied w
           (Orchestrator.mkMachine
              (if reports_success "[OK]"
               then Orchestrator.set_state Orchestrator.CONFIG_APPLIED o else o)
              sent).
Proof.
  intros w mc o sent.
  assert (w (List.length (Orchestrator.trace mc)) (apply_call o) = Return "[OK]") as H
    by (vm_compute; reflexivity).
  split; [exact H|].
  exact (X17_apply_step_outcome w mc "[OK]" H).
Defined.

Section Enable.
Import Orchestrator.
Variable w : World.

Ltac answer :=
  match goal with
  | |- context [match w ?n ?c with _ => _ end] =>
      let E := fresh "E" in destruct (w n c) eqn:E
  | |- context [if Py.contains ?a ?b then _ else _] =>
      let E := fresh "E" in destruct (Py.contains a b) eqn:E
  | |- context [if negb ?b then _ else _] =>
      let E := fresh "E" in destruct b eqn:E
  | |- context [if ?b then _ else _] =>
      let E := fresh "E" in destruct b eqn:E
  end.

Lemma enable_traffic_bound (mc : machine) :
  exists new,
    trace (snd (_enter_enable_mode w mc)) = (trace mc ++ new)%list /\
    forallb enable_traffic new = true /\ List.length new <= 8.
Proof.
  unfold _enter_enable_mode, try, bind, send, ask_unit, _read_channel, ask, ret, raise.
  cbn [self trace negb orb fst snd].
  repeat (answer; cbv beta iota; cbn [self trace negb orb fst snd]);
    rewrite <- ?app_assoc; (eexists; split; [reflexivity|]);
    cbn; (split; [reflexivity|lia]).
Qed.

(** A [try] whose handler raises a [ProvisioningError] whatever it
    catches raises nothing else. *)
Lemma wrapped {A} (body : M A) (prefix : string) (mc : machine) (e : exn) :
  fst (try body (fun e => raise (new ProvisioningError (prefix ++ message e))) mc)
  = Raise e ->
  cls e = ProvisioningError /\ Py.startswith prefix (message e) = true.
Proof.
  unfold try. destruct (body mc) as [[a|e'] mc']; [discriminate|].
  unfold raise, new. cbn [fst]. intros [= <-]. split; [reflexivity|]. cbn [message].
  generalize (message e'). induction prefix as [|c p IH]; intros s.
  - now destruct s.
  - cbn. now rewrite Ascii.eqb_refl, IH.
Qed.

Lemma enable_returns (mc : machine) :
  fst (_enter_enable_mode w mc) = Return tt ->
  exists i, List.length (trace mc) <= i /\
            Py.contains "#" (w i read_channel) = true.
Proof.
  unfold _enter_enable_mode, try, bind, send, ask_unit, _read_channel, ask, ret, raise.
  cbn [self trace negb orb fst snd].
  repeat (answer; cbv beta iota; cbn [self trace negb orb fst snd]);
    try discriminate; intros _;
    match goal with
    | H : Py.contains "#" (w ?i read_channel) = true |- _ =>
        exists i; (split; [rewrite ?length_app; lia|exact H])
    end.
Qed.

End Enable.

(** X18: entering enable mode.  [_enter_enable_mode] exchanges nothing
    with the device but reads, empty lines and the command [enable],
    in at most eight calls, and never a password; it returns only when
    a prompt it read contained [#]; and whatever goes wrong, a failed
    send included, it raises [ProvisioningError] with a message that
    starts with [Failed to enter enable mode: ]. *)
Theorem X18_enable_mode_traffic_and_outcome
  (w : Orchestrator.World) (mc : Orchestrator.machine) :
  (exists new,
     Orchestrator.trace (snd (Orchestrator._enter_enable_mode w mc))
     = (Orchestrator.trace mc ++ new)%list /\
     forallb enable_traffic new = true /\ List.length new <= 8) /\
  (fst (Orchestrator._enter_enable_mode w mc) = Return tt ->
   exists i, List.length (Orchestrator.trace mc) <= i /\
             Py.contains "#" (w i Orchestrator.read_channel) = true) /\
  (forall e, fst (Orchestrator._enter_enable_mode w mc) = Raise e ->
             cls e = ProvisioningError /\
             Py.startswith "Failed to enter enable mode: " (message e) = true).
Proof.
  split; [|split].
  - apply enable_traffic_bound.
  - apply enable_returns.
  - intros e. apply wrapped.
Qed.

Section Translation.
Import Orchestrator.
Variable w : World.

Lemma exactly_verification (e : exn) :
  isinstance e DeviceVerificationError = true -> cls e = DeviceVerificationError.
Proof. destruct e as [[] msg]; cbn; congruence. Qed.

Lemma exactly_deployment (e : exn) :
  isinstance e ConfigurationDeploymentError = true ->
  cls e = ConfigurationDeploymentError.
Proof. destruct e as [[] msg]; cbn; congruence. Qed.

Ltac caught :=
  unfold try;
  match goal with
  | |- fst (match ?b with _ => _ end) = _ -> _ =>
      destruct b as [[?|?e] ?mc]; [discriminate|]
  end;
  repeat match goal with
         | |- context [if ?b then _ else _] =>
             let E := fresh "E" in destruct b eqn:E
         end;
  unfold raise, new; cbn [fst]; intros [= <-]; cbn [cls];
  auto using exactly_verification, exactly_deployment.

Lemma step1_raises (mc : machine) (e : exn) :
  fst (_step_retrieve_netbox_config w mc) = Raise e ->
  isinstance e NetBoxClientError = false.
Proof.
  unfold _step_retrieve_netbox_config. caught.
Qed.

Lemma step2_raises (mc : machine) (e : exn) :
  fst (_step_create_ftp_file w mc) = Raise e -> isinstance e SSHError = false.
Proof. unfold _step_create_ftp_file. caught. Qed.

Lemma step3_raises (mc : machine) (e : exn) :
  fst (_step_connect_to_console w mc) = Raise e ->
  isinstance e ConnectionError = false /\ isinstance e CommandExecutionError = false.
Proof.
  unfold _step_connect_to_console. caught. now apply orb_false_iff in E.
Qed.

Lemma step4_raises (mc : machine) (e : exn) :
  fst (_step_verify_device w mc) = Raise e ->
  cls e = DeviceVerificationError \/ cls e = ProvisioningError.
Proof. unfold _step_verify_device. caught. Qed.

Lemma step5_raises (mc : machine) (e : exn) :
  fst (_step_copy_config_to_flash w mc) = Raise e ->
  cls e = ConfigurationDeploymentError \/ cls e = ProvisioningError.
Proof. unfold _step_copy_config_to_flash. caught. Qed.

Lemma step6_raises (mc : machine) (e : exn) :
  fst (_step_apply_configuration w mc) = Raise e ->
  cls e = ConfigurationDeploymentError \/ cls e = ProvisioningError.
Proof. unfold _step_apply_configuration. caught. Qed.

End Translation.

(** X19: how the steps translate exceptions.  Whatever the
    collaborators raise, no [NetBoxClientError] (nor a subclass) leaves
    step 1, no [SSHError] (nor a subclass) leaves step 2, no
    [ConnectionError] or [CommandExecutionError] leaves step 3; an
    exception that leaves step 4 is a [DeviceVerificationError] or a
    plain [ProvisioningError], and one that leaves step 5 or step 6 is
    a [ConfigurationDeploymentError] or a plain [ProvisioningError]. *)
Theorem X19_steps_translate_exceptions
  (w : Orchestrator.World) (mc : Orchestrator.machine) (e : exn) :
  (fst (Orchestrator._step_retrieve_netbox_config w mc) = Raise e ->
   isinstance e NetBoxClientError = false) /\
  (fst (Orchestrator._step_create_ftp_file w mc) = Raise e ->
   isinstance e SSHError = false) /\
  (fst (Orchestrator._step_connect_to_console w mc) = Raise e ->
   isinstance e ConnectionError = false /\ isinstance e CommandExecutionError = false) /\
  (fst (Orchestrator._step_verify_device w mc) = Raise e ->
   cls e = DeviceVerificationError \/ cls e = ProvisioningError) /\
  (fst (Orchestrator._step_copy_config_to_flash w mc) = Raise e ->
   cls e = ConfigurationDeploymentError \/ cls e = ProvisioningError) /\
  (fst (Orchestrator._step_apply_configuration w mc) = Raise e ->
   cls e = ConfigurationDeploymentError \/ cls e = ProvisioningError).
Proof.
  split; [apply step1_raises|]. split; [apply step2_raises|].
  split; [apply step3_raises|]. split; [apply step4_raises|].
  split; [apply step5_raises|apply step6_raises].
Qed.

(* ================================================================== *)
(** ** The NetBox client *)

Section NetBox.
Import NetBoxClient.
Variable devices_get : string -> lookup.

Lemma get_device_returns (device_name : string) (d : device) :
  get_device devices_get device_name = Return d <-> devices_get device_name = Found d.
Proof.
  unfold get_device. destruct (devices_get device_name) as [d'| |msg|e].
  - split; intros [= ->]; reflexivity.
  - split; discriminate.
  - split; discriminate.
  - destruct (isinstance e DeviceNotFoundError); split; discriminate.
Qed.

Lemma get_device_raises (device_name : string) (e : exn) :
  get_device devices_get device_name = Raise e -> isinstance e NetBoxClientError = true.
Proof.
  unfold get_device. destruct (devices_get device_name) as [d'| |msg|e'].
  - discriminate.
  - intros [= <-]. reflexivity.
  - intros [= <-]. reflexivity.
  - destruct (isinstance e' DeviceNotFoundError) eqn:E; intros [= <-]; [|reflexivity].
    destruct e' as [[] msg]; cbn in *; congruence.
Qed.

End NetBox.

Section Chosen.
Import NetBoxClient.
Variable d : device.

Lemma context_chosen (v0 : json) :
  from_config_context d v0 = v0 \/ stored d (from_config_context d v0).
Proof.
  unfold from_config_context.
  destruct (config_context d) as [| |cc] eqn:Ec; auto.
  destruct cc as [|kv cc']; auto.
  destruct (has_key "startup_config" (kv :: cc')).
  - right. exists (kv :: cc'), "startup_config". repeat split; auto.
  - destruct (has_key "configuration" (kv :: cc')); auto.
    right. exists (kv :: cc'), "configuration". repeat split; auto.
Qed.

Lemma fields_chosen (v0 v : json) :
  from_custom_fields d v0 = Return v -> v = v0 \/ stored d v.
Proof.
  unfold from_custom_fields.
  destruct (negb (truthy v0)); [|intros [= <-]; auto].
  destruct (custom_fields d) as [| |cf] eqn:Ec; [intros [= <-]; auto|discriminate|].
  destruct (truthy (get "startup_config" cf)).
  - intros [= <-]. right. exists cf, "startup_config". repeat split; auto.
  - destruct (truthy (get "configuration" cf)).
    + intros [= <-]. right. exists cf, "configuration". repeat split; auto.
    + intros [= <-]; auto.
Qed.

Lemma fields_refused (v0 : json) (e : exn) :
  from_custom_fields d v0 = Raise e ->
  custom_fields d = IsNone /\ cls e = AttributeError.
Proof.
  unfold from_custom_fields.
  destruct (negb (truthy v0)); [|discriminate].
  destruct (custom_fields d) as [| |cf]; [discriminate| |].
  - intros [= <-]. auto.
  - destruct (truthy _); [discriminate|]. destruct (truthy _); discriminate.
Qed.

Lemma local_chosen (v0 : json) :
  from_local_context d v0 = v0 \/ stored d (from_local_context d v0).
Proof.
  unfold from_local_context.
  destruct (negb (truthy v0)); auto.
  destruct (local_context_data d) as [| |lc] eqn:Ec; auto.
  destruct lc as [|kv lc']; auto.
  destruct (has_key "configuration" (kv :: lc')); auto.
  right. exists (kv :: lc'), "configuration". repeat split; auto.
Qed.

(** What the three sources leave is [None] or a value stored for the
    device. *)
Lemma config_chosen (v : json) :
  from_custom_fields d (from_config_context d JNone) = Return v ->
  from_local_context d v = JNone \/ stored d (from_local_context d v).
Proof.
  intros H. destruct (local_chosen v) as [->|]; [|now right].
  destruct (fields_chosen _ _ H) as [->|]; [|now right].
  destruct (context_chosen JNone) as [->|]; [now left|now right].
Qed.

End Chosen.

(** X20: what [get_device_config] returns.  A configuration that is
    returned is a text stored for the device under the key
    [startup_config] or [configuration] of its config context, custom
    fields or local context, returned as stored (not trimmed), and it
    holds at least one character that is not white space.  An exception
    that leaves the call is a [NetBoxClientError] (or a subclass), or
    an [AttributeError]: that of custom fields that are [None], or that
    of a stored value which is true and no string (a number, a list, a
    dictionary), on which [strip] is called. *)
Theorem X20_config_is_stored_and_not_blank
  (devices_get : string -> NetBoxClient.lookup) (device_name : string) :
  (forall cfg,
     NetBoxClient.get_device_config devices_get device_name = Return cfg ->
     exists d, devices_get device_name = NetBoxClient.Found d /\
               stored d (NetBoxClient.JStr cfg) /\ Py.truthy (Py.strip cfg) = true) /\
  (forall e,
     NetBoxClient.get_device_config devices_get device_name = Raise e ->
     isinstance e NetBoxClientError = true \/
     (cls e = AttributeError /\
      exists d, devices_get device_name = NetBoxClient.Found d /\
        (NetBoxClient.custom_fields d = NetBoxClient.IsNone \/
         exists type_name, stored d (NetBoxClient.JOther true type_name)))).
Proof.
  unfold NetBoxClient.get_device_config.
  destruct (NetBoxClient.get_device devices_get device_name) as [d|e0] eqn:Ed.
  2: { split; [discriminate|]. intros e [= <-]. left.
       exact (get_device_raises _ _ _ Ed). }
  apply get_device_returns in Ed.
  destruct (NetBoxClient.from_custom_fields d _) as [v|e0] eqn:E2.
  2: { split; [discriminate|]. intros e [= <-]. right.
       destruct (fields_refused d _ _ E2) as [Hn Hc]. split; [exact Hc|].
       exists d. auto. }
  pose proof (config_chosen d v E2) as Hch.
  destruct (NetBoxClient.from_local_context d v) as [|s|truth ty]; cbn [NetBoxClient.truthy negb].
  - split; [discriminate|]. intros e [= <-]. now left.
  - destruct (Py.truthy s); cbn [negb].
    + destruct (Py.truthy (Py.strip s)) eqn:Es; cbn [negb].
      * split; [|discriminate]. intros cfg [= <-]. exists d.
        destruct Hch as [|Hst]; [discriminate|]. auto.
      * split; [discriminate|]. intros e [= <-]. now left.
    + split; [discriminate|]. intros e [= <-]. now left.
  - destruct truth; cbn [negb].
    + split; [discriminate|]. intros e [= <-]. right. split; [reflexivity|].
      exists d. split; [exact Ed|]. right. exists ty.
      destruct Hch as [|Hst]; [discriminate|exact Hst].
    + split; [discriminate|]. intros e [= <-]. now left.
Qed.

(** X21: the config context comes first, and its key [startup_config]
    hides its key [configuration].  For a device whose config context
    is a dictionary with the key [startup_config]: a non-empty text
    under that key decides the call alone, it is returned if it is not
    blank and otherwise the call fails without looking at any other
    source; a value under that key that is true and no text makes the
    call fail on its [strip]; and anything else there (an empty text,
    [None], a number 0, an empty list) makes the call behave as if the
    device had no config context at all, whatever is stored under
    [configuration] there. *)
Theorem X21_startup_config_of_the_context_decides
  (devices_get : string -> NetBoxClient.lookup) (device_name : string)
  (d : NetBoxClient.device) (cc : NetBoxClient.dict) :
  devices_get device_name = NetBoxClient.Found d ->
  NetBoxClient.config_context d = NetBoxClient.Dict cc ->
  NetBoxClient.has_key "startup_config" cc = true ->
  NetBoxClient.get_device_config devices_get device_name
  = match NetBoxClient.get "startup_config" cc with
    | NetBoxClient.JStr (String _ _ as s) =>
        if Py.truthy (Py.strip s) then Return s
        else Raise (is_empty_error device_name)
    | NetBoxClient.JOther true type_name => Raise (NetBoxClient.no_strip type_name)
    | _ =>
        NetBoxClient.get_device_config
          (fun _ => NetBoxClient.Found (without_context d)) device_name
    end.
Proof.
  intros Hd Hc Hk.
  unfold NetBoxClient.get_device_config, NetBoxClient.get_device. rewrite Hd.
  unfold NetBoxClient.from_config_context. rewrite Hc.
  destruct cc as [|kv cc']; [discriminate|]. rewrite Hk.
  cbn [NetBoxClient.config_context without_context].
  assert (forall v0,
            NetBoxClient.truthy v0 = false ->
            match NetBoxClient.from_custom_fields d v0 with
            | Return config =>
                if negb (NetBoxClient.truthy (NetBoxClient.from_local_context d config))
                then Raise (NetBoxClient.not_available device_name)
                else
                  match NetBoxClient.from_local_context d config with
                  | NetBoxClient.JStr config0 =>
                      if negb (Py.truthy (Py.strip config0))
                      then Raise (mkExn ConfigurationNotFoundError
                                    ("Configuration for device '" ++ device_name
                                     ++ "' is empty"))
                      else Return config0
                  | NetBoxClient.JOther _ type_name => Raise (NetBoxClient.no_strip type_name)
                  | NetBoxClient.JNone => Raise (NetBoxClient.no_strip "NoneType")
                  end
            | Raise e => Raise e
            end
            = match NetBoxClient.from_custom_fields (without_context d) NetBoxClient.JNone with
              | Return config =>
                  if negb (NetBoxClient.truthy
                             (NetBoxClient.from_local_context (without_context d) config))
                  then Raise (NetBoxClient.not_available device_name)
                  else
                    match NetBoxClient.from_local_context (without_context d) config with
                    | NetBoxClient.JStr config0 =>
                        if negb (Py.truthy (Py.strip config0))
                        then Raise (mkExn ConfigurationNotFoundError
                                      ("Configuration for device '" ++ device_name
                                       ++ "' is empty"))
                        else Return config0
                    | NetBoxClient.JOther _ type_name =>
                        Raise (NetBoxClient.no_strip type_name)
                    | NetBoxClient.JNone => Raise (NetBoxClient.no_strip "NoneType")
                    end
              | Raise e => Raise e
              end) as Hfall.
  { intros v0 Hv0.
    unfold NetBoxClient.from_custom_fields, NetBoxClient.from_local_context.
    cbn [NetBoxClient.custom_fields NetBoxClient.local_context_data without_context
         NetBoxClient.truthy negb].
    rewrite Hv0. cbn [negb].
    destruct (NetBoxClient.custom_fields d) as [| |cf]; [|reflexivity|].
    - rewrite Hv0. cbn [negb NetBoxClient.truthy].
      destruct (NetBoxClient.local_context_data d) as [| |[|kv' lc]];
        cbn [NetBoxClient.truthy negb]; rewrite ?Hv0; try reflexivity.
      destruct (NetBoxClient.has_key "configuration" (kv' :: lc));
        cbn [NetBoxClient.truthy negb]; rewrite ?Hv0; reflexivity.
    - destruct (NetBoxClient.truthy (NetBoxClient.get "startup_config" cf));
        [reflexivity|].
      destruct (NetBoxClient.truthy (NetBoxClient.get "configuration" cf));
        [reflexivity|].
      rewrite Hv0. cbn [negb NetBoxClient.truthy].
      destruct (NetBoxClient.local_context_data d) as [| |[|kv' lc]];
        cbn [NetBoxClient.truthy negb]; rewrite ?Hv0; try reflexivity.
      destruct (NetBoxClient.has_key "configuration" (kv' :: lc));
        cbn [NetBoxClient.truthy negb]; rewrite ?Hv0; reflexivity. }
  destruct (NetBoxClient.get "startup_config" (kv :: cc')) as [|[|c s]|[|] ty] eqn:Eg.
  - apply Hfall. reflexivity.
  - apply Hfall. reflexivity.
  - unfold NetBoxClient.from_custom_fields, NetBoxClient.from_local_context.
    cbn [NetBoxClient.truthy Py.truthy negb]. cbv iota.
    cbn [NetBoxClient.truthy Py.truthy negb].
    now destruct (Py.truthy (Py.strip (String c s))).
  - unfold NetBoxClient.from_custom_fields, NetBoxClient.from_local_context.
    cbn [NetBoxClient.truthy Py.truthy negb]. reflexivity.
  - apply Hfall. reflexivity.
Qed.

Lemma X21_startup_config_of_the_context_decides_witness :
  let d := NetBoxClient.mkDevice
             (NetBoxClient.Dict [("startup_config", NetBoxClient.JStr "");
                                 ("configuration", NetBoxClient.JStr "hostname edge-1")])
             (NetBoxClient.Dict []) NetBoxClient.Missing
             (NetBoxClient.PyStr "FOC2345ABCD") in
  let cc := [("startup_config", NetBoxClient.JStr "");
             ("configuration", NetBoxClient.JStr "hostname edge-1")] in
  NetBoxClient.get_device_config (fun _ => NetBoxClient.Found d) "edge-1"
  = match NetBoxClient.get "startup_config" cc with
    | NetBoxClient.JStr (String _ _ as s) =>
        if Py.truthy (Py.strip s) then Return s
        else Raise (is_empty_error "edge-1")
    | NetBoxClient.JOther true type_name => Raise (NetBoxClient.no_strip type_name)
    | _ =>
        NetBoxClient.get_device_config
          (fun _ => NetBoxClient.Found (without_context d)) "edge-1"
    end.
Proof.
  intros d cc.
  apply (X21_startup_config_of_the_context_decides
           (fun _ => NetBoxClient.Found d) "edge-1" d cc); reflexivity.
Defined.

(** X22: what [get_device_serial] returns.  It returns exactly for a
    device that is found and has a non-empty serial, and then the
    serial trimmed of white space at both ends, so that trimming the
    result again changes nothing; a serial of white space only is
    accepted and returned as the empty string.  Every exception that
    leaves the call is a [NetBoxClientError] (or a subclass). *)
Theorem X22_serial_is_trimmed_and_may_be_empty
  (devices_get : string -> NetBoxClient.lookup) (device_name : string) :
  (forall s,
     NetBoxClient.get_device_serial devices_get device_name = Return s <->
     exists d raw,
       devices_get device_name = NetBoxClient.Found d /\
       NetBoxClient.serial d = NetBoxClient.PyStr raw /\
       raw <> EmptyString /\ s = Py.strip raw) /\
  (forall s,
     NetBoxClient.get_device_serial devices_get device_name = Return s ->
     Py.strip s = s) /\
  (forall d raw,
     devices_get device_name = NetBoxClient.Found d ->
     NetBoxClient.serial d = NetBoxClient.PyStr raw ->
     raw <> EmptyString -> Py.strip raw = EmptyString ->
     NetBoxClient.get_device_serial devices_get device_name = Return EmptyString) /\
  (forall e,
     NetBoxClient.get_device_serial devices_get device_name = Raise e ->
     isinstance e NetBoxClientError = true).
Proof.
  assert (forall s,
     NetBoxClient.get_device_serial devices_get device_name = Return s <->
     exists d raw,
       devices_get device_name = NetBoxClient.Found d /\
       NetBoxClient.serial d = NetBoxClient.PyStr raw /\
       raw <> EmptyString /\ s = Py.strip raw) as Hiff.
  { intros s. unfold NetBoxClient.get_device_serial.
    destruct (NetBoxClient.get_device devices_get device_name) as [d|e] eqn:Ed.
    - apply get_device_returns in Ed. split.
      + destruct (NetBoxClient.serial d) as [|raw] eqn:Er; [discriminate|].
        destruct raw as [|c raw]; [discriminate|]. cbn [Py.truthy negb].
        intros [= <-]. exists d, (String c raw). repeat split; trivial. discriminate.
      + intros (d' & raw & Hd & Hr & Hne & ->). rewrite Ed in Hd. injection Hd as <-.
        rewrite Hr. destruct raw; [congruence|reflexivity].
    - split; [discriminate|].
      intros (d' & raw & Hd & _). apply get_device_returns in Hd. congruence. }
  split; [exact Hiff|]. split; [|split].
  - intros s H. apply Hiff in H as (d & raw & _ & _ & _ & ->).
    apply strip_idempotent.
  - intros d raw Hd Hr Hne Hs. apply Hiff. exists d, raw. auto.
  - intros e. unfold NetBoxClient.get_device_serial.
    destruct (NetBoxClient.get_device devices_get device_name) as [d|e0] eqn:Ed.
    + destruct (NetBoxClient.serial d) as [|raw]; [intros [= <-]; reflexivity|].
      destruct (Py.truthy raw); cbn [negb]; [discriminate|intros [= <-]; reflexivity].
    + intros [= <-]. exact (get_device_raises _ _ _ Ed).
Qed.

Section Expected.
Import Orchestrator.
Variable w : World.

Lemma same_expected_refl (mc : machine) : same_expected mc mc.
Proof. reflexivity. Qed.

Lemma same_expected_trans (a b c : machine) :
  same_expected a b -> same_expected b c -> same_expected a c.
Proof. unfold same_expected. congruence. Qed.

Ltac same_expected_all :=
  keeps_all same_expected_refl same_expected_trans;
  try (intros ?; reflexivity).

Lemma step2_same_expected : keeps same_expected (_step_create_ftp_file w).
Proof. unfold _step_create_ftp_file. same_expected_all. Qed.

Lemma step3_same_expected : keeps same_expected (_step_connect_to_console w).
Proof.
  unfold _step_connect_to_console. same_expected_all.
  unfold _enter_enable_mode. same_expected_all.
Qed.

Lemma step4_same_expected : keeps same_expected (_step_verify_device w).
Proof. unfold _step_verify_device. same_expected_all. Qed.

(** Step 1 returns with the serial the inventory gave, asked in the
    third call of the step. *)
Lemma step1_expected (mc mc' : machine) :
  _step_retrieve_netbox_config w mc = (Return tt, mc') ->
  exists serial,
    w (List.length (trace mc) + 2) (get_device_serial (device_name (self mc)))
    = Return serial /\
    expected_serial (self mc') = Some serial.
Proof.
  unfold _step_retrieve_netbox_config, try, bind, netbox_new, ask_unit, nb_config,
    nb_serial, ask, modify, get.
  cbn [self trace].
  destruct (w (List.length (trace mc)) NetBoxClient_new) as [[]|e].
  2: { repeat match goal with
              | |- context [if ?b then _ else _] => destruct b
              end; discriminate. }
  cbn [self trace device_name set_state set_netbox_client].
  rewrite !length_app. cbn [List.length].
  destruct (w (List.length (trace mc) + 1) (get_device_config (device_name (self mc))))
    as [cfg|e].
  2: { repeat match goal with
              | |- context [if ?b then _ else _] => destruct b
              end; discriminate. }
  cbn [self trace device_name set_state set_netbox_client set_device_config].
  rewrite <- Nat.add_assoc. cbn [Nat.add].
  destruct (w (List.length (trace mc) + 2) (get_device_serial (device_name (self mc))))
    as [serial|e].
  2: { repeat match goal with
              | |- context [if ?b then _ else _] => destruct b
              end; discriminate. }
  cbn [self trace]. intros [= <-]. exists serial. split; reflexivity.
Qed.

(** The six steps either fail without a configuration command, or have
    read from the device a serial that is not empty and equals, without
    regard to case, the serial the inventory gave. *)
Lemma steps_pass (mc : machine) :
  (exists new cause,
     trace (snd (steps w mc)) = (trace mc ++ new)%list /\
     forallb no_configuration new = true /\
     fst (steps w mc) = Raise cause)
  \/
  (exists expected actual,
     w (List.length (trace mc) + 2) (get_device_serial (device_name (self mc)))
     = Return expected /\
     actual <> EmptyString /\
     Py.lower expected = Py.lower actual /\
     expected_serial (self (snd (steps w mc))) = Some expected /\
     actual_serial (self (snd (steps w mc))) = Some actual).
Proof.
  assert (emits no_configuration (preparation w)) as Hprep
    by (apply preparation_emits; reflexivity).
  pose proof (Hprep mc) as (n1 & E1 & F1).
  unfold steps. revert E1. unfold preparation, bind.
  destruct (_step_retrieve_netbox_config w mc) as [[[]|?] m1] eqn:Es1; [|intros E; left; exists n1; eexists; cbn [fst snd] in *; repeat split; trivial].
  pose proof (step2_same_expected m1) as K2.
  destruct (_step_create_ftp_file w m1) as [[[]|?] m2]; [|intros E; left; exists n1; eexists; cbn [fst snd] in *; repeat split; trivial].
  pose proof (step3_same_expected m2) as K3.
  destruct (_step_connect_to_console w m2) as [[[]|?] m3]; [|intros E; left; exists n1; eexists; cbn [fst snd] in *; repeat split; trivial].
  cbn [snd] in *. intros E3.
  destruct (step4_emits_no_configuration w m3) as (n4 & E4 & F4).
  pose proof (step4_same_expected m3) as K4.
  destruct (_step_verify_device w m3) as [[[]|?] m4] eqn:Ev.
  2: { left. exists (n1 ++ n4)%list. cbn [snd fst] in *.
       rewrite E4, E3, app_assoc, forallb_app, F1, F4. eexists. repeat split. }
  right. cbn [snd] in K4.
  apply verify_returns in Ev as (expected & actual & output & _ & Hp & He & Ha & Hl & _).
  apply step1_expected in Es1 as (serial & Hw & Hs).
  assert (only_state m4
            (snd ((_step_copy_config_to_flash w ;; _step_apply_configuration w ;;
                   modify (set_state COMPLETED) ;; ret true) m4))) as (s & Es).
  { apply (keeps_bind _ only_state_trans); [apply step5_only_state|intros _].
    apply (keeps_bind _ only_state_trans); [apply step6_only_state|intros _].
    apply (keeps_bind _ only_state_trans);
      [apply keeps_modify, only_state_set|intros _].
    apply keeps_ret, only_state_refl. }
  unfold bind in Es. rewrite Es. cbn [expected_serial actual_serial set_state].
  unfold same_expected in *. pose proof He as He'.
  rewrite K4, K3, K2, Hs in He'. injection He' as ->.
  exists expected, actual. repeat split; trivial.
  apply truthy_nonempty. exact (parsed_serial_truthy _ _ Hp).
Qed.

End Expected.

(** X23: a blank serial in the inventory blocks the provisioning.  When
    the serial the workflow expects comes from [get_device_serial] and
    NetBox holds for the device a serial of white space only (or none),
    no run returns [True], and no configuration command is sent to the
    device: the client hands out the empty string, which no serial read
    from a device can match. *)
Theorem X23_blank_inventory_serial_blocks_provisioning
  (devices_get : string -> NetBoxClient.lookup) (w : Orchestrator.World)
  (o : Orchestrator.orchestrator) (d : NetBoxClient.device) (raw : string) :
  devices_get (Orchestrator.device_name o) = NetBoxClient.Found d ->
  NetBoxClient.serial d = NetBoxClient.PyStr raw ->
  Py.strip raw = EmptyString ->
  let run := Orchestrator.run (with_inventory devices_get w) o in
  (exists msg, fst run = Raise (mkExn ProvisioningError msg)) /\
  forallb no_configuration (Orchestrator.trace (snd run)) = true.
Proof.
  intros Hd Hr Hs run. subst run. unfold Orchestrator.run.
  set (w' := with_inventory devices_get w).
  set (mc := Orchestrator.mkMachine o []).
  destruct (provision_device_trace w' no_configuration mc eq_refl eq_refl)
    as (closing & Etr & Hcl).
  pose proof (provision_device_outcome w' mc) as Hout.
  destruct (steps_pass w' mc) as [(new & cause & En & Hn & Hc)|(e & a & Hw & Ha & Hl & _)].
  - rewrite Etr, En. cbn [Orchestrator.trace mc app]. rewrite forallb_app, Hn, Hcl.
    split; [|reflexivity].
    destruct (Orchestrator.steps w' mc) as [[b|cause'] mc1]; [discriminate|].
    destruct Hout as (tr & ->). eexists. reflexivity.
  - exfalso. cbn [Orchestrator.self mc] in Hw. unfold w', with_inventory in Hw.
    unfold NetBoxClient.get_device_serial, NetBoxClient.get_device in Hw.
    rewrite Hd, Hr in Hw.
    destruct (Py.truthy raw); cbn [negb] in Hw; [|discriminate].
    injection Hw as <-. rewrite Hs in Hl. cbn in Hl. symmetry in Hl.
    apply lower_empty in Hl. contradiction.
Qed.

Lemma X23_blank_inventory_serial_blocks_provisioning_witness :
  let w := Scenario.lab "FOC2345ABCD" "96 bytes copied" in
  let run := Orchestrator.run (with_inventory blank_serial w) Scenario.edge1 in
  Py.strip "  " = EmptyString /\
  (exists msg, fst run = Raise (mkExn ProvisioningError msg)) /\
  forallb no_configuration (Orchestrator.trace (snd run)) = true.
Proof.
  intros w run. split; [reflexivity|].
  exact (X23_blank_inventory_serial_blocks_provisioning blank_serial w Scenario.edge1
           (NetBoxClient.mkDevice NetBoxClient.Missing NetBoxClient.Missing
              NetBoxClient.Missing (NetBoxClient.PyStr "  "))
           "  " eq_refl eq_refl eq_refl).
Defined.

(* ================================================================== *)
(** ** The script *)

Section Script.
Import ZeroTouchProvision.
Variable env_file_exists : bool.
Variable getenv : string -> option string.

Lemma validate_spec (vars : list string) :
  forall missing_vars,
    validate getenv vars missing_vars
    = (missing_vars ++ filter (unset getenv) vars)%list.
Proof.
  induction vars as [|var vars IH]; intros acc; cbn [validate filter].
  - now rewrite app_nil_r.
  - unfold unset at 1. destruct (negb (Py.truthy_opt (getenv var))).
    + now rewrite IH, <- app_assoc.
    + apply IH.
Qed.

Lemma filter_nil_iff {A} (f : A -> bool) (l : list A) :
  filter f l = [] <-> forall x, In x l -> f x = false.
Proof.
  induction l as [|a l IH]; cbn.
  - split; [intros _ x []|reflexivity].
  - destruct (f a) eqn:E.
    + split; [discriminate|]. intros H. rewrite (H a) in E; [discriminate|now left].
    + rewrite IH. split.
      * intros H x [<-|Hx]; auto.
      * intros H x Hx. apply H. now right.
Qed.

Lemma load_environment_cases :
  (env_file_exists = true /\ filter (unset getenv) required_vars = [] /\
   exists c, load_environment env_file_exists getenv = ([], Returned c) /\
             ftp_server_ip c = getenv "FTP_SERVER_IP" /\
             ftp_username c = getenv "FTP_USERNAME" /\
             ftp_password c = getenv "FTP_PASSWORD" /\
             ftp_directory c = getenv_or getenv "FTP_DIRECTORY" "/srv/ftp")
  \/
  ((env_file_exists = false \/ filter (unset getenv) required_vars <> []) /\
   exists printed, load_environment env_file_exists getenv = (printed, SystemExit 1%Z)).
Proof.
  unfold load_environment. destruct env_file_exists; cbn [negb].
  - rewrite validate_spec. cbn [app].
    destruct (filter (unset getenv) required_vars) as [|v l] eqn:E.
    + left. repeat split. eexists. repeat split.
    + right. split; [right; discriminate|]. eexists. reflexivity.
  - right. split; [now left|]. eexists. reflexivity.
Qed.


End Script.

(** X24: the validation of the environment.  [load_environment]
    returns exactly when the [.env] file exists and each of the eleven
    required variables is set to a non-empty value, and then prints
    nothing; otherwise it leaves through [sys.exit(1)].  When the file
    exists, the lines ["  - <name>"] it prints name exactly the required
    variables that are unset or empty. *)
Theorem X24_environment_is_validated
  (env_file_exists : bool) (getenv : string -> option string) :
  let ran := ZeroTouchProvision.load_environment env_file_exists getenv in
  ((exists c, ran = ([], ZeroTouchProvision.Returned c)) <->
   env_file_exists = true /\
   forall var, In var ZeroTouchProvision.required_vars ->
               exists v, getenv var = Some v /\ v <> EmptyString) /\
  ((exists c, snd ran = ZeroTouchProvision.Returned c) \/
   snd ran = ZeroTouchProvision.SystemExit 1%Z) /\
  (env_file_exists = true ->
   forall var, In ("  - " ++ var) (fst ran) <->
               In var ZeroTouchProvision.required_vars /\ unset getenv var = true).
Proof.
  intros ran. subst ran.
  assert (filter (unset getenv) ZeroTouchProvision.required_vars = [] <->
          forall var, In var ZeroTouchProvision.required_vars ->
                      exists v, getenv var = Some v /\ v <> EmptyString) as Hf.
  { rewrite filter_nil_iff. split; intros H var Hin; specialize (H var Hin).
    - unfold unset in H. destruct (getenv var) as [[|c v]|]; try discriminate.
      eexists. split; [reflexivity|discriminate].
    - unfold unset. destruct H as (v & -> & Hv). destruct v; [congruence|reflexivity]. }
  destruct (load_environment_cases env_file_exists getenv)
    as [(He & Hm & c & Hl & _)|(Hbad & printed & Hl)].
  - rewrite Hl. cbn [fst snd]. split; [|split].
    + split; [intros _; split; [exact He|now apply Hf]|intros _; eauto].
    + left. eauto.
    + intros _ var. split; [intros []|].
      intros [Hin Hu]. rewrite filter_nil_iff in Hm. rewrite (Hm var Hin) in Hu.
      discriminate.
  - rewrite Hl. cbn [fst snd]. split; [|split].
    + split; [intros (c & [=])|].
      intros [He Hall]. apply Hf in Hall. destruct Hbad; congruence.
    + now right.
    + intros He var. revert Hl. unfold ZeroTouchProvision.load_environment.
      rewrite He. cbn [negb]. rewrite validate_spec. cbn [app].
      destruct (filter (unset getenv) ZeroTouchProvision.required_vars) as [|v l] eqn:E;
        [discriminate|].
      intros [= <-].
      set (line := fun var0 : string => "  - " ++ var0).
      match goal with
      | |- In _ (?a :: _ :: _ ++ [?b])%list <-> ?R =>
          change (In (line var) (a :: map line (v :: l) ++ [b])%list <-> R)
      end.
      rewrite <- E. cbn [In]. rewrite in_app_iff, in_map_iff. cbn [In].
      rewrite <- (filter_In (unset getenv) var ZeroTouchProvision.required_vars).
      split.
      * intros [H|[(x & Hx & Hin)|[H|[]]]]; try discriminate.
        assert (x = var) as <-; [|exact Hin].
        unfold line in Hx. cbn in Hx. now injection Hx.
      * intros H. right. left. exists var. auto.
Qed.

Section Success.
Import Orchestrator.
Variable w : World.


End Success.


(** X26: step 2 once the jump host has taken the file.  When the
    connection and the writing of the file have succeeded, the listing
    of the file decides: with exit code 0 the state becomes
    [FTP_FILE_CREATED]; with any other exit code the step raises
    [ProvisioningError] with the error output of the listing in its
    message and the state stays as it was.  In both cases the file name
    and the manager of the jump host are recorded, and exactly three
    calls were made. *)
Theorem X26_staging_is_decided_by_the_listing
  (w : Orchestrator.World) (mc : Orchestrator.machine)
  (stdout stderr : string) (exit_code : Z) :
  let o := Orchestrator.self mc in
  let n := List.length (Orchestrator.trace mc) in
  w n Orchestrator.SSHManager_connect = Return tt ->
  w (n + 1) (Orchestrator.create_remote_file (staged_path o)
               (Orchestrator.fmt (Orchestrator.device_config o))) = Return tt ->
  w (n + 2) (Orchestrator.execute_command ("ls -lh " ++ staged_path o))
  = Return (stdout, stderr, exit_code) ->
  Orchestrator._step_create_ftp_file w mc
  = if (exit_code =? 0)%Z
    then (Return tt,
          Orchestrator.mkMachine
            (Orchestrator.set_state Orchestrator.FTP_FILE_CREATED (with_manager o))
            (Orchestrator.trace mc ++ staging_calls o)%list)
    else (Raise (mkExn ProvisioningError
                   ("Failed to create FTP file: File verification failed: " ++ stderr)),
          Orchestrator.mkMachine (with_manager o)
            (Orchestrator.trace mc ++ staging_calls o)%list).
Proof.
  intros o n H1 H2 H3. subst o n. destruct mc as [o tr].
  cbn [Orchestrator.self Orchestrator.trace] in *.
  unfold Orchestrator._step_create_ftp_file, Orchestrator.try, Orchestrator.bind,
    Orchestrator.get, Orchestrator.modify, Orchestrator.ssh_connect,
    Orchestrator.ssh_create, Orchestrator.ssh_exec, Orchestrator.ask_unit,
    Orchestrator.ask.
  cbn [Orchestrator.self Orchestrator.trace Orchestrator.ftp_directory
       Orchestrator.device_name Orchestrator.device_config
       Orchestrator.set_ssh_manager Orchestrator.set_config_filename].
  rewrite H1. cbn [Orchestrator.self Orchestrator.trace].
  rewrite length_app. cbn [List.length]. unfold staged_path in *. rewrite H2.
  cbn [Orchestrator.self Orchestrator.trace].
  rewrite !length_app. cbn [List.length]. rewrite <- Nat.add_assoc. cbn [Nat.add].
  rewrite H3. unfold staging_calls, staged_path, with_manager.
  destruct (exit_code =? 0)%Z; cbn; rewrite <- !app_assoc; reflexivity.
Qed.

Lemma X26_staging_is_decided_by_the_listing_witness :
  let w := Scenario.lab "FOC2345ABCD" "96 bytes copied" in
  let mc := Orchestrator.mkMachine Scenario.edge1 [] in
  Orchestrator._step_create_ftp_file w mc
  = if (0 =? 0)%Z
    then (Return tt,
          Orchestrator.mkMachine
            (Orchestrator.set_state Orchestrator.FTP_FILE_CREATED
               (with_manager Scenario.edge1))
            (Orchestrator.trace mc ++ staging_calls Scenario.edge1)%list)
    else (Raise (mkExn ProvisioningError
                   ("Failed to create FTP file: File verification failed: " ++ "")),
          Orchestrator.mkMachine (with_manager Scenario.edge1)
            (Orchestrator.trace mc ++ staging_calls Scenario.edge1)%list).
Proof.
  intros w mc.
  apply (X26_staging_is_decided_by_the_listing w mc
           "-rw-r--r-- 1 ftp ftp 96 edge-1.txt" "" 0%Z); reflexivity.
Defined.

Section Markers.
Import Re.

Lemma finditer_found (r : regex) (fuel : nat) :
  forall (pv : option ascii) (s : string) (st : mstate),
    In st (finditer fuel r pv s) ->
    exists pv' x s', s = x ++ s' /\ match_at r pv' s' = Some st.
Proof.
  induction fuel as [|fuel IH]; intros pv s st H; cbn [finditer] in H; [contradiction|].
  destruct (scan r pv s) as [[pre st0]|] eqn:Es; [|contradiction].
  pose proof (scan_found _ _ _ _ _ Es) as (pv' & s' & Hs & Hm).
  destruct H as [<-|H]; [eauto|].
  pose proof Hm as Hr. unfold match_at in Hr.
  apply m_result in Hr as (s1 & [= ->] & w & Hw). cbn [rest] in Hw.
  destruct (advanced s pre st0 =? 0).
  - destruct (rest st0) as [|c t] eqn:Er; [contradiction|].
    apply IH in H as (pv2 & x & s2 & Ht & Hm2).
    exists pv2, (pre ++ w ++ String c x), s2. split; [|exact Hm2].
    rewrite Hs, Hw, Ht. cbn [append]. now rewrite !append_assoc.
  - apply IH in H as (pv2 & x & s2 & Ht & Hm2).
    exists pv2, (pre ++ w ++ x), s2. split; [|exact Hm2].
    rewrite Hs, Hw, Ht. now rewrite !append_assoc.
Qed.

Lemma findall1_run (cls : ascii -> bool) (fl : flags) (pattern s v : string) :
  ends_in_run cls (compile fl pattern) = true ->
  In v (findall1 fl pattern s) ->
  run_of cls v /\ Py.contains v s = true.
Proof.
  intros He H. unfold findall1, matches in H. apply in_map_iff in H as (st & <- & Hin).
  apply finditer_found in Hin as (pv' & x & s' & -> & Hm).
  unfold match_at in Hm.
  apply (ends_in_run_sound cls) in Hm as (x' & w & y & Hg & Hw & Hr); [|exact He].
  cbn [rest] in Hr. rewrite Hg, Hr. split; [exact Hw|].
  rewrite <- append_assoc. apply contains_inside.
Qed.

Lemma In_firstn {A} (n : nat) (l : list A) (x : A) : In x (firstn n l) -> In x l.
Proof.
  revert l. induction n as [|n IH]; intros [|a l]; cbn; try contradiction.
  intros [->|H]; auto.
Qed.

Lemma described_type (ms : list (string * string)) (t v : string) :
  In (t, v) (Orchestrator.described ms) -> t = "interface".
Proof.
  induction ms as [|[i d] ms IH]; cbn; [contradiction|].
  destruct (Py.truthy d && Py.truthy (Py.strip d)); [|exact IH].
  intros [[= <- _]|H]; auto.
Qed.

End Markers.

(** X27: the values of the hostname and VLAN markers.  In the markers
    extracted from a configuration, the value of a [hostname] marker is
    a non-empty word without white space, the value of a [vlan] marker
    a non-empty number in decimal digits, and both occur literally in
    the configuration. *)
Theorem X27_hostname_and_vlan_markers_are_words_of_the_configuration
  (cfg t v : string) :
  In (t, v) (Orchestrator._extract_verification_markers (Some cfg)) ->
  (t = "hostname" -> run_of nonspace v /\ Py.contains v cfg = true) /\
  (t = "vlan" -> run_of Py.isdigit v /\ Py.contains v cfg = true).
Proof.
  cbn [Orchestrator._extract_verification_markers].
  destruct (negb (Py.truthy cfg)); [contradiction|].
  rewrite !in_app_iff. intros [H|[H|[H|H]]].
  - unfold Orchestrator.hostname_markers in H.
    destruct (Re.search Re.MULTILINE "^hostname\s+(\S+)" cfg) as [mt|] eqn:Es;
      [|contradiction].
    destruct H as [[= <- <-]|[]]. split; [intros _|discriminate].
    apply (search_run nonspace Re.MULTILINE "^hostname\s+(\S+)"); [|exact Es].
    vm_compute. reflexivity.
  - unfold Orchestrator.interface_markers in H. apply described_type in H as ->.
    split; discriminate.
  - unfold Orchestrator.vlan_markers in H.
    apply in_map_iff in H as (vlan & [= <- <-] & Hin). apply In_firstn in Hin.
    split; [discriminate|intros _].
    apply (findall1_run Py.isdigit Re.MULTILINE "^vlan\s+(\d+)"); [|exact Hin].
    vm_compute. reflexivity.
  - unfold Orchestrator.ip_markers in H.
    apply in_map_iff in H as ([ip mask] & [= <- <-] & Hin). split; discriminate.
Qed.

Lemma X27_hostname_and_vlan_markers_are_words_of_the_configuration_witness :
  In ("vlan", "10")
     (Orchestrator._extract_verification_markers (Some Scenario.edge_config)) /\
  ("vlan" = "hostname" ->
   run_of nonspace "10" /\ Py.contains "10" Scenario.edge_config = true) /\
  ("vlan" = "vlan" ->
   run_of Py.isdigit "10" /\ Py.contains "10" Scenario.edge_config = true).
Proof.
  assert (In ("vlan", "10")
            (Orchestrator._extract_verification_markers (Some Scenario.edge_config))) as H
    by (vm_compute; auto 10).
  split; [exact H|].
  exact (X27_hostname_and_vlan_markers_are_words_of_the_configuration
           Scenario.edge_config "vlan" "10" H).
Defined.
